(** * Forex feature-engineering pipeline: target labels, indicators, trimming

    A shallow embedding of [src/data/feature_engineering.py].  A pandas
    float64 column is a list of IEEE-754 binary64 values (Rocq's axiom-free
    [spec_float] at precision 53), with NaN as the missing value; integer
    columns are lists of [Z].  The pandas and numpy operations the source
    calls are collected in [Pd]; the functions of the source keep their
    names. *)

From Stdlib Require Import String ZArith List Bool Lia DecimalString.
From Stdlib Require Import Floats.SpecFloat.
Import ListNotations.

Local Open Scope Z_scope.

(** ** Binary64 arithmetic *)

Module F64.

Definition float := spec_float.

Definition prec : Z := 53.
Definition emax : Z := 1024.

Definition nan : float := S754_nan.
Definition add : float -> float -> float := SFadd prec emax.
Definition sub : float -> float -> float := SFsub prec emax.
Definition mul : float -> float -> float := SFmul prec emax.
Definition div : float -> float -> float := SFdiv prec emax.
Definition sqrt : float -> float := SFsqrt prec emax.
Definition opp : float -> float := SFopp.
Definition abs : float -> float := SFabs.

(** Python's [x < y], [x > y], [x == y] on floats: false as soon as one
    side is NaN. *)
Definition ltb : float -> float -> bool := SFltb.
Definition gtb (x y : float) : bool := SFltb y x.
Definition eqb : float -> float -> bool := SFeqb.

Definition is_nan (x : float) : bool :=
  match x with S754_nan => true | _ => false end.

Definition is_finite (x : float) : bool :=
  match x with S754_zero _ | S754_finite _ _ _ => true | _ => false end.

Definition is_zero (x : float) : bool :=
  match x with S754_zero _ => true | _ => false end.

(** Conversion of a Python [int] to float (exact below 2^53, rounded to
    nearest even above). *)
Definition of_Z (z : Z) : float := binary_normalize prec emax z 0 false.

(** The decimal literal [m]e-[k], e.g. [dec 1 3] for [0.001]: the binary64
    value nearest to m / 10^k, which is what Python's parser produces
    (one correctly rounded division of two exactly representable
    integers, for |m| < 2^53 and k <= 22). *)
Definition dec (m : Z) (k : nat) : float :=
  div (of_Z m) (of_Z (10 ^ Z.of_nat k)).

(** [signed s x]: [x] is a zero, an infinity or a finite number of sign
    [s]; in particular it is not NaN. *)
Definition signed (s : bool) (x : float) : Prop :=
  x = S754_zero s \/ x = S754_infinity s \/ exists m e, x = S754_finite s m e.

End F64.

Abbreviation float := F64.float.
Abbreviation NaN := F64.nan.

(** ** Exceptions

    Python exceptions as values: a computation that can raise returns
    [result]. *)

Inductive exn : Type :=
  | KeyError (name : string)
  | ValueError (msg : string)
  | TypeError (msg : string)
  | AttributeError (msg : string).

Inductive result (A : Type) : Type :=
  | Ok (a : A)
  | Raise (e : exn).

Arguments Ok {A} a.
Arguments Raise {A} e.

Definition bind {A B : Type} (m : result A) (k : A -> result B) : result B :=
  match m with
  | Ok a => k a
  | Raise e => Raise e
  end.

Notation "x <- m ;; k" := (bind m (fun x => k))
  (at level 61, m at next level, right associativity).

Notation "' p <- m ;; k" := (bind m (fun p => k))
  (at level 61, p pattern, m at next level, right associativity).

Definition raises {A : Type} (m : result A) : Prop := exists e, m = Raise e.

Definition returns {A : Type} (m : result A) : Prop := exists a, m = Ok a.

(** ** pandas and numpy operations used by the source

    A [Series] carries the default positional index 0 .. n-1, as every
    column of a frame read by [pd.read_csv] does. *)

Module Pd.

Definition Series := list float.

(** [s.iloc[i]] read with a possibly out-of-range position: the missing
    value outside the index. *)
Definition at_ (s : Series) (i : Z) : float :=
  if i <? 0 then NaN else nth (Z.to_nat i) s NaN.

Definition index (n : nat) : list Z := map Z.of_nat (seq 0 n).

(** [s.shift(k)]: row t receives the value of row t - k; rows without a
    source are filled with NaN.  [k] may be negative. *)
Definition shift (s : Series) (k : Z) : Series :=
  map (fun t => at_ s (t - k)) (index (length s)).

(** Arithmetic between two Series aligns them on the index: over the union
    of the two indexes, a label missing on one side reads as NaN. *)
Definition align (f : float -> float -> float) (a b : Series) : Series :=
  map (fun t => f (at_ a t) (at_ b t))
      (index (Nat.max (length a) (length b))).

Definition sadd : Series -> Series -> Series := align F64.add.
Definition ssub : Series -> Series -> Series := align F64.sub.
Definition smul : Series -> Series -> Series := align F64.mul.
Definition sdiv : Series -> Series -> Series := align F64.div.

(** Arithmetic and comparison with a scalar. *)
Definition sub_scalar (s : Series) (c : float) : Series :=
  map (fun x => F64.sub x c) s.
Definition rsub_scalar (c : float) (s : Series) : Series :=
  map (fun x => F64.sub c x) s.
Definition radd_scalar (c : float) (s : Series) : Series :=
  map (fun x => F64.add c x) s.
Definition mul_scalar (s : Series) (c : float) : Series :=
  map (fun x => F64.mul x c) s.
Definition rmul_scalar (c : float) (s : Series) : Series :=
  map (fun x => F64.mul c x) s.
Definition div_scalar (s : Series) (c : float) : Series :=
  map (fun x => F64.div x c) s.
Definition rdiv_scalar (c : float) (s : Series) : Series :=
  map (fun x => F64.div c x) s.
Definition neg (s : Series) : Series := map F64.opp s.
Definition sabs (s : Series) : Series := map F64.abs s.
Definition gt_scalar (s : Series) (c : float) : list bool :=
  map (fun x => F64.gtb x c) s.
Definition lt_scalar (s : Series) (c : float) : list bool :=
  map (fun x => F64.ltb x c) s.

(** [a > b] between two Series: pandas refuses to compare Series whose
    indexes differ. *)
Definition sgt (a b : Series) : result (list bool) :=
  if Nat.eqb (length a) (length b)
  then Ok (map (fun p => F64.gtb (fst p) (snd p)) (combine a b))
  else Raise (ValueError "Can only compare identically-labeled Series objects").

(** [s.diff()] and [s.pct_change(periods=k)]: the ratio to the row k
    positions earlier (later, for negative k) minus one, without filling
    missing values first. *)
Definition diff (s : Series) : Series := ssub s (shift s 1).

Definition pct_change (s : Series) (k : Z) : Series :=
  sub_scalar (sdiv s (shift s k)) (F64.of_Z 1).

(** [s.where(cond, other)]: keep [s] where [cond] holds, [other]
    elsewhere. *)
Definition where_ (s : Series) (cond : list bool) (other : float) : Series :=
  map (fun p => if (snd p : bool) then fst p else other) (combine s cond).

(** [bools.astype(int)]. *)
Definition astype_int (b : list bool) : list Z :=
  map (fun x : bool => if x then 1 else 0) b.

(** [np.where(cond, x, y)] with scalar branches. *)
Definition np_where (cond : list bool) (x y : Z) : list Z :=
  map (fun c : bool => if c then x else y) cond.

(** [np.select(condlist, choicelist, default)] with scalar choices: at each
    position the choice of the first condition that holds, [default] when
    none does. *)
Fixpoint select_at (conds : list (list bool)) (choices : list Z)
    (default : Z) (i : nat) : Z :=
  match conds, choices with
  | c :: conds', x :: choices' =>
      if nth i c false then x else select_at conds' choices' default i
  | _, _ => default
  end.

Definition np_select (conds : list (list bool)) (choices : list Z)
    (default : Z) : result (list Z) :=
  if negb (Nat.eqb (length conds) (length choices)) then
    Raise (ValueError "list of cases must be same length as list of conditions")
  else
    match conds with
    | [] => Raise (ValueError "select with an empty condition list is not possible")
    | c :: rest =>
        if forallb (fun c' => Nat.eqb (length c') (length c)) rest
        then Ok (map (select_at conds choices default) (seq 0 (length c)))
        else Raise (ValueError "shape mismatch")
    end.

(** *** Rolling windows

    [s.rolling(window=w)] with the default [min_periods = w]: the result at
    row t is defined only when the [w] rows ending at t exist and hold [w]
    observations (no NaN among them).  A negative window is refused. *)
Definition window (s : Series) (w t : nat) : list float :=
  firstn w (skipn (t + 1 - w) s).

Definition observed (l : list float) : bool :=
  forallb (fun x => negb (F64.is_nan x)) l.

Definition roll (agg : list float -> float) (s : Series) (n : nat) : Series :=
  map (fun t =>
         if (0 <? n)%nat && (n <=? t + 1)%nat && observed (window s n t)
         then agg (window s n t) else NaN)
      (seq 0 (length s)).

Definition rolling (agg : list float -> float) (s : Series) (w : Z)
    : result Series :=
  if w <? 0 then Raise (ValueError "window must be an integer 0 or greater")
  else Ok (roll agg s (Z.to_nat w)).

(** The aggregations, as mathematical definitions evaluated in binary64 from
    left to right (pandas updates running sums, whose roundings can differ
    from these in the last bits). *)
Definition fsum (l : list float) : float := fold_left F64.add l (F64.of_Z 0).

Definition mean (l : list float) : float :=
  F64.div (fsum l) (F64.of_Z (Z.of_nat (length l))).

(** Variance with [ddof] delta degrees of freedom: squared deviations from
    the mean over (observations - ddof); undefined unless there are more
    observations than [ddof]. *)
Definition var (ddof : Z) (l : list float) : float :=
  if Z.of_nat (length l) <=? ddof then NaN
  else
    let m := mean l in
    F64.div (fsum (map (fun x => F64.mul (F64.sub x m) (F64.sub x m)) l))
            (F64.of_Z (Z.of_nat (length l) - ddof)).

Definition std (ddof : Z) (l : list float) : float := F64.sqrt (var ddof l).

Definition fmin2 (a b : float) : float := if F64.ltb b a then b else a.
Definition fmax2 (a b : float) : float := if F64.ltb a b then b else a.

Definition fmin (l : list float) : float :=
  match l with [] => NaN | x :: r => fold_left fmin2 r x end.

Definition fmax (l : list float) : float :=
  match l with [] => NaN | x :: r => fold_left fmax2 r x end.

(** [.rolling(w).mean()], [.std()] (pandas' default ddof = 1), [.min()],
    [.max()]. *)
Definition rolling_mean : Series -> Z -> result Series := rolling mean.
Definition rolling_std : Series -> Z -> result Series := rolling (std 1).
Definition rolling_min : Series -> Z -> result Series := rolling fmin.
Definition rolling_max : Series -> Z -> result Series := rolling fmax.

(** [.rolling(w).apply(lambda x: np.mean(np.abs(x - x.mean())))] *)
Definition mean_abs_dev (l : list float) : float :=
  let m := mean l in mean (map (fun x => F64.abs (F64.sub x m)) l).

Definition rolling_apply_mad : Series -> Z -> result Series := rolling mean_abs_dev.

(** *** Exponentially weighted mean

    [s.ewm(span=span, adjust=False).mean()], following the recursion of
    pandas: the first observation seeds the average; afterwards
    weighted <- (old_wt * weighted + alpha * cur) / (old_wt + alpha) with
    old_wt = 1 - alpha after an observation, decayed once more for every
    missing row in between. *)
Definition ewm_step (alpha : float) (st : float * float) (cur : float)
    : float * float :=
  let '(weighted, old_wt) := st in
  if F64.is_nan weighted then (cur, F64.of_Z 1)
  else
    let old_wt := F64.mul old_wt (F64.sub (F64.of_Z 1) alpha) in
    if F64.is_nan cur then (weighted, old_wt)
    else
      let weighted :=
        if F64.eqb weighted cur then weighted
        else F64.div (F64.add (F64.mul old_wt weighted) (F64.mul alpha cur))
                     (F64.add old_wt alpha) in
      (weighted, F64.of_Z 1).

Fixpoint ewm_run (alpha : float) (st : float * float) (vals : list float)
    : list float :=
  match vals with
  | [] => []
  | cur :: rest =>
      let st' := ewm_step alpha st cur in
      fst st' :: ewm_run alpha st' rest
  end.

Definition ewm_mean (s : Series) (span : Z) : result Series :=
  if span <? 1 then Raise (ValueError "span must satisfy: span >= 1")
  else
    let com := F64.div (F64.of_Z (span - 1)) (F64.of_Z 2) in
    let alpha := F64.div (F64.of_Z 1) (F64.add (F64.of_Z 1) com) in
    Ok (ewm_run alpha (NaN, F64.of_Z 1) s).

(** [pd.concat([a, b, c], axis=1).max(axis=1)] and
    [df[[x, y]].max(axis=1)] / [.min(axis=1)]: the row-wise extremum over
    the columns, skipping missing values. *)
Definition nanmax2 (a b : float) : float :=
  if F64.is_nan a then b else if F64.is_nan b then a else fmax2 a b.

Definition nanmin2 (a b : float) : float :=
  if F64.is_nan a then b else if F64.is_nan b then a else fmin2 a b.

Definition row_max2 : Series -> Series -> Series := align nanmax2.
Definition row_min2 : Series -> Series -> Series := align nanmin2.
Definition row_max3 (a b c : Series) : Series := align nanmax2 (align nanmax2 a b) c.

End Pd.

Abbreviation Series := Pd.Series.

(** ** Data frames

    A frame is an ordered list of named columns over a shared positional
    index of [nrows] rows. *)

Inductive Column : Type :=
  | FloatCol (v : Series)
  | IntCol (v : list Z)
  | ObjCol (v : list string)
  | DateCol (v : list Z).

Record DataFrame : Type := mkDataFrame {
  nrows : nat;
  columns : list (string * Column)
}.

(** [len(df)] *)
Definition len (df : DataFrame) : Z := Z.of_nat (nrows df).

Fixpoint lookup (name : string) (cols : list (string * Column)) : option Column :=
  match cols with
  | [] => None
  | (k, c) :: rest => if String.eqb k name then Some c else lookup name rest
  end.

Fixpoint update (name : string) (c : Column) (cols : list (string * Column))
    : list (string * Column) :=
  match cols with
  | [] => [(name, c)]
  | (k, c0) :: rest =>
      if String.eqb k name then (k, c) :: rest
      else (k, c0) :: update name c rest
  end.

(** [name in df.columns] *)
Definition has_column (df : DataFrame) (name : string) : bool :=
  match lookup name (columns df) with Some _ => true | None => false end.

(** [df[name]] *)
Definition getitem (df : DataFrame) (name : string) : result Column :=
  match lookup name (columns df) with
  | Some c => Ok c
  | None => Raise (KeyError name)
  end.

(** [df[name] = column]: an existing column is replaced in place, a new one
    is appended. *)
Definition setitem (df : DataFrame) (name : string) (c : Column) : DataFrame :=
  mkDataFrame (nrows df) (update name c (columns df)).

(** A column read for arithmetic: integers are promoted to float64; text and
    timestamps do not support the arithmetic of the source. *)
Definition to_series (name : string) (c : Column) : result Series :=
  match c with
  | FloatCol v => Ok v
  | IntCol v => Ok (map F64.of_Z v)
  | ObjCol _ | DateCol _ =>
      Raise (TypeError (name ++ ": unsupported operand type"))
  end.

Definition getf (df : DataFrame) (name : string) : result Series :=
  c <- getitem df name ;; to_series name c.

(** ** Target variables (add_target_variables) *)

(** The multi-class block of [add_target_variables]: threshold, the four
    ordered conditions on the return column, and [np.select]. *)
Definition target_direction_multi (target_return : Series) : result (list Z) :=
  let threshold := F64.dec 1 3 in   (* 0.1% *)
  let conditions :=
    [ Pd.gt_scalar target_return (F64.mul threshold (F64.of_Z 2));
      Pd.gt_scalar target_return threshold;
      Pd.gt_scalar target_return (F64.opp threshold);
      Pd.gt_scalar target_return (F64.mul (F64.opp threshold) (F64.of_Z 2)) ] in
  let choices := [2; 1; 0; -1] in   (* 2=Strong Up, 1=Up, 0=Neutral, -1=Down *)
  Pd.np_select conditions choices (-2).

Definition add_target_variables (df : DataFrame) (forecast_horizon : Z)
    : result DataFrame :=
  (* Classification Target: Direction (1=Up, 0=Down) *)
  close <- getf df "Close" ;;
  up <- Pd.sgt (Pd.shift close (- forecast_horizon)) close ;;
  let df := setitem df "Target_Direction" (IntCol (Pd.np_where up 1 0)) in
  (* Regression Target: Next Return *)
  close <- getf df "Close" ;;
  let df := setitem df "Target_Return"
    (FloatCol (Pd.shift (Pd.pct_change close (- forecast_horizon))
                        forecast_horizon)) in
  target_return <- getf df "Target_Return" ;;
  let df := setitem df "Target_Return"
    (FloatCol (Pd.shift target_return (- forecast_horizon))) in
  (* Regression Target: Next Close *)
  close <- getf df "Close" ;;
  let df := setitem df "Target_Close"
    (FloatCol (Pd.shift close (- forecast_horizon))) in
  (* Multi-class Target: Strong Up, Up, Neutral, Down, Strong Down *)
  target_return <- getf df "Target_Return" ;;
  multi <- target_direction_multi target_return ;;
  Ok (setitem df "Target_Direction_Multi" (IntCol multi)).

(** The four columns [add_target_variables] writes, as functions of the
    close column it reads. *)
Definition direction_column (close : Series) (H : Z) : list Z :=
  Pd.np_where
    (map (fun p => F64.gtb (fst p) (snd p)) (combine (Pd.shift close (- H)) close))
    1 0.

Definition return_column (close : Series) (H : Z) : Series :=
  Pd.shift (Pd.shift (Pd.pct_change close (- H)) H) (- H).

Definition next_close_column (close : Series) (H : Z) : Series :=
  Pd.shift close (- H).

(** The label of one return value as the specification words it: the first
    of the ordered strict tests that holds. *)
Definition classify (r : float) : Z :=
  let theta := F64.dec 1 3 in
  if F64.gtb r (F64.mul theta (F64.of_Z 2)) then 2
  else if F64.gtb r theta then 1
  else if F64.gtb r (F64.opp theta) then 0
  else if F64.gtb r (F64.mul (F64.opp theta) (F64.of_Z 2)) then -1
  else -2.

(** The frame [add_target_variables] returns when the close column reads
    as [close]. *)
Definition target_frame (df : DataFrame) (close : Series) (H : Z) : DataFrame :=
  let df := setitem df "Target_Direction" (IntCol (direction_column close H)) in
  let df := setitem df "Target_Return"
    (FloatCol (Pd.shift (Pd.pct_change close (- H)) H)) in
  let df := setitem df "Target_Return" (FloatCol (return_column close H)) in
  let df := setitem df "Target_Close" (FloatCol (next_close_column close H)) in
  setitem df "Target_Direction_Multi" (IntCol (map classify (return_column close H))).

(** A close series that rises at every step. *)
Definition strictly_increasing (s : Series) : Prop :=
  forall i j : nat, (i < j < length s)%nat ->
    F64.ltb (nth i s NaN) (nth j s NaN) = true.

(** ** Technical indicators *)

Definition calculate_rsi (close : Series) (period : Z) : result Series :=
  let delta := Pd.diff close in
  gain <- Pd.rolling_mean
            (Pd.where_ delta (Pd.gt_scalar delta (F64.of_Z 0)) (F64.of_Z 0))
            period ;;
  loss <- Pd.rolling_mean
            (Pd.neg (Pd.where_ delta (Pd.lt_scalar delta (F64.of_Z 0)) (F64.of_Z 0)))
            period ;;
  let rs := Pd.sdiv gain loss in
  let rsi := Pd.rsub_scalar (F64.of_Z 100)
               (Pd.rdiv_scalar (F64.of_Z 100) (Pd.radd_scalar (F64.of_Z 1) rs)) in
  Ok rsi.

Definition calculate_macd (close : Series) (fast slow signal : Z)
    : result (Series * Series * Series) :=
  ema_fast <- Pd.ewm_mean close fast ;;
  ema_slow <- Pd.ewm_mean close slow ;;
  let macd_line := Pd.ssub ema_fast ema_slow in
  signal_line <- Pd.ewm_mean macd_line signal ;;
  let macd_histogram := Pd.ssub macd_line signal_line in
  Ok (macd_line, signal_line, macd_histogram).

Definition calculate_bollinger_bands (close : Series) (period : Z) (std_dev : Z)
    : result (Series * Series * Series * Series * Series) :=
  sma <- Pd.rolling_mean close period ;;
  std <- Pd.rolling_std close period ;;
  let upper_band := Pd.sadd sma (Pd.mul_scalar std (F64.of_Z std_dev)) in
  let lower_band := Pd.ssub sma (Pd.mul_scalar std (F64.of_Z std_dev)) in
  let bb_width := Pd.sdiv (Pd.ssub upper_band lower_band) sma in
  let bb_position :=
    Pd.sdiv (Pd.ssub close lower_band) (Pd.ssub upper_band lower_band) in
  Ok (upper_band, sma, lower_band, bb_width, bb_position).

Definition calculate_atr (high low close : Series) (period : Z) : result Series :=
  let tr1 := Pd.ssub high low in
  let tr2 := Pd.sabs (Pd.ssub high (Pd.shift close 1)) in
  let tr3 := Pd.sabs (Pd.ssub low (Pd.shift close 1)) in
  let tr := Pd.row_max3 tr1 tr2 tr3 in
  atr <- Pd.rolling_mean tr period ;;
  Ok atr.

Definition calculate_stochastic (high low close : Series) (period : Z)
    : result (Series * Series) :=
  lowest_low <- Pd.rolling_min low period ;;
  highest_high <- Pd.rolling_max high period ;;
  let stoch_k :=
    Pd.sdiv (Pd.rmul_scalar (F64.of_Z 100) (Pd.ssub close lowest_low))
            (Pd.ssub highest_high lowest_low) in
  stoch_d <- Pd.rolling_mean stoch_k 3 ;;
  Ok (stoch_k, stoch_d).

Definition calculate_cci (high low close : Series) (period : Z) : result Series :=
  let tp := Pd.div_scalar (Pd.sadd (Pd.sadd high low) close) (F64.of_Z 3) in
  sma_tp <- Pd.rolling_mean tp period ;;
  mad <- Pd.rolling_apply_mad tp period ;;
  let cci := Pd.sdiv (Pd.ssub tp sma_tp) (Pd.rmul_scalar (F64.dec 15 3) mad) in
  Ok cci.

Definition calculate_williams_r (high low close : Series) (period : Z)
    : result Series :=
  highest_high <- Pd.rolling_max high period ;;
  lowest_low <- Pd.rolling_min low period ;;
  let wr :=
    Pd.sdiv (Pd.rmul_scalar (F64.of_Z (-100)) (Pd.ssub highest_high close))
            (Pd.ssub highest_high lowest_low) in
  Ok wr.

Definition calculate_momentum (close : Series) (period : Z) : result Series :=
  Ok (Pd.ssub close (Pd.shift close period)).

Definition calculate_roc (close : Series) (period : Z) : result Series :=
  Ok (Pd.mul_scalar
        (Pd.sdiv (Pd.ssub close (Pd.shift close period)) (Pd.shift close period))
        (F64.of_Z 100)).

(** The two series [calculate_rsi] averages: the positive price changes and
    the negated negative ones, zero elsewhere; and the RSI value of a pair
    of averages. *)
Definition gains (close : Series) : Series :=
  Pd.where_ (Pd.diff close) (Pd.gt_scalar (Pd.diff close) (F64.of_Z 0)) (F64.of_Z 0).

Definition losses (close : Series) : Series :=
  Pd.neg (Pd.where_ (Pd.diff close) (Pd.lt_scalar (Pd.diff close) (F64.of_Z 0))
                    (F64.of_Z 0)).

Definition avg_gain (close : Series) (period t : nat) : float :=
  Pd.mean (Pd.window (gains close) period t).

Definition avg_loss (close : Series) (period t : nat) : float :=
  Pd.mean (Pd.window (losses close) period t).

Definition rsi_of (gain loss : float) : float :=
  F64.sub (F64.of_Z 100)
          (F64.div (F64.of_Z 100) (F64.add (F64.of_Z 1) (F64.div gain loss))).

(** The true range series [calculate_atr] averages. *)
Definition true_range (high low close : Series) : Series :=
  Pd.row_max3 (Pd.ssub high low)
              (Pd.sabs (Pd.ssub high (Pd.shift close 1)))
              (Pd.sabs (Pd.ssub low (Pd.shift close 1))).

(** ** The feature stages *)

(** Configuration constants of the source. *)
Definition RSI_PERIOD : Z := 14.
Definition MACD_FAST : Z := 12.
Definition MACD_SLOW : Z := 26.
Definition MACD_SIGNAL : Z := 9.
Definition BB_PERIOD : Z := 20.
Definition BB_STD : Z := 2.
Definition ATR_PERIOD : Z := 14.
Definition STOCH_PERIOD : Z := 14.
Definition LAG_PERIODS : list Z := [1; 2; 3; 5; 7; 14; 21].
Definition MA_PERIODS : list Z := [7; 14; 21; 50; 100; 200].

(** [f'{prefix}{n}'] *)
Definition string_of_Z (z : Z) : string := NilZero.string_of_int (Z.to_int z).

Definition fname (prefix : string) (n : Z) : string :=
  (prefix ++ string_of_Z n)%string.

Definition setf (df : DataFrame) (name : string) (v : Series) : DataFrame :=
  setitem df name (FloatCol v).

Definition seti (df : DataFrame) (name : string) (v : list Z) : DataFrame :=
  setitem df name (IntCol v).

(** [for x in l: body] over a frame that the body may replace or fail on. *)
Fixpoint for_each {A : Type} (l : list A)
    (body : A -> DataFrame -> result DataFrame) (df : DataFrame)
    : result DataFrame :=
  match l with
  | [] => Ok df
  | x :: rest => df' <- body x df ;; for_each rest body df'
  end.

Definition add_technical_indicators (df : DataFrame) : result DataFrame :=
  (* RSI *)
  close <- getf df "Close" ;;
  rsi <- calculate_rsi close RSI_PERIOD ;;
  let df := setf df "RSI" rsi in
  rsi <- getf df "RSI" ;;
  let df := seti df "RSI_overbought"
              (Pd.astype_int (Pd.gt_scalar rsi (F64.of_Z 70))) in
  rsi <- getf df "RSI" ;;
  let df := seti df "RSI_oversold"
              (Pd.astype_int (Pd.lt_scalar rsi (F64.of_Z 30))) in
  (* MACD *)
  close <- getf df "Close" ;;
  ' (macd, macd_signal, macd_histogram) <-
      calculate_macd close MACD_FAST MACD_SLOW MACD_SIGNAL ;;
  let df := setf df "MACD" macd in
  let df := setf df "MACD_signal" macd_signal in
  let df := setf df "MACD_histogram" macd_histogram in
  macd <- getf df "MACD" ;;
  macd_signal <- getf df "MACD_signal" ;;
  above <- Pd.sgt macd macd_signal ;;
  let df := seti df "MACD_crossover" (Pd.np_where above 1 (-1)) in
  (* Bollinger Bands *)
  close <- getf df "Close" ;;
  ' (bb_upper, bb_middle, bb_lower, bb_width, bb_position) <-
      calculate_bollinger_bands close BB_PERIOD BB_STD ;;
  let df := setf df "BB_upper" bb_upper in
  let df := setf df "BB_middle" bb_middle in
  let df := setf df "BB_lower" bb_lower in
  let df := setf df "BB_width" bb_width in
  let df := setf df "BB_position" bb_position in
  (* ATR (Volatility) *)
  high <- getf df "High" ;;
  low <- getf df "Low" ;;
  close <- getf df "Close" ;;
  atr <- calculate_atr high low close ATR_PERIOD ;;
  let df := setf df "ATR" atr in
  atr <- getf df "ATR" ;;
  close <- getf df "Close" ;;
  let df := setf df "ATR_percent"
              (Pd.mul_scalar (Pd.sdiv atr close) (F64.of_Z 100)) in
  (* Stochastic *)
  high <- getf df "High" ;;
  low <- getf df "Low" ;;
  close <- getf df "Close" ;;
  ' (stoch_k, stoch_d) <- calculate_stochastic high low close STOCH_PERIOD ;;
  let df := setf df "Stoch_K" stoch_k in
  let df := setf df "Stoch_D" stoch_d in
  (* CCI *)
  high <- getf df "High" ;;
  low <- getf df "Low" ;;
  close <- getf df "Close" ;;
  cci <- calculate_cci high low close 20 ;;
  let df := setf df "CCI" cci in
  (* Williams %R *)
  high <- getf df "High" ;;
  low <- getf df "Low" ;;
  close <- getf df "Close" ;;
  wr <- calculate_williams_r high low close 14 ;;
  let df := setf df "Williams_R" wr in
  (* Momentum & ROC *)
  close <- getf df "Close" ;;
  momentum <- calculate_momentum close 10 ;;
  let df := setf df "Momentum_10" momentum in
  close <- getf df "Close" ;;
  roc <- calculate_roc close 10 ;;
  let df := setf df "ROC_10" roc in
  (* Moving Averages *)
  df <- for_each MA_PERIODS (fun period df =>
          if period <? len df then
            close <- getf df "Close" ;;
            sma <- Pd.rolling_mean close period ;;
            let df := setf df (fname "SMA_" period) sma in
            close <- getf df "Close" ;;
            ema <- Pd.ewm_mean close period ;;
            let df := setf df (fname "EMA_" period) ema in
            close <- getf df "Close" ;;
            sma <- getf df (fname "SMA_" period) ;;
            let df := setf df (fname "Close_vs_SMA_" period)
                        (Pd.mul_scalar
                           (Pd.sub_scalar (Pd.sdiv close sma) (F64.of_Z 1))
                           (F64.of_Z 100)) in
            Ok df
          else Ok df) df ;;
  (* MA Crossovers *)
  df <- (if has_column df "SMA_7" && has_column df "SMA_21" then
           sma_7 <- getf df "SMA_7" ;;
           sma_21 <- getf df "SMA_21" ;;
           above <- Pd.sgt sma_7 sma_21 ;;
           Ok (seti df "MA_7_21_crossover" (Pd.np_where above 1 (-1)))
         else Ok df) ;;
  df <- (if has_column df "SMA_50" && has_column df "SMA_200" then
           sma_50 <- getf df "SMA_50" ;;
           sma_200 <- getf df "SMA_200" ;;
           above <- Pd.sgt sma_50 sma_200 ;;
           Ok (seti df "MA_50_200_crossover" (Pd.np_where above 1 (-1)))
         else Ok df) ;;
  Ok df.

(** Library functions without a model here, taken as parameters: numpy's
    transcendental functions on float64, and pandas' timestamp parser and
    calendar accessors (a timestamp is its count of nanoseconds since the
    epoch). *)
Class Externals : Type := {
  np_log : float -> float;
  np_sin : float -> float;
  np_cos : float -> float;
  to_datetime : string -> option Z;
  dt_dayofweek : Z -> Z;
  dt_day : Z -> Z;
  dt_month : Z -> Z;
  dt_quarter : Z -> Z;
  dt_year : Z -> Z;
  dt_isoweek : Z -> Z;
  dt_is_month_start : Z -> bool;
  dt_is_month_end : Z -> bool;
  dt_is_quarter_start : Z -> bool;
  dt_is_quarter_end : Z -> bool
}.

(** [np.pi] *)
Definition np_pi : float := S754_finite false 7074237752028440 (-51).

Definition geti (df : DataFrame) (name : string) : result (list Z) :=
  c <- getitem df name ;;
  match c with
  | IntCol v => Ok v
  | _ => Raise (TypeError (name ++ ": not an integer column"))
  end.

(** [df[name].dt]: only a timestamp column has the accessor. *)
Definition getdt (df : DataFrame) (name : string) : result (list Z) :=
  c <- getitem df name ;;
  match c with
  | DateCol v => Ok v
  | _ => Raise (AttributeError "Can only use .dt accessor with datetimelike values")
  end.

Fixpoint parse_dates `{Externals} (l : list string) : result (list Z) :=
  match l with
  | [] => Ok []
  | x :: rest =>
      match to_datetime x with
      | Some t => ts <- parse_dates rest ;; Ok (t :: ts)
      | None => Raise (ValueError ("Unknown datetime string format: " ++ x))
      end
  end.

(** [pd.to_datetime(column)] *)
Definition pd_to_datetime `{Externals} (c : Column) : result Column :=
  match c with
  | ObjCol v => ts <- parse_dates v ;; Ok (DateCol ts)
  | DateCol v => Ok (DateCol v)
  | IntCol v => Ok (DateCol v)
  | FloatCol _ => Raise (TypeError "to_datetime: float column")
  end.

Definition add_price_features `{Externals} (df : DataFrame) : result DataFrame :=
  (* Returns *)
  close <- getf df "Close" ;;
  let df := setf df "Return" (Pd.pct_change close 1) in
  close <- getf df "Close" ;;
  let df := setf df "Log_Return" (map np_log (Pd.sdiv close (Pd.shift close 1))) in
  (* Price Changes *)
  close <- getf df "Close" ;;
  open <- getf df "Open" ;;
  let df := setf df "Price_Change" (Pd.ssub close open) in
  close <- getf df "Close" ;;
  open <- getf df "Open" ;;
  let df := setf df "Price_Change_Percent"
              (Pd.mul_scalar (Pd.sdiv (Pd.ssub close open) open) (F64.of_Z 100)) in
  (* Candle Features *)
  high <- getf df "High" ;;
  low <- getf df "Low" ;;
  let df := setf df "Range" (Pd.ssub high low) in
  close <- getf df "Close" ;;
  open <- getf df "Open" ;;
  let df := setf df "Body" (Pd.sabs (Pd.ssub close open)) in
  body <- getf df "Body" ;;
  range <- getf df "Range" ;;
  let df := setf df "Body_Percent" (Pd.sdiv body range) in
  high <- getf df "High" ;;
  open <- getf df "Open" ;;
  close <- getf df "Close" ;;
  let df := setf df "Upper_Shadow" (Pd.ssub high (Pd.row_max2 open close)) in
  open <- getf df "Open" ;;
  close <- getf df "Close" ;;
  low <- getf df "Low" ;;
  let df := setf df "Lower_Shadow" (Pd.ssub (Pd.row_min2 open close) low) in
  (* Candle Colors *)
  close <- getf df "Close" ;;
  open <- getf df "Open" ;;
  green <- Pd.sgt close open ;;
  let df := seti df "Candle_Color" (Pd.np_where green 1 0) in
  (* Gap *)
  open <- getf df "Open" ;;
  close <- getf df "Close" ;;
  let df := setf df "Gap" (Pd.ssub open (Pd.shift close 1)) in
  gap <- getf df "Gap" ;;
  close <- getf df "Close" ;;
  let df := setf df "Gap_Percent"
              (Pd.mul_scalar (Pd.sdiv gap (Pd.shift close 1)) (F64.of_Z 100)) in
  (* Volatility (Rolling) *)
  df <- for_each [5; 10; 20] (fun period df =>
          ret <- getf df "Return" ;;
          vol <- Pd.rolling_std ret period ;;
          Ok (setf df (fname "Volatility_" period) vol)) df ;;
  (* High-Low Ratio *)
  high <- getf df "High" ;;
  low <- getf df "Low" ;;
  let df := setf df "HL_Ratio" (Pd.sdiv high low) in
  (* Close Position in Range *)
  close <- getf df "Close" ;;
  low <- getf df "Low" ;;
  high <- getf df "High" ;;
  low' <- getf df "Low" ;;
  let df := setf df "Close_Position"
              (Pd.sdiv (Pd.ssub close low) (Pd.ssub high low')) in
  Ok df.

Definition add_lagged_features (df : DataFrame) (lag_periods : option (list Z))
    : result DataFrame :=
  let lag_periods :=
    match lag_periods with None => LAG_PERIODS | Some l => l end in
  (* Lag for Close *)
  df <- for_each lag_periods (fun lag df =>
          if lag <? len df then
            close <- getf df "Close" ;;
            let df := setf df (fname "Close_lag_" lag) (Pd.shift close lag) in
            ret <- getf df "Return" ;;
            Ok (setf df (fname "Return_lag_" lag) (Pd.shift ret lag))
          else Ok df) df ;;
  (* Lag for RSI *)
  df <- (if has_column df "RSI" then
           for_each [1; 3; 5] (fun lag df =>
             rsi <- getf df "RSI" ;;
             Ok (setf df (fname "RSI_lag_" lag) (Pd.shift rsi lag))) df
         else Ok df) ;;
  (* Cumulative Returns *)
  df <- for_each [3; 5; 10; 20] (fun period df =>
          if period <? len df then
            close <- getf df "Close" ;;
            Ok (setf df (fname "Cumulative_Return_" period)
                     (Pd.pct_change close period))
          else Ok df) df ;;
  (* Rolling Stats *)
  df <- for_each [5; 10; 20] (fun period df =>
          if period <? len df then
            close <- getf df "Close" ;;
            m <- Pd.rolling_mean close period ;;
            let df := setf df (fname "Rolling_Mean_" period) m in
            close <- getf df "Close" ;;
            sd <- Pd.rolling_std close period ;;
            let df := setf df (fname "Rolling_Std_" period) sd in
            close <- getf df "Close" ;;
            lo <- Pd.rolling_min close period ;;
            let df := setf df (fname "Rolling_Min_" period) lo in
            close <- getf df "Close" ;;
            hi <- Pd.rolling_max close period ;;
            Ok (setf df (fname "Rolling_Max_" period) hi)
          else Ok df) df ;;
  Ok df.

(** [np.sin(2 * np.pi * column / period)] and its cosine, on an integer
    column. *)
Definition cyclical (f : float -> float) (v : list Z) (period : Z) : Series :=
  map (fun x => f (F64.div (F64.mul (F64.mul (F64.of_Z 2) np_pi) (F64.of_Z x))
                           (F64.of_Z period))) v.

Definition add_time_features `{Externals} (df : DataFrame) : result DataFrame :=
  date <- getitem df "Date" ;;
  date <- pd_to_datetime date ;;
  let df := setitem df "Date" date in
  (* Basic time features *)
  d <- getdt df "Date" ;;
  let df := seti df "Day_of_Week" (map dt_dayofweek d) in  (* 0=Monday, 6=Sunday *)
  d <- getdt df "Date" ;;
  let df := seti df "Day_of_Month" (map dt_day d) in
  d <- getdt df "Date" ;;
  let df := seti df "Month" (map dt_month d) in
  d <- getdt df "Date" ;;
  let df := seti df "Quarter" (map dt_quarter d) in
  d <- getdt df "Date" ;;
  let df := seti df "Year" (map dt_year d) in
  d <- getdt df "Date" ;;
  let df := seti df "Week_of_Year" (map dt_isoweek d) in
  (* Binary features *)
  dow <- geti df "Day_of_Week" ;;
  let df := seti df "Is_Monday" (Pd.astype_int (map (fun x => x =? 0) dow)) in
  dow <- geti df "Day_of_Week" ;;
  let df := seti df "Is_Friday" (Pd.astype_int (map (fun x => x =? 4) dow)) in
  d <- getdt df "Date" ;;
  let df := seti df "Is_Month_Start" (Pd.astype_int (map dt_is_month_start d)) in
  d <- getdt df "Date" ;;
  let df := seti df "Is_Month_End" (Pd.astype_int (map dt_is_month_end d)) in
  d <- getdt df "Date" ;;
  let df := seti df "Is_Quarter_Start" (Pd.astype_int (map dt_is_quarter_start d)) in
  d <- getdt df "Date" ;;
  let df := seti df "Is_Quarter_End" (Pd.astype_int (map dt_is_quarter_end d)) in
  (* Cyclical encoding for periodic features *)
  dow <- geti df "Day_of_Week" ;;
  let df := setf df "Day_sin" (cyclical np_sin dow 7) in
  dow <- geti df "Day_of_Week" ;;
  let df := setf df "Day_cos" (cyclical np_cos dow 7) in
  month <- geti df "Month" ;;
  let df := setf df "Month_sin" (cyclical np_sin month 12) in
  month <- geti df "Month" ;;
  let df := setf df "Month_cos" (cyclical np_cos month 12) in
  Ok df.

(** ** Trimming and the driver *)

(** [df.dropna()]: keep the rows in which no column holds a missing value.
    Only a float column can hold one; a column shorter than the index reads
    as missing beyond its end. *)
Definition isna_at (c : Column) (i : nat) : bool :=
  match c with
  | FloatCol v => F64.is_nan (nth i v NaN)
  | _ => false
  end.

Definition row_has_na (df : DataFrame) (i : nat) : bool :=
  existsb (fun kc => isna_at (snd kc) i) (columns df).

Definition kept_rows (df : DataFrame) : list nat :=
  filter (fun i => negb (row_has_na df i)) (seq 0 (nrows df)).

Definition take_rows (rows : list nat) (c : Column) : Column :=
  match c with
  | FloatCol v => FloatCol (map (fun i => nth i v NaN) rows)
  | IntCol v => IntCol (map (fun i => nth i v 0) rows)
  | ObjCol v => ObjCol (map (fun i => nth i v EmptyString) rows)
  | DateCol v => DateCol (map (fun i => nth i v 0) rows)
  end.

Definition dropna (df : DataFrame) : DataFrame :=
  let rows := kept_rows df in
  mkDataFrame (length rows)
              (map (fun kc => (fst kc, take_rows rows (snd kc))) (columns df)).

(** [process_single_file], from the frame [pd.read_csv] returned to the frame
    handed to [to_csv]; reading, writing and printing are outside the
    model. *)
Definition process_single_file `{Externals} (df : DataFrame) : result DataFrame :=
  (* Feature Engineering *)
  df <- add_price_features df ;;
  df <- add_technical_indicators df ;;
  df <- add_lagged_features df None ;;
  df <- add_time_features df ;;
  df <- add_target_variables df 1 ;;
  (* drop the rows that hold a NaN (from the rolling calculations) *)
  let df_clean := dropna df in
  Ok df_clean.

(** The frame of all features and labels on which [process_single_file]
    calls [dropna]. *)
Definition feature_frame `{Externals} (df : DataFrame) : result DataFrame :=
  df <- add_price_features df ;;
  df <- add_technical_indicators df ;;
  df <- add_lagged_features df None ;;
  df <- add_time_features df ;;
  add_target_variables df 1.

(** The frame [pd.read_csv] returns for a file of bars. *)
Definition bars_frame (date : list string) (open high low close volume : Series)
    : DataFrame :=
  mkDataFrame (length close)
    [ ("Date"%string, ObjCol date); ("Open"%string, FloatCol open);
      ("High"%string, FloatCol high); ("Low"%string, FloatCol low);
      ("Close"%string, FloatCol close); ("Volume"%string, FloatCol volume) ].

(** ** Worked examples

    An environment to run examples in.  Its numpy functions are stand-ins
    that only reproduce numpy's undefined results (NaN for a NaN argument,
    for the logarithm of a negative number, for the sine and cosine of an
    infinity); no statement below depends on the values they return
    elsewhere.  A date is written as its day number. *)
Definition example_log (x : float) : float :=
  if F64.is_nan x || F64.ltb x (F64.of_Z 0) then NaN
  else F64.sub x (F64.of_Z 1).

Definition example_sin (x : float) : float :=
  if F64.is_finite x then x else NaN.

Definition example_cos (x : float) : float :=
  if F64.is_finite x then F64.of_Z 1 else NaN.

Definition example_to_datetime (s : string) : option Z :=
  match NilZero.int_of_string s with
  | Some d => Some (Z.of_int d * 86400000000000)
  | None => None
  end.

Definition example_day (t : Z) : Z := t / 86400000000000.

#[local] Instance example_externals : Externals := {|
  np_log := example_log;
  np_sin := example_sin;
  np_cos := example_cos;
  to_datetime := example_to_datetime;
  dt_dayofweek := fun t => (example_day t + 3) mod 7;
  dt_day := fun t => 1 + example_day t mod 30;
  dt_month := fun t => 1 + (example_day t / 30) mod 12;
  dt_quarter := fun t => 1 + (example_day t / 90) mod 4;
  dt_year := fun t => 1970 + example_day t / 360;
  dt_isoweek := fun t => 1 + (example_day t / 7) mod 52;
  dt_is_month_start := fun t => example_day t mod 30 =? 0;
  dt_is_month_end := fun t => example_day t mod 30 =? 29;
  dt_is_quarter_start := fun t => example_day t mod 90 =? 0;
  dt_is_quarter_end := fun t => example_day t mod 90 =? 89
|}.

Definition day_numbers (n : nat) : list string :=
  map (fun i => string_of_Z (Z.of_nat i)) (seq 0 n).

(** [n] daily closes rising by 0.0001 from 1.0000. *)
Definition rising_closes (n : nat) : Series :=
  map (fun i => F64.dec (10000 + Z.of_nat i) 4) (seq 0 n).

(** Bars on those closes whose open, high and low equal the close. *)
Definition zero_range_bars (n : nat) : DataFrame :=
  let c := rising_closes n in
  bars_frame (day_numbers n) c c c c (map (fun _ => F64.of_Z 1000) c).

(** Bars on those closes with the open 0.0001 below the close and the high
    and low 0.0002 above and below it. *)
Definition ranging_bars (n : nat) : DataFrame :=
  let c := rising_closes n in
  bars_frame (day_numbers n)
    (map (fun x => F64.sub x (F64.dec 1 4)) c)
    (map (fun x => F64.add x (F64.dec 2 4)) c)
    (map (fun x => F64.sub x (F64.dec 2 4)) c)
    c
    (map (fun _ => F64.of_Z 1000) c).

Definition example_timestamps (n : nat) : list Z :=
  map (fun i => Z.of_nat i * 86400000000000) (seq 0 n).

(** A frame holding only a close column, and a close series of whole
    prices, for worked examples. *)
Definition close_frame (close : Series) : DataFrame :=
  mkDataFrame (length close) [("Close"%string, FloatCol close)].

Definition prices (l : list Z) : Series := map F64.of_Z l.

Definition rising3 : Series := prices [1; 2; 3].

(** Series of unequal lengths, for the examples on misaligned inputs. *)
Definition high3 : Series := prices [3; 4; 5].
Definition low2 : Series := prices [1; 2].
Definition close4 : Series := prices [2; 3; 4; 5].

(** A stair of closes whose sample deviation over five rows is exactly 1. *)
Definition stair5 : Series := prices [1; 1; 2; 3; 3].

(** * Further definitions: the rest of the pipeline code *)

(** The columns [add_target_variables] writes. *)
Definition target_names : list string :=
  ["Target_Direction"; "Target_Return"; "Target_Close";
   "Target_Direction_Multi"]%string.

(** Four bars at one price. *)
Definition flat4 : Series := prices [7; 7; 7; 7].

(** ** The feature frame, column by column

    The columns the five stages leave in the frame when run in the order
    of [process_single_file] on a table of bars, each written as a function
    of the input columns.  [guard p] stands for the test [p < len(df)] the
    stages make before they add a windowed column. *)

Definition ewm_alpha (span : Z) : float :=
  F64.div (F64.of_Z 1)
          (F64.add (F64.of_Z 1) (F64.div (F64.of_Z (span - 1)) (F64.of_Z 2))).

Definition ema (s : Series) (span : Z) : Series :=
  Pd.ewm_run (ewm_alpha span) (NaN, F64.of_Z 1) s.

Definition above (a b : Series) : list bool :=
  map (fun p : float * float => F64.gtb (fst p) (snd p)) (combine a b).

Definition rsi_series (close : Series) : Series :=
  Pd.rsub_scalar (F64.of_Z 100)
    (Pd.rdiv_scalar (F64.of_Z 100)
       (Pd.radd_scalar (F64.of_Z 1)
          (Pd.sdiv (Pd.roll Pd.mean (gains close) (Z.to_nat RSI_PERIOD))
                   (Pd.roll Pd.mean (losses close) (Z.to_nat RSI_PERIOD))))).

Definition macd_series (close : Series) : Series :=
  Pd.ssub (ema close MACD_FAST) (ema close MACD_SLOW).

Definition typical_price (high low close : Series) : Series :=
  Pd.div_scalar (Pd.sadd (Pd.sadd high low) close) (F64.of_Z 3).

Definition input_columns (ts : list Z) (open high low close volume : Series)
    : list (string * Column) :=
  [ ("Date", DateCol ts); ("Open", FloatCol open); ("High", FloatCol high);
    ("Low", FloatCol low); ("Close", FloatCol close);
    ("Volume", FloatCol volume) ]%string.

Definition price_columns `{Externals} (open high low close : Series)
    : list (string * Column) :=
  [ ("Return", FloatCol (Pd.pct_change close 1));
    ("Log_Return", FloatCol (map np_log (Pd.sdiv close (Pd.shift close 1))));
    ("Price_Change", FloatCol (Pd.ssub close open));
    ("Price_Change_Percent",
       FloatCol (Pd.mul_scalar (Pd.sdiv (Pd.ssub close open) open) (F64.of_Z 100)));
    ("Range", FloatCol (Pd.ssub high low));
    ("Body", FloatCol (Pd.sabs (Pd.ssub close open)));
    ("Body_Percent",
       FloatCol (Pd.sdiv (Pd.sabs (Pd.ssub close open)) (Pd.ssub high low)));
    ("Upper_Shadow", FloatCol (Pd.ssub high (Pd.row_max2 open close)));
    ("Lower_Shadow", FloatCol (Pd.ssub (Pd.row_min2 open close) low));
    ("Candle_Color", IntCol (Pd.np_where (above close open) 1 0));
    ("Gap", FloatCol (Pd.ssub open (Pd.shift close 1)));
    ("Gap_Percent",
       FloatCol (Pd.mul_scalar
                   (Pd.sdiv (Pd.ssub open (Pd.shift close 1)) (Pd.shift close 1))
                   (F64.of_Z 100))) ]%string
  ++ map (fun period =>
            (fname "Volatility_" period,
             FloatCol (Pd.roll (Pd.std 1) (Pd.pct_change close 1) (Z.to_nat period))))
         [5; 10; 20]
  ++ [ ("HL_Ratio", FloatCol (Pd.sdiv high low));
       ("Close_Position",
          FloatCol (Pd.sdiv (Pd.ssub close low) (Pd.ssub high low))) ]%string.

Definition indicator_columns (guard : Z -> bool) (high low close : Series)
    : list (string * Column) :=
  let rsi := rsi_series close in
  let macd := macd_series close in
  let signal := ema macd MACD_SIGNAL in
  let sma := Pd.roll Pd.mean close (Z.to_nat BB_PERIOD) in
  let sd := Pd.mul_scalar (Pd.roll (Pd.std 1) close (Z.to_nat BB_PERIOD))
                          (F64.of_Z BB_STD) in
  let upper := Pd.sadd sma sd in
  let lower := Pd.ssub sma sd in
  let atr := Pd.roll Pd.mean (true_range high low close) (Z.to_nat ATR_PERIOD) in
  let lowest := Pd.roll Pd.fmin low (Z.to_nat STOCH_PERIOD) in
  let highest := Pd.roll Pd.fmax high (Z.to_nat STOCH_PERIOD) in
  let stoch_k := Pd.sdiv (Pd.rmul_scalar (F64.of_Z 100) (Pd.ssub close lowest))
                         (Pd.ssub highest lowest) in
  let tp := typical_price high low close in
  [ ("RSI", FloatCol rsi);
    ("RSI_overbought", IntCol (Pd.astype_int (Pd.gt_scalar rsi (F64.of_Z 70))));
    ("RSI_oversold", IntCol (Pd.astype_int (Pd.lt_scalar rsi (F64.of_Z 30))));
    ("MACD", FloatCol macd);
    ("MACD_signal", FloatCol signal);
    ("MACD_histogram", FloatCol (Pd.ssub macd signal));
    ("MACD_crossover", IntCol (Pd.np_where (above macd signal) 1 (-1)));
    ("BB_upper", FloatCol upper);
    ("BB_middle", FloatCol sma);
    ("BB_lower", FloatCol lower);
    ("BB_width", FloatCol (Pd.sdiv (Pd.ssub upper lower) sma));
    ("BB_position", FloatCol (Pd.sdiv (Pd.ssub close lower) (Pd.ssub upper lower)));
    ("ATR", FloatCol atr);
    ("ATR_percent", FloatCol (Pd.mul_scalar (Pd.sdiv atr close) (F64.of_Z 100)));
    ("Stoch_K", FloatCol stoch_k);
    ("Stoch_D", FloatCol (Pd.roll Pd.mean stoch_k (Z.to_nat 3)));
    ("CCI",
       FloatCol (Pd.sdiv (Pd.ssub tp (Pd.roll Pd.mean tp (Z.to_nat 20)))
                         (Pd.rmul_scalar (F64.dec 15 3)
                            (Pd.roll Pd.mean_abs_dev tp (Z.to_nat 20)))));
    ("Williams_R",
       FloatCol (Pd.sdiv
                   (Pd.rmul_scalar (F64.of_Z (-100))
                      (Pd.ssub (Pd.roll Pd.fmax high (Z.to_nat 14)) close))
                   (Pd.ssub (Pd.roll Pd.fmax high (Z.to_nat 14))
                            (Pd.roll Pd.fmin low (Z.to_nat 14)))));
    ("Momentum_10", FloatCol (Pd.ssub close (Pd.shift close 10)));
    ("ROC_10",
       FloatCol (Pd.mul_scalar
                   (Pd.sdiv (Pd.ssub close (Pd.shift close 10)) (Pd.shift close 10))
                   (F64.of_Z 100))) ]%string
  ++ flat_map (fun period =>
       if guard period then
         [ (fname "SMA_" period, FloatCol (Pd.roll Pd.mean close (Z.to_nat period)));
           (fname "EMA_" period, FloatCol (ema close period));
           (fname "Close_vs_SMA_" period,
              FloatCol (Pd.mul_scalar
                          (Pd.sub_scalar
                             (Pd.sdiv close (Pd.roll Pd.mean close (Z.to_nat period)))
                             (F64.of_Z 1))
                          (F64.of_Z 100))) ]
       else []) MA_PERIODS
  ++ (if guard 7 && guard 21 then
        [ ("MA_7_21_crossover"%string,
             IntCol (Pd.np_where (above (Pd.roll Pd.mean close (Z.to_nat 7))
                                        (Pd.roll Pd.mean close (Z.to_nat 21)))
                                 1 (-1))) ]
      else [])
  ++ (if guard 50 && guard 200 then
        [ ("MA_50_200_crossover"%string,
             IntCol (Pd.np_where (above (Pd.roll Pd.mean close (Z.to_nat 50))
                                        (Pd.roll Pd.mean close (Z.to_nat 200)))
                                 1 (-1))) ]
      else []).

Definition lag_columns (guard : Z -> bool) (close : Series)
    : list (string * Column) :=
  flat_map (fun lag =>
    if guard lag then
      [ (fname "Close_lag_" lag, FloatCol (Pd.shift close lag));
        (fname "Return_lag_" lag, FloatCol (Pd.shift (Pd.pct_change close 1) lag)) ]
    else []) LAG_PERIODS
  ++ map (fun lag =>
            (fname "RSI_lag_" lag, FloatCol (Pd.shift (rsi_series close) lag)))
         [1; 3; 5]
  ++ flat_map (fun period =>
       if guard period then
         [ (fname "Cumulative_Return_" period, FloatCol (Pd.pct_change close period)) ]
       else []) [3; 5; 10; 20]
  ++ flat_map (fun period =>
       if guard period then
         [ (fname "Rolling_Mean_" period,
              FloatCol (Pd.roll Pd.mean close (Z.to_nat period)));
           (fname "Rolling_Std_" period,
              FloatCol (Pd.roll (Pd.std 1) close (Z.to_nat period)));
           (fname "Rolling_Min_" period,
              FloatCol (Pd.roll Pd.fmin close (Z.to_nat period)));
           (fname "Rolling_Max_" period,
              FloatCol (Pd.roll Pd.fmax close (Z.to_nat period))) ]
       else []) [5; 10; 20].

Definition time_columns `{Externals} (ts : list Z) : list (string * Column) :=
  let dow := map dt_dayofweek ts in
  let month := map dt_month ts in
  [ ("Day_of_Week", IntCol dow);
    ("Day_of_Month", IntCol (map dt_day ts));
    ("Month", IntCol month);
    ("Quarter", IntCol (map dt_quarter ts));
    ("Year", IntCol (map dt_year ts));
    ("Week_of_Year", IntCol (map dt_isoweek ts));
    ("Is_Monday", IntCol (Pd.astype_int (map (fun x : Z => (x =? 0)%Z) dow)));
    ("Is_Friday", IntCol (Pd.astype_int (map (fun x : Z => (x =? 4)%Z) dow)));
    ("Is_Month_Start", IntCol (Pd.astype_int (map dt_is_month_start ts)));
    ("Is_Month_End", IntCol (Pd.astype_int (map dt_is_month_end ts)));
    ("Is_Quarter_Start", IntCol (Pd.astype_int (map dt_is_quarter_start ts)));
    ("Is_Quarter_End", IntCol (Pd.astype_int (map dt_is_quarter_end ts)));
    ("Day_sin", FloatCol (cyclical np_sin dow 7));
    ("Day_cos", FloatCol (cyclical np_cos dow 7));
    ("Month_sin", FloatCol (cyclical np_sin month 12));
    ("Month_cos", FloatCol (cyclical np_cos month 12)) ]%string.

Definition target_columns (close : Series) (H : Z) : list (string * Column) :=
  [ ("Target_Direction", IntCol (direction_column close H));
    ("Target_Return", FloatCol (return_column close H));
    ("Target_Close", FloatCol (next_close_column close H));
    ("Target_Direction_Multi", IntCol (map classify (return_column close H))) ]%string.

Definition feature_columns `{Externals} (guard : Z -> bool) (ts : list Z)
    (open high low close volume : Series) : list (string * Column) :=
  input_columns ts open high low close volume
  ++ price_columns open high low close
  ++ indicator_columns guard high low close
  ++ lag_columns guard close
  ++ time_columns ts
  ++ target_columns close 1.

(** The window lengths the stages test against the number of rows. *)
Definition guarded_periods : list Z := [1; 2; 3; 5; 7; 10; 14; 20; 21; 50; 100; 200].

(** ** Rows up to a position

    [agree t a b]: the columns [a] and [b] hold the same rows 0 .. t (and
    end at the same row, if they end before t). *)
Definition agree {A : Type} (t : nat) (a b : list A) : Prop :=
  firstn (S t) a = firstn (S t) b.

Definition col_agree (t : nat) (c c' : Column) : Prop :=
  match c, c' with
  | FloatCol v, FloatCol v' => agree t v v'
  | IntCol v, IntCol v' => agree t v v'
  | ObjCol v, ObjCol v' => agree t v v'
  | DateCol v, DateCol v' => agree t v v'
  | _, _ => False
  end.

(** Two named columns of two frames: the same name, and the same rows up to
    [t] unless the column is one of the targets. *)
Definition col_rel (t : nat) (kc kc' : string * Column) : Prop :=
  fst kc = fst kc' /\
  (In (fst kc) target_names \/ col_agree t (snd kc) (snd kc')).

(** Three bars, and three bars that differ from them in the last row only. *)
Definition bars3 : DataFrame :=
  bars_frame (day_numbers 3) (prices [1; 2; 3]) (prices [2; 3; 4])
             (prices [1; 1; 2]) (prices [2; 2; 3]) (prices [9; 9; 9]).

Definition bars3' : DataFrame :=
  bars_frame (day_numbers 3) (prices [1; 2; 5]) (prices [2; 3; 8])
             (prices [1; 1; 4]) (prices [2; 2; 7]) (prices [9; 9; 0]).

(** ** Columns a stage leaves alone *)

(** The columns of a file of bars. *)
Definition input_names : list string :=
  ["Date"; "Open"; "High"; "Low"; "Close"; "Volume"]%string.

(** [keeps name df df']: the frame [df'] has the rows of [df] and reads the
    same at [name] (the same column, or the same KeyError). *)
Definition keeps (name : string) (df df' : DataFrame) : Prop :=
  nrows df' = nrows df /\ getitem df' name = getitem df name.

(** The environment [E] with a timestamp parser that accepts every string;
    it differs from [E] in nothing the stages before [add_time_features]
    read. *)
Definition lenient (E : Externals) : Externals := {|
  np_log := @np_log E;
  np_sin := @np_sin E;
  np_cos := @np_cos E;
  to_datetime := fun _ => Some 0;
  dt_dayofweek := @dt_dayofweek E;
  dt_day := @dt_day E;
  dt_month := @dt_month E;
  dt_quarter := @dt_quarter E;
  dt_year := @dt_year E;
  dt_isoweek := @dt_isoweek E;
  dt_is_month_start := @dt_is_month_start E;
  dt_is_month_end := @dt_is_month_end E;
  dt_is_quarter_start := @dt_is_quarter_start E;
  dt_is_quarter_end := @dt_is_quarter_end E
|}.

(** Three bars whose second date is not a date. *)
Definition bars_bad_date : DataFrame :=
  bars_frame ["0"; "soon"; "2"]%string (prices [1; 2; 3]) (prices [2; 3; 4])
             (prices [1; 1; 2]) (prices [2; 2; 3]) (prices [9; 9; 9]).

(** ** The driver over all files (process_all_data)

    What the driver sees of the file system: which paths exist, and what
    [pd.read_csv] returns for a path (a frame, or the exception it raises).
    The output directories are created before the loop and [to_csv] is
    taken to succeed; the files written are collected in order. *)

Record FileSystem : Type := {
  path_exists : string -> bool;
  read_csv : string -> result DataFrame
}.

(** [os.path.join] *)
Definition path_join (a b : string) : string := (a ++ "/" ++ b)%string.

Definition INPUT_DIRS (base_dir : string) : list (string * string) :=
  [ ("daily", path_join base_dir "daily");
    ("4h", path_join base_dir "4h");
    ("1h", path_join base_dir "1h") ]%string.

Definition OUTPUT_DIR (base_dir : string) : string :=
  path_join base_dir "processed".

Definition CURRENCY_PAIRS : list string :=
  ["EUR_USD"; "GBP_USD"; "USD_JPY"; "AUD_USD"; "USD_CHF"]%string.

(** The 'Status' of a row of the summary: the check mark or the cross. *)
Inductive status : Type := Done | Failed.

Record Summary : Type := {
  Pair : string;
  Timeframe : string;
  Rows : Z;
  Columns : Z;
  Status : status
}.

(** The state of the run: the rows appended to [results] and the files
    written by [to_csv]. *)
Record Run : Type := {
  results : list Summary;
  written : list (string * DataFrame)
}.

(** [process_single_file(input_path, output_path, ...)] with its reading
    and writing: a frame is written only when every step before returned. *)
Definition process_single_file_at `{Externals} (fs : FileSystem)
    (input_path output_path : string) (files : list (string * DataFrame))
    : result DataFrame * list (string * DataFrame) :=
  match (df <- read_csv fs input_path ;; process_single_file df) with
  | Ok df_clean => (Ok df_clean, files ++ [(output_path, df_clean)])
  | Raise e => (Raise e, files)
  end.

Definition input_file (input_dir pair timeframe : string) : string :=
  path_join input_dir (pair ++ "_" ++ timeframe ++ ".csv")%string.

Definition output_file (base_dir pair timeframe : string) : string :=
  path_join (path_join (OUTPUT_DIR base_dir) timeframe)
            (pair ++ "_" ++ timeframe ++ "_processed.csv")%string.

Definition process_all_data `{Externals} (fs : FileSystem) (base_dir : string)
    : Run :=
  fold_left
    (fun (run : Run) (item : string * string) =>
       let '(timeframe, input_dir) := item in
       if negb (path_exists fs input_dir) then run
       else
         fold_left
           (fun (run : Run) (pair : string) =>
              if path_exists fs (input_file input_dir pair timeframe) then
                match process_single_file_at fs
                        (input_file input_dir pair timeframe)
                        (output_file base_dir pair timeframe) (written run)
                with
                | (Ok df, files) =>
                    {| results := results run ++
                         [ {| Pair := pair; Timeframe := timeframe;
                              Rows := len df;
                              Columns := Z.of_nat (length (columns df));
                              Status := Done |} ];
                       written := files |}
                | (Raise e, files) =>
                    {| results := results run ++
                         [ {| Pair := pair; Timeframe := timeframe;
                              Rows := 0; Columns := 0; Status := Failed |} ];
                       written := files |}
                end
              else run)
           CURRENCY_PAIRS run)
    (INPUT_DIRS base_dir)
    {| results := []; written := [] |}.

(** A file system with one directory of daily bars holding two files: one
    whose second date is not a date, and one of three good bars. *)
Definition example_fs : FileSystem := {|
  path_exists := fun p =>
    (String.eqb p "data/daily" || String.eqb p "data/daily/EUR_USD_daily.csv"
     || String.eqb p "data/daily/USD_JPY_daily.csv")%string;
  read_csv := fun p =>
    if String.eqb p "data/daily/EUR_USD_daily.csv" then Ok bars_bad_date
    else if String.eqb p "data/daily/USD_JPY_daily.csv" then Ok bars3
    else Raise (ValueError "No such file")
|}.

(** The outcome of one file (what [process_single_file] returns or raises
    on the frame read from it) and the row the driver appends for it. *)
Definition outcome `{Externals} (fs : FileSystem)
    (input_dir pair timeframe : string) : result DataFrame :=
  df <- read_csv fs (input_file input_dir pair timeframe) ;;
  process_single_file df.

Definition summary_row (pair timeframe : string) (r : result DataFrame)
    : Summary :=
  match r with
  | Ok df => {| Pair := pair; Timeframe := timeframe; Rows := len df;
                Columns := Z.of_nat (length (columns df)); Status := Done |}
  | Raise _ => {| Pair := pair; Timeframe := timeframe; Rows := 0;
                  Columns := 0; Status := Failed |}
  end.

Definition is_done (r : Summary) : bool :=
  match Status r with Done => true | Failed => false end.

Definition rows_of `{Externals} (fs : FileSystem) (item : string * string)
    : list Summary :=
  if path_exists fs (snd item) then
    flat_map (fun pair =>
      if path_exists fs (input_file (snd item) pair (fst item))
      then [summary_row pair (fst item) (outcome fs (snd item) pair (fst item))]
      else []) CURRENCY_PAIRS
  else [].

Definition files_of `{Externals} (fs : FileSystem) (base_dir : string)
    (item : string * string) : list (string * DataFrame) :=
  if path_exists fs (snd item) then
    flat_map (fun pair =>
      if path_exists fs (input_file (snd item) pair (fst item)) then
        match outcome fs (snd item) pair (fst item) with
        | Ok df => [(output_file base_dir pair (fst item), df)]
        | Raise _ => []
        end
      else []) CURRENCY_PAIRS
  else [].

(** ** The hourly download in chunks (download_hourly_data_chunked)

    From [src/data/download_forex_data.py]: the loop that walks back from
    now to 2020-01-01 and asks for at most 59 days at a time.  A [datetime]
    is its count of microseconds since the epoch, so that [timedelta] and
    the comparisons of the source are exact; [strftime('%Y-%m-%d')] keeps
    the calendar day, written as its day number.  What the download
    returns does not steer the loop and is outside the model. *)

Definition timedelta_days (k : Z) : Z := k * 86400000000.

(** [datetime(2020, 1, 1)]: day 18262 since 1970-01-01. *)
Definition hourly_start_date : Z := timedelta_days 18262.

(** The calendar day of a datetime, as [strftime('%Y-%m-%d')] prints it. *)
Definition strftime_day (t : Z) : Z := t / 86400000000.

(** The body of the [while] loop, run at most [fuel] times: the requests
    made, as pairs [(current_start, current_end)], latest first. *)
Fixpoint chunk_loop (fuel : nat) (start_date current_end : Z) : list (Z * Z) :=
  match fuel with
  | O => []
  | S fuel' =>
      if current_end >? start_date then
        let max_days := 59 in
        let current_start :=
          Z.max (current_end - timedelta_days max_days) start_date in
        (current_start, current_end)
          :: chunk_loop fuel' start_date (current_start - timedelta_days 1)
      else []
  end.

(** Iterations that suffice when the loop starts at [end_date]. *)
Definition chunk_fuel (start_date end_date : Z) : nat :=
  Z.to_nat ((end_date - start_date) / timedelta_days 60 + 1).

(** The requests of [download_hourly_data_chunked] when [datetime.now()]
    returns [now]. *)
Definition hourly_requests (now : Z) : list (Z * Z) :=
  chunk_loop (chunk_fuel hourly_start_date now) hourly_start_date now.

(** * Properties *)

(** ** Facts of binary64 arithmetic *)

Module F64Facts.

Import F64.

Lemma is_nan_true (x : float) : is_nan x = true -> x = nan.
Proof. destruct x; simpl; intros H; try discriminate; reflexivity. Qed.

Lemma gtb_nan_l (y : float) : gtb nan y = false.
Proof. destruct y; reflexivity. Qed.

Lemma gtb_nan_r (x : float) : gtb x nan = false.
Proof. destruct x; reflexivity. Qed.

Lemma ltb_nan_l (y : float) : ltb nan y = false.
Proof. destruct y; reflexivity. Qed.

Lemma ltb_nan_r (x : float) : ltb x nan = false.
Proof. destruct x; reflexivity. Qed.

Lemma div_nan_r (x : float) : div x nan = nan.
Proof. destruct x; reflexivity. Qed.

Lemma sub_nan_l (y : float) : sub nan y = nan.
Proof. destruct y; reflexivity. Qed.

Lemma sub_nan_r (x : float) : sub x nan = nan.
Proof. destruct x; reflexivity. Qed.

Lemma add_nan_l (y : float) : add nan y = nan.
Proof. destruct y; reflexivity. Qed.

Lemma add_nan_r (x : float) : add x nan = nan.
Proof. destruct x; reflexivity. Qed.

(** Rounding never manufactures a NaN: the result of [binary_round_aux] on
    a non-negative significand is a zero, an infinity or a finite number
    of the requested sign. *)

Lemma shr_1_nonneg (mrs : shr_record) :
  0 <= shr_m mrs -> 0 <= shr_m (shr_1 mrs).
Proof.
  destruct mrs as [m r s]. simpl.
  destruct m as [| [p | p |] | p]; simpl; lia.
Qed.

Lemma iter_shr_1_nonneg (p : positive) (mrs : shr_record) :
  0 <= shr_m mrs -> 0 <= shr_m (iter_pos shr_1 p mrs).
Proof.
  revert mrs. induction p as [p IH | p IH |]; intros mrs H; simpl.
  - apply IH, IH, shr_1_nonneg, H.
  - apply IH, IH, H.
  - apply shr_1_nonneg, H.
Qed.

Lemma shr_fexp_nonneg (m e : Z) (l : location) :
  0 <= m -> 0 <= shr_m (fst (shr_fexp prec emax m e l)).
Proof.
  intros Hm. unfold shr_fexp, shr.
  assert (H0 : 0 <= shr_m (shr_record_of_loc m l))
    by (destruct l as [| []]; simpl; assumption).
  destruct (fexp prec emax (Zdigits2 m + e) - e); simpl; auto.
  now apply iter_shr_1_nonneg.
Qed.

Lemma round_nearest_even_nonneg (m : Z) (l : location) :
  0 <= m -> 0 <= round_nearest_even m l.
Proof.
  intros Hm. destruct l as [| []]; simpl; try lia.
  destruct (Z.even m); lia.
Qed.

Lemma binary_round_aux_signed (sx : bool) (mx ex : Z) (lx : location) :
  0 <= mx -> signed sx (binary_round_aux prec emax sx mx ex lx).
Proof.
  intros Hm. unfold binary_round_aux.
  pose proof (shr_fexp_nonneg mx ex lx Hm) as H1.
  destruct (shr_fexp prec emax mx ex lx) as [mrs' e'] eqn:E1. simpl in H1.
  pose proof (shr_fexp_nonneg
                (round_nearest_even (shr_m mrs') (loc_of_shr_record mrs')) e'
                loc_Exact (round_nearest_even_nonneg _ _ H1)) as H2.
  destruct (shr_fexp prec emax _ e' loc_Exact) as [mrs'' e''] eqn:E2.
  simpl in H2.
  destruct (shr_m mrs'') as [| m | m].
  - now left.
  - destruct (e'' <=? emax - prec).
    + right; right. now exists m, e''.
    + right; now left.
  - lia.
Qed.

Lemma binary_round_signed (sx : bool) (mx : positive) (ex : Z) :
  signed sx (binary_round prec emax sx mx ex).
Proof.
  unfold binary_round.
  destruct (shl_align mx ex (fexp prec emax (Z.pos (digits2_pos mx) + ex)))
    as [mz ez].
  apply binary_round_aux_signed. lia.
Qed.

Lemma signed_not_nan (s : bool) (x : float) : signed s x -> is_nan x = false.
Proof. intros [-> | [-> | (m & e & ->)]]; reflexivity. Qed.

Lemma binary_normalize_not_nan (m e : Z) (sz : bool) :
  is_nan (binary_normalize prec emax m e sz) = false.
Proof.
  destruct m; simpl; [reflexivity | |];
    eapply signed_not_nan, binary_round_signed.
Qed.

Lemma div_finite_signed (sx sy : bool) (mx my : positive) (ex ey : Z) :
  signed (xorb sx sy) (div (S754_finite sx mx ex) (S754_finite sy my ey)).
Proof.
  unfold div, SFdiv, SFdiv_core_binary.
  match goal with
  | |- context [Z.div_eucl ?a ?b] =>
      pose proof (Z.div_pos a b) as Hq;
      pose proof (Z_div_mod a b) as Hdm;
      unfold Z.div in Hq; destruct (Z.div_eucl a b) as [q r] eqn:E;
      assert (Ha : 0 <= a)
  end.
  { destruct (ex - ey - _) eqn:Es; try lia.
    apply Z.shiftl_nonneg. lia. }
  apply binary_round_aux_signed. apply Hq; [exact Ha | lia].
Qed.

(** NaN-freedom of the four operations on the operands that matter for the
    indicator formulas. *)
Lemma div_not_nan (x y : float) :
  is_finite x = true -> is_finite y = true ->
  is_zero x && is_zero y = false ->
  is_nan (div x y) = false.
Proof.
  destruct x as [sx | sx | | sx mx ex], y as [sy | sy | | sy my ey];
    simpl; intros Hx Hy Hz; try discriminate; try reflexivity.
  eapply signed_not_nan, div_finite_signed.
Qed.

Lemma div_finite_l_not_nan (x y : float) :
  is_finite x = true -> is_zero x = false -> is_nan y = false ->
  is_nan (div x y) = false.
Proof.
  destruct x as [sx | sx | | sx mx ex], y as [sy | sy | | sy my ey];
    simpl; intros Hx Hz Hy; try discriminate; try reflexivity.
  eapply signed_not_nan, div_finite_signed.
Qed.

Lemma add_finite_l_not_nan (x y : float) :
  is_finite x = true -> is_nan y = false -> is_nan (add x y) = false.
Proof.
  destruct x as [sx | sx | | sx mx ex], y as [sy | sy | | sy my ey];
    simpl; intros Hx Hy; try discriminate; try reflexivity.
  - destruct sx, sy; reflexivity.
  - apply binary_normalize_not_nan.
Qed.

Lemma sub_finite_l_not_nan (x y : float) :
  is_finite x = true -> is_nan y = false -> is_nan (sub x y) = false.
Proof.
  destruct x as [sx | sx | | sx mx ex], y as [sy | sy | | sy my ey];
    simpl; intros Hx Hy; try discriminate; try reflexivity.
  - destruct sx, sy; reflexivity.
  - apply binary_normalize_not_nan.
Qed.

Lemma div_nan_l (y : float) : div nan y = nan.
Proof. destruct y; reflexivity. Qed.

Lemma mul_nan_l (y : float) : mul nan y = nan.
Proof. destruct y; reflexivity. Qed.

Lemma mul_nan_r (x : float) : mul x nan = nan.
Proof. destruct x; reflexivity. Qed.

Lemma is_zero_finite (x : float) : is_zero x = true -> is_finite x = true.
Proof. destruct x; simpl; congruence. Qed.

Lemma is_finite_not_nan (x : float) : is_finite x = true -> is_nan x = false.
Proof. destruct x; simpl; congruence. Qed.

Lemma div_zero_zero (x y : float) :
  is_zero x = true -> is_zero y = true -> div x y = nan.
Proof. destruct x, y; simpl; intros; try discriminate; reflexivity. Qed.

(** A finite subtraction of a value from itself is a zero. *)
Lemma sub_diag_zero (x : float) :
  is_finite x = true -> is_zero (sub x x) = true.
Proof.
  destruct x as [s | s | | s m e]; simpl; intros H; try discriminate.
  - destruct s; reflexivity.
  - unfold sub, SFsub. now rewrite Z.sub_diag.
Qed.

Lemma add_zero_zero (x y : float) :
  is_zero x = true -> is_zero y = true -> is_zero (add x y) = true.
Proof.
  destruct x as [[] | | |], y as [[] | | |]; simpl; intros; try discriminate;
    reflexivity.
Qed.

(** *** Conversion of a positive integer is never zero

    The right shifts of rounding drop fewer bits than the significand has,
    so a positive significand stays positive. *)
Lemma shr_1_div2 (mrs : shr_record) :
  0 <= shr_m mrs -> shr_m (shr_1 mrs) = Z.div2 (shr_m mrs).
Proof.
  destruct mrs as [m r s]. simpl.
  destruct m as [| [p | p |] | p]; simpl; intros H; try reflexivity; lia.
Qed.

Lemma iter_shr_1_div (p : positive) (mrs : shr_record) :
  0 <= shr_m mrs ->
  shr_m (iter_pos shr_1 p mrs) = shr_m mrs / 2 ^ Z.pos p.
Proof.
  revert mrs. induction p as [p IH | p IH |]; intros mrs H; simpl iter_pos.
  - rewrite IH by now apply iter_shr_1_nonneg, shr_1_nonneg.
    rewrite IH by now apply shr_1_nonneg.
    rewrite shr_1_div2 by assumption.
    rewrite Z.div2_div, !Z.div_div by lia.
    f_equal. replace (Z.pos p~1) with (1 + Z.pos p + Z.pos p) by lia.
    rewrite !Z.pow_add_r, Z.pow_1_r by lia. ring.
  - rewrite IH by now apply iter_shr_1_nonneg.
    rewrite IH by assumption.
    rewrite Z.div_div by lia.
    f_equal. replace (Z.pos p~0) with (Z.pos p + Z.pos p) by lia.
    rewrite Z.pow_add_r by lia. ring.
  - rewrite shr_1_div2 by assumption. now rewrite Z.div2_div, Z.pow_1_r.
Qed.

Lemma digits2_pos_lower (p : positive) :
  2 ^ (Z.pos (digits2_pos p) - 1) <= Z.pos p.
Proof.
  induction p as [p IH | p IH |]; simpl digits2_pos.
  - rewrite Pos2Z.inj_succ.
    replace (Z.succ (Z.pos (digits2_pos p)) - 1)
      with (Z.succ (Z.pos (digits2_pos p) - 1)) by lia.
    rewrite Z.pow_succ_r by lia. lia.
  - rewrite Pos2Z.inj_succ.
    replace (Z.succ (Z.pos (digits2_pos p)) - 1)
      with (Z.succ (Z.pos (digits2_pos p) - 1)) by lia.
    rewrite Z.pow_succ_r by lia. lia.
  - simpl. lia.
Qed.

Lemma shr_fexp_pos (m e : Z) (l : location) :
  0 < m -> emin prec emax <= e ->
  0 < shr_m (fst (shr_fexp prec emax m e l)) /\
  emin prec emax <= snd (shr_fexp prec emax m e l).
Proof.
  intros Hm He. unfold shr_fexp, shr.
  assert (H0 : shr_m (shr_record_of_loc m l) = m)
    by (destruct l as [| []]; reflexivity).
  destruct m as [| pm | pm]; try lia.
  unfold fexp. simpl Zdigits2.
  destruct (Z.max (Z.pos (digits2_pos pm) + e - prec) (emin prec emax) - e)
    as [| n | n] eqn:En; simpl fst; simpl snd.
  - rewrite H0. lia.
  - split; [| lia].
    rewrite iter_shr_1_div by (rewrite H0; lia). rewrite H0.
    apply Z.div_str_pos. split; [apply Z.pow_pos_nonneg; lia |].
    pose proof (digits2_pos_lower pm) as Hd.
    apply Z.le_trans with (2 := Hd). apply Z.pow_le_mono_r; [lia |].
    unfold prec in *. lia.
  - rewrite H0. lia.
Qed.

Lemma round_nearest_even_pos (m : Z) (l : location) :
  0 < m -> 0 < round_nearest_even m l.
Proof.
  intros Hm. destruct l as [| []]; simpl; try lia.
  destruct (Z.even m); lia.
Qed.

Lemma binary_round_aux_nonzero (sx : bool) (mx ex : Z) (lx : location) :
  0 < mx -> emin prec emax <= ex ->
  is_zero (binary_round_aux prec emax sx mx ex lx) = false.
Proof.
  intros Hm He. unfold binary_round_aux.
  destruct (shr_fexp_pos mx ex lx Hm He) as [H1 H1e].
  destruct (shr_fexp prec emax mx ex lx) as [mrs' e'] eqn:E1.
  simpl in H1, H1e.
  destruct (shr_fexp_pos
              (round_nearest_even (shr_m mrs') (loc_of_shr_record mrs')) e'
              loc_Exact (round_nearest_even_pos _ _ H1) H1e) as [H2 _].
  destruct (shr_fexp prec emax _ e' loc_Exact) as [mrs'' e''] eqn:E2.
  simpl in H2.
  destruct (shr_m mrs'') as [| m | m]; try lia.
  now destruct (e'' <=? emax - prec).
Qed.

Lemma of_Z_pos (z : Z) :
  0 < z -> signed false (of_Z z) /\ is_zero (of_Z z) = false.
Proof.
  intros Hz. destruct z as [| p | p]; try lia.
  unfold of_Z, binary_normalize. split; [apply binary_round_signed |].
  unfold binary_round, shl_align.
  destruct (fexp prec emax (Z.pos (digits2_pos p) + 0) - 0) as [| d | d] eqn:Ed;
    apply binary_round_aux_nonzero; try lia; try (vm_compute; discriminate).
  unfold fexp in *. lia.
Qed.

(** A zero divided by the conversion of a positive integer is a zero. *)
Lemma div_zero_by_count (x : float) (z : Z) :
  is_zero x = true -> 0 < z -> is_zero (div x (of_Z z)) = true.
Proof.
  intros Hx Hz. destruct (of_Z_pos z Hz) as [Hs Hnz].
  destruct x as [sx | | |]; try discriminate.
  destruct Hs as [E | [E | (m & e & E)]]; rewrite E in *;
    try discriminate; reflexivity.
Qed.

End F64Facts.

(** ** Exceptions and frames *)

Lemma returns_not_raises {A : Type} (m : result A) : returns m -> ~ raises m.
Proof. intros [a Ha] [e He]. rewrite Ha in He. discriminate. Qed.

Lemma lookup_update_eq (name : string) (c : Column) (cols : list (string * Column)) :
  lookup name (update name c cols) = Some c.
Proof.
  induction cols as [| [k c0] rest IH]; simpl.
  - now rewrite String.eqb_refl.
  - destruct (String.eqb k name) eqn:E; simpl; rewrite E; auto.
Qed.

Lemma lookup_update_ne (name other : string) (c : Column) (cols : list (string * Column)) :
  name <> other -> lookup other (update name c cols) = lookup other cols.
Proof.
  intros Hne. induction cols as [| [k c0] rest IH]; simpl.
  - destruct (String.eqb_spec name other); congruence.
  - destruct (String.eqb_spec k name) as [-> | Hk]; simpl.
    + destruct (String.eqb_spec name other); congruence.
    + now rewrite IH.
Qed.

Lemma getitem_setitem_eq (df : DataFrame) (name : string) (c : Column) :
  getitem (setitem df name c) name = Ok c.
Proof. unfold getitem, setitem; simpl. now rewrite lookup_update_eq. Qed.

Lemma getitem_setitem_ne (df : DataFrame) (name other : string) (c : Column) :
  name <> other -> getitem (setitem df name c) other = getitem df other.
Proof. intros H. unfold getitem, setitem; simpl. now rewrite lookup_update_ne. Qed.

Lemma getf_setitem_eq (df : DataFrame) (name : string) (v : Series) :
  getf (setitem df name (FloatCol v)) name = Ok v.
Proof. unfold getf. now rewrite getitem_setitem_eq. Qed.

Lemma getf_setitem_ne (df : DataFrame) (name other : string) (c : Column) :
  name <> other -> getf (setitem df name c) other = getf df other.
Proof. intros H. unfold getf. now rewrite getitem_setitem_ne. Qed.

(** ** Positions of mapped, shifted and aligned series *)

Section Positions.

Lemma length_index (n : nat) : length (Pd.index n) = n.
Proof. unfold Pd.index. now rewrite length_map, length_seq. Qed.

Lemma nth_index_map {A : Type} (f : Z -> A) (d : A) (n t : nat) :
  (t < n)%nat -> nth t (map f (Pd.index n)) d = f (Z.of_nat t).
Proof.
  intros Ht. unfold Pd.index. rewrite map_map.
  rewrite (nth_indep _ d (f (Z.of_nat 0))) by now rewrite length_map, length_seq.
  rewrite (map_nth (fun x => f (Z.of_nat x)) (seq 0 n) 0%nat t).
  now rewrite seq_nth.
Qed.

Lemma nth_map_in {A B : Type} (f : A -> B) (l : list A) (da : A) (db : B) (t : nat) :
  (t < length l)%nat -> nth t (map f l) db = f (nth t l da).
Proof.
  intros Ht. rewrite (nth_indep _ db (f da)) by now rewrite length_map.
  apply map_nth.
Qed.

Lemma at_nat (s : Series) (t : nat) : Pd.at_ s (Z.of_nat t) = nth t s NaN.
Proof.
  unfold Pd.at_. destruct (Z.ltb_spec (Z.of_nat t) 0); [lia |].
  now rewrite Nat2Z.id.
Qed.

Lemma at_out (s : Series) (i : Z) :
  i < 0 \/ Z.of_nat (length s) <= i -> Pd.at_ s i = NaN.
Proof.
  intros H. unfold Pd.at_. destruct (Z.ltb_spec i 0); [reflexivity |].
  apply nth_overflow. lia.
Qed.

Lemma length_shift (s : Series) (k : Z) : length (Pd.shift s k) = length s.
Proof. unfold Pd.shift. now rewrite length_map, length_index. Qed.

Lemma nth_shift (s : Series) (k : Z) (t : nat) :
  (t < length s)%nat -> nth t (Pd.shift s k) NaN = Pd.at_ s (Z.of_nat t - k).
Proof. intros Ht. unfold Pd.shift. now rewrite nth_index_map. Qed.

Lemma length_align (f : float -> float -> float) (a b : Series) :
  length (Pd.align f a b) = Nat.max (length a) (length b).
Proof. unfold Pd.align. now rewrite length_map, length_index. Qed.

Lemma nth_align (f : float -> float -> float) (a b : Series) (t : nat) :
  (t < Nat.max (length a) (length b))%nat ->
  nth t (Pd.align f a b) NaN = f (nth t a NaN) (nth t b NaN).
Proof.
  intros Ht. unfold Pd.align. rewrite nth_index_map by assumption.
  now rewrite !at_nat.
Qed.

Lemma length_pct_change (s : Series) (k : Z) :
  length (Pd.pct_change s k) = length s.
Proof.
  unfold Pd.pct_change, Pd.sub_scalar, Pd.sdiv.
  rewrite length_map, length_align, length_shift. lia.
Qed.

Lemma nth_pct_change (s : Series) (k : Z) (t : nat) :
  (t < length s)%nat ->
  nth t (Pd.pct_change s k) NaN =
  F64.sub (F64.div (nth t s NaN) (Pd.at_ s (Z.of_nat t - k))) (F64.of_Z 1).
Proof.
  intros Ht. unfold Pd.pct_change, Pd.sub_scalar, Pd.sdiv.
  rewrite (nth_map_in _ _ NaN) by (rewrite length_align, length_shift; lia).
  rewrite nth_align by (rewrite length_shift; lia).
  now rewrite nth_shift.
Qed.

Lemma length_gt_scalar (s : Series) (c : float) :
  length (Pd.gt_scalar s c) = length s.
Proof. apply length_map. Qed.

Lemma nth_gt_scalar (s : Series) (c : float) (t : nat) :
  nth t (Pd.gt_scalar s c) false = F64.gtb (nth t s NaN) c.
Proof.
  destruct (Nat.lt_ge_cases t (length s)) as [Ht | Ht].
  - exact (nth_map_in (fun x => F64.gtb x c) s NaN false t Ht).
  - rewrite !nth_overflow; [ | assumption | now rewrite length_gt_scalar].
    now rewrite F64Facts.gtb_nan_l.
Qed.

Lemma length_lt_scalar (s : Series) (c : float) :
  length (Pd.lt_scalar s c) = length s.
Proof. apply length_map. Qed.

Lemma nth_lt_scalar (s : Series) (c : float) (t : nat) :
  nth t (Pd.lt_scalar s c) false = F64.ltb (nth t s NaN) c.
Proof.
  destruct (Nat.lt_ge_cases t (length s)) as [Ht | Ht].
  - exact (nth_map_in (fun x => F64.ltb x c) s NaN false t Ht).
  - rewrite !nth_overflow; [ | assumption | now rewrite length_lt_scalar].
    now rewrite F64Facts.ltb_nan_l.
Qed.

Lemma sgt_same_length (a b : Series) :
  length a = length b ->
  Pd.sgt a b = Ok (map (fun p => F64.gtb (fst p) (snd p)) (combine a b)).
Proof. intros H. unfold Pd.sgt. now rewrite H, Nat.eqb_refl. Qed.

Lemma nth_combine_gtb (a b : Series) (t : nat) :
  length a = length b -> (t < length b)%nat ->
  nth t (map (fun p => F64.gtb (fst p) (snd p)) (combine a b)) false =
  F64.gtb (nth t a NaN) (nth t b NaN).
Proof.
  intros Hl Ht.
  rewrite (nth_map_in _ _ (NaN, NaN)) by (rewrite length_combine; lia).
  now rewrite combine_nth.
Qed.

End Positions.

(** ** Target variables *)

Section Targets.

Lemma map_seq_nth {A B : Type} (f : nat -> B) (g : A -> B) (d : A) (l : list A) :
  (forall t, (t < length l)%nat -> f t = g (nth t l d)) ->
  map f (seq 0 (length l)) = map g l.
Proof.
  intros H. apply (nth_ext _ _ (f 0%nat) (g d)).
  - now rewrite !length_map, length_seq.
  - intros t Ht. rewrite length_map, length_seq in Ht.
    rewrite (map_nth f), (map_nth g).
    rewrite seq_nth by assumption. now apply H.
Qed.

(** [np.select] over the four tests is the first-match chain, row by row. *)
Lemma target_direction_multi_eq (tr : Series) :
  target_direction_multi tr = Ok (map classify tr).
Proof.
  unfold target_direction_multi, Pd.np_select.
  cbn [length negb Nat.eqb forallb].
  rewrite !length_gt_scalar, !Nat.eqb_refl. cbn [andb].
  f_equal. apply (map_seq_nth _ _ NaN).
  intros t _. cbn [Pd.select_at]. rewrite !nth_gt_scalar. reflexivity.
Qed.

Lemma add_target_variables_eq (df : DataFrame) (H : Z) (close : Series) :
  getf df "Close" = Ok close ->
  add_target_variables df H = Ok (target_frame df close H).
Proof.
  intros Hc. unfold add_target_variables, target_frame.
  rewrite Hc. cbn [bind].
  rewrite sgt_same_length by apply length_shift. cbn [bind].
  rewrite getf_setitem_ne, Hc by discriminate. cbn [bind].
  rewrite getf_setitem_eq. cbn [bind].
  rewrite !getf_setitem_ne, Hc by discriminate. cbn [bind].
  rewrite getf_setitem_ne, getf_setitem_eq by discriminate. cbn [bind].
  rewrite target_direction_multi_eq. reflexivity.
Qed.

Lemma target_frame_direction (df : DataFrame) (close : Series) (H : Z) :
  getitem (target_frame df close H) "Target_Direction" =
  Ok (IntCol (direction_column close H)).
Proof.
  unfold target_frame.
  rewrite !getitem_setitem_ne by discriminate. apply getitem_setitem_eq.
Qed.

Lemma target_frame_return (df : DataFrame) (close : Series) (H : Z) :
  getitem (target_frame df close H) "Target_Return" =
  Ok (FloatCol (return_column close H)).
Proof.
  unfold target_frame.
  rewrite !getitem_setitem_ne by discriminate. apply getitem_setitem_eq.
Qed.

Lemma target_frame_close (df : DataFrame) (close : Series) (H : Z) :
  getitem (target_frame df close H) "Target_Close" =
  Ok (FloatCol (next_close_column close H)).
Proof.
  unfold target_frame.
  rewrite !getitem_setitem_ne by discriminate. apply getitem_setitem_eq.
Qed.

Lemma target_frame_multi (df : DataFrame) (close : Series) (H : Z) :
  getitem (target_frame df close H) "Target_Direction_Multi" =
  Ok (IntCol (map classify (return_column close H))).
Proof. unfold target_frame. apply getitem_setitem_eq. Qed.

Lemma length_return_column (close : Series) (H : Z) :
  length (return_column close H) = length close.
Proof.
  unfold return_column. now rewrite !length_shift, length_pct_change.
Qed.

Lemma length_direction_column (close : Series) (H : Z) :
  length (direction_column close H) = length close.
Proof.
  unfold direction_column, Pd.np_where.
  rewrite !length_map, length_combine, length_shift. lia.
Qed.

(** What the two chained shifts around [pct_change] leave at row t. *)
Lemma nth_return_column (close : Series) (H : Z) (t : nat) :
  (t < length close)%nat ->
  nth t (return_column close H) NaN =
  if (0 <=? Z.of_nat t + H) && (Z.of_nat t + H <? Z.of_nat (length close))
  then F64.sub (F64.div (nth t close NaN) (Pd.at_ close (Z.of_nat t + H)))
               (F64.of_Z 1)
  else NaN.
Proof.
  intros Ht. unfold return_column.
  rewrite nth_shift by now rewrite length_shift, length_pct_change.
  replace (Z.of_nat t - - H) with (Z.of_nat t + H) by lia.
  destruct (Z.leb_spec 0 (Z.of_nat t + H)) as [H0 | H0]; cbn [andb].
  2:{ apply at_out. lia. }
  destruct (Z.ltb_spec (Z.of_nat t + H) (Z.of_nat (length close))) as [H1 | H1].
  2:{ apply at_out. rewrite length_shift, length_pct_change. lia. }
  rewrite <- (Z2Nat.id (Z.of_nat t + H)) at 1 by assumption.
  rewrite at_nat, nth_shift by (rewrite length_pct_change; lia).
  rewrite Z2Nat.id by assumption.
  replace (Z.of_nat t + H - H) with (Z.of_nat t) by lia.
  rewrite at_nat, nth_pct_change by assumption.
  now replace (Z.of_nat t - - H) with (Z.of_nat t + H) by lia.
Qed.

Lemma nth_direction_column (close : Series) (H : Z) (t : nat) :
  (t < length close)%nat ->
  nth t (direction_column close H) 0 =
  if F64.gtb (Pd.at_ close (Z.of_nat t + H)) (nth t close NaN) then 1 else 0.
Proof.
  intros Ht. unfold direction_column, Pd.np_where.
  rewrite (nth_map_in _ _ false)
    by (rewrite length_map, length_combine, length_shift; lia).
  rewrite nth_combine_gtb by (try apply length_shift; assumption).
  rewrite nth_shift by assumption.
  now replace (Z.of_nat t - - H) with (Z.of_nat t + H) by lia.
Qed.

Lemma nth_next_close_column (close : Series) (H : Z) (t : nat) :
  (t < length close)%nat ->
  nth t (next_close_column close H) NaN = Pd.at_ close (Z.of_nat t + H).
Proof.
  intros Ht. unfold next_close_column. rewrite nth_shift by assumption.
  now replace (Z.of_nat t - - H) with (Z.of_nat t + H) by lia.
Qed.

End Targets.

(** ** Claims on the target variables *)

(** C1 (the code departs from the claim).  On the closes 1, 2 with horizon 1
    the return label stored at row 0 is 1/2 - 1 = -0.5, the change from
    close[t+H] back to close[t] relative to close[t+H], whereas the claimed
    (close[t+H] - close[t]) / close[t] is +1; the same frame carries the
    binary label 1 (up) and the multi-class label -2 (strong down) at that
    row. *)
Theorem C1_target_return_at_failing_input :
  let close := prices [1; 2] in
  exists df',
    add_target_variables (close_frame close) 1 = Ok df' /\
    getitem df' "Target_Return" = Ok (FloatCol [F64.dec (-5) 1; NaN]) /\
    getitem df' "Target_Direction" = Ok (IntCol [1; 0]) /\
    getitem df' "Target_Direction_Multi" = Ok (IntCol [-2; -2]) /\
    F64.div (F64.sub (nth 1 close NaN) (nth 0 close NaN)) (nth 0 close NaN)
      = F64.of_Z 1 /\
    F64.dec (-5) 1 <> F64.of_Z 1.
Proof.
  eexists. split; [vm_compute; reflexivity |].
  repeat split; try (vm_compute; reflexivity).
  vm_compute. discriminate.
Qed.

(** The return label on every frame: close[t] / close[t+H] - 1 where row
    t+H exists, NaN elsewhere. *)
Lemma target_return_formula (df : DataFrame) (close : Series) (H : Z) (t : nat) :
  getf df "Close" = Ok close -> (t < length close)%nat ->
  exists df' tr,
    add_target_variables df H = Ok df' /\
    getitem df' "Target_Return" = Ok (FloatCol tr) /\
    nth t tr NaN =
      if (0 <=? Z.of_nat t + H) && (Z.of_nat t + H <? Z.of_nat (length close))
      then F64.sub (F64.div (nth t close NaN) (Pd.at_ close (Z.of_nat t + H)))
                   (F64.of_Z 1)
      else NaN.
Proof.
  intros Hc Ht. exists (target_frame df close H), (return_column close H).
  split; [now apply add_target_variables_eq |].
  split; [apply target_frame_return | now apply nth_return_column].
Qed.

(** C2, counterexample: the return 0.001 is not labelled up (1). *)
Lemma C2_return_at_threshold_is_not_up :
  target_direction_multi [F64.dec 1 3] <> Ok [1].
Proof. vm_compute. discriminate. Qed.

(** C2 (amended).  On every return column the multi-class label is the
    first match of the ordered strict tests r > 2θ → 2, r > θ → 1,
    r > −θ → 0, r > −2θ → −1, else −2, with θ = 0.001; 0.0021 is strong up,
    0.001 is neutral (the up test is the strict r > θ), 0 is neutral,
    −0.0015 is down and −0.002 is strong down. *)
Theorem C2_first_match_labels :
  (forall tr : Series, target_direction_multi tr = Ok (map classify tr)) /\
  target_direction_multi
    [F64.dec 21 4; F64.dec 1 3; F64.of_Z 0; F64.dec (-15) 4; F64.dec (-2) 3]
  = Ok [2; 0; 0; -1; -2].
Proof.
  split; [apply target_direction_multi_eq | vm_compute; reflexivity].
Qed.

(** C3, counterexample: on the closes 1, 2 with horizon 1 the binary label
    of the last row is the defined value 0. *)
Lemma C3_last_row_label_is_zero :
  exists df',
    add_target_variables (close_frame (prices [1; 2])) 1 = Ok df' /\
    getitem df' "Target_Direction" = Ok (IntCol [1; 0]).
Proof. eexists. split; vm_compute; reflexivity. Qed.

(** C3 (amended).  For every close series and horizon H >= 1 the binary
    label at row t is 1 if close[t+H] > close[t] and 0 otherwise where row
    t+H exists, and it is 0 on the last H rows; on a strictly increasing
    series it is 1 on every row but the last H, where it is 0. *)
Theorem C3_direction_label (df : DataFrame) (close : Series) (H : Z) (t : nat) :
  getf df "Close" = Ok close -> 1 <= H -> (t < length close)%nat ->
  exists df' dir,
    add_target_variables df H = Ok df' /\
    getitem df' "Target_Direction" = Ok (IntCol dir) /\
    length dir = length close /\
    (Z.of_nat t + H < Z.of_nat (length close) ->
       nth t dir 0 =
       if F64.gtb (nth (Z.to_nat (Z.of_nat t + H)) close NaN) (nth t close NaN)
       then 1 else 0) /\
    (Z.of_nat (length close) <= Z.of_nat t + H -> nth t dir 0 = 0) /\
    (strictly_increasing close ->
       Z.of_nat t + H < Z.of_nat (length close) -> nth t dir 0 = 1).
Proof.
  intros Hc HH Ht.
  exists (target_frame df close H), (direction_column close H).
  split; [now apply add_target_variables_eq |].
  split; [apply target_frame_direction |].
  split; [apply length_direction_column |].
  rewrite nth_direction_column by assumption.
  assert (Hat : Z.of_nat t + H < Z.of_nat (length close) ->
                Pd.at_ close (Z.of_nat t + H) =
                nth (Z.to_nat (Z.of_nat t + H)) close NaN).
  { intros _. rewrite <- (Z2Nat.id (Z.of_nat t + H)) at 1 by lia. apply at_nat. }
  repeat split.
  - intros Hin. now rewrite Hat.
  - intros Hout. rewrite at_out by lia. now rewrite F64Facts.gtb_nan_l.
  - intros Hinc Hin. rewrite Hat by assumption.
    assert (E : F64.ltb (nth t close NaN)
                  (nth (Z.to_nat (Z.of_nat t + H)) close NaN) = true)
      by (apply Hinc; lia).
    unfold F64.gtb. unfold F64.ltb in E. now rewrite E.
Qed.

Lemma C3_direction_label_witness :
  getf (close_frame rising3) "Close" = Ok rising3 /\
  1 <= 1 /\ (0 < length rising3)%nat /\ strictly_increasing rising3 /\
  exists df' dir,
    add_target_variables (close_frame rising3) 1 = Ok df' /\
    getitem df' "Target_Direction" = Ok (IntCol dir) /\
    length dir = length rising3 /\
    (Z.of_nat 0 + 1 < Z.of_nat (length rising3) ->
       nth 0 dir 0 =
       if F64.gtb (nth (Z.to_nat (Z.of_nat 0 + 1)) rising3 NaN)
                  (nth 0 rising3 NaN)
       then 1 else 0) /\
    (Z.of_nat (length rising3) <= Z.of_nat 0 + 1 -> nth 0 dir 0 = 0) /\
    (strictly_increasing rising3 ->
       Z.of_nat 0 + 1 < Z.of_nat (length rising3) -> nth 0 dir 0 = 1).
Proof.
  split; [reflexivity |]. split; [lia |]. split; [simpl; lia |].
  split.
  { intros [| [| [| i]]] [| [| [| j]]] Hij; simpl in Hij; try lia; reflexivity. }
  apply (C3_direction_label (close_frame rising3) rising3 1 0);
    [reflexivity | lia | simpl; lia].
Defined.

(** C6, counterexample: with horizon 0 the stage returns a frame; it does
    not fail. *)
Lemma C6_zero_horizon_does_not_raise :
  ~ raises (add_target_variables (close_frame (prices [1; 2])) 0).
Proof.
  apply returns_not_raises. eexists. vm_compute. reflexivity.
Qed.

(** C6 (amended).  The stage validates no horizon: on a frame with a numeric
    close column it returns a frame for every integer H, also for H < 1; for
    H >= 1 the rows without a future bar (the last H) get the undefined
    value in Target_Return and Target_Close instead of an error. *)
Theorem C6_never_raises (df : DataFrame) (close : Series) (H : Z) :
  getf df "Close" = Ok close ->
  exists df' tr tc,
    add_target_variables df H = Ok df' /\
    getitem df' "Target_Return" = Ok (FloatCol tr) /\
    getitem df' "Target_Close" = Ok (FloatCol tc) /\
    (1 <= H -> forall t : nat,
       (t < length close)%nat -> Z.of_nat (length close) <= Z.of_nat t + H ->
       nth t tr NaN = NaN /\ nth t tc NaN = NaN).
Proof.
  intros Hc.
  exists (target_frame df close H), (return_column close H),
         (next_close_column close H).
  split; [now apply add_target_variables_eq |].
  split; [apply target_frame_return |].
  split; [apply target_frame_close |].
  intros HH t Ht Hout. split.
  - rewrite nth_return_column by assumption.
    destruct (Z.ltb_spec (Z.of_nat t + H) (Z.of_nat (length close))); [lia |].
    now rewrite andb_false_r.
  - rewrite nth_next_close_column by assumption. apply at_out. lia.
Qed.

Lemma C6_never_raises_witness :
  getf (close_frame rising3) "Close" = Ok rising3 /\
  exists df' tr tc,
    add_target_variables (close_frame rising3) (-1) = Ok df' /\
    getitem df' "Target_Return" = Ok (FloatCol tr) /\
    getitem df' "Target_Close" = Ok (FloatCol tc) /\
    (1 <= -1 -> forall t : nat,
       (t < length rising3)%nat -> Z.of_nat (length rising3) <= Z.of_nat t + -1 ->
       nth t tr NaN = NaN /\ nth t tc NaN = NaN).
Proof.
  split; [reflexivity |].
  apply (C6_never_raises (close_frame rising3) rising3 (-1)). reflexivity.
Defined.

(** C9.  At every row where Target_Return is undefined, and so on each of
    the last H rows, Target_Direction_Multi is the defined value -2: every
    comparison with the undefined value is false and the selection falls to
    its default.  The column is an integer column with one label per row. *)
Theorem C9_undefined_return_is_strong_down (df : DataFrame) (close : Series)
    (H : Z) :
  getf df "Close" = Ok close ->
  exists df' tr multi,
    add_target_variables df H = Ok df' /\
    getitem df' "Target_Return" = Ok (FloatCol tr) /\
    getitem df' "Target_Direction_Multi" = Ok (IntCol multi) /\
    length multi = length close /\
    (forall t : nat, (t < length close)%nat ->
       F64.is_nan (nth t tr NaN) = true -> nth t multi 0 = -2) /\
    (1 <= H -> forall t : nat,
       (t < length close)%nat -> Z.of_nat (length close) <= Z.of_nat t + H ->
       F64.is_nan (nth t tr NaN) = true /\ nth t multi 0 = -2).
Proof.
  intros Hc.
  exists (target_frame df close H), (return_column close H),
         (map classify (return_column close H)).
  split; [now apply add_target_variables_eq |].
  split; [apply target_frame_return |].
  split; [apply target_frame_multi |].
  split; [now rewrite length_map, length_return_column |].
  assert (Hnan : forall t : nat, (t < length close)%nat ->
            F64.is_nan (nth t (return_column close H) NaN) = true ->
            nth t (map classify (return_column close H)) 0 = -2).
  { intros t Ht Hn.
    rewrite (nth_map_in _ _ NaN) by now rewrite length_return_column.
    apply F64Facts.is_nan_true in Hn. rewrite Hn. reflexivity. }
  split; [exact Hnan |].
  intros HH t Ht Hout.
  assert (Hn : F64.is_nan (nth t (return_column close H) NaN) = true).
  { rewrite nth_return_column by assumption.
    destruct (Z.ltb_spec (Z.of_nat t + H) (Z.of_nat (length close))); [lia |].
    now rewrite andb_false_r. }
  split; [exact Hn | now apply Hnan].
Qed.

Lemma C9_undefined_return_is_strong_down_witness :
  getf (close_frame rising3) "Close" = Ok rising3 /\
  exists df' tr multi,
    add_target_variables (close_frame rising3) 1 = Ok df' /\
    getitem df' "Target_Return" = Ok (FloatCol tr) /\
    getitem df' "Target_Direction_Multi" = Ok (IntCol multi) /\
    length multi = length rising3 /\
    (forall t : nat, (t < length rising3)%nat ->
       F64.is_nan (nth t tr NaN) = true -> nth t multi 0 = -2) /\
    (1 <= 1 -> forall t : nat,
       (t < length rising3)%nat -> Z.of_nat (length rising3) <= Z.of_nat t + 1 ->
       F64.is_nan (nth t tr NaN) = true /\ nth t multi 0 = -2).
Proof.
  split; [reflexivity |].
  apply (C9_undefined_return_is_strong_down (close_frame rising3) rising3 1).
  reflexivity.
Defined.

(** ** Rolling windows *)

Section Rolling.

Variable agg : list float -> float.

Lemma rolling_ok (s : Series) (w : Z) :
  0 <= w -> Pd.rolling agg s w = Ok (Pd.roll agg s (Z.to_nat w)).
Proof.
  intros Hw. unfold Pd.rolling.
  destruct (Z.ltb_spec w 0); [lia | reflexivity].
Qed.

Lemma length_roll (s : Series) (n : nat) : length (Pd.roll agg s n) = length s.
Proof. unfold Pd.roll. now rewrite length_map, length_seq. Qed.

Lemma nth_roll (s : Series) (n t : nat) :
  (t < length s)%nat ->
  nth t (Pd.roll agg s n) NaN =
  if (0 <? n)%nat && (n <=? t + 1)%nat && Pd.observed (Pd.window s n t)
  then agg (Pd.window s n t) else NaN.
Proof.
  intros Ht. unfold Pd.roll.
  rewrite (nth_map_in _ _ 0%nat) by now rewrite length_seq.
  now rewrite seq_nth.
Qed.

(** While the window is incomplete the result is the undefined value. *)
Lemma nth_roll_incomplete (s : Series) (n t : nat) :
  (t + 1 < n)%nat -> nth t (Pd.roll agg s n) NaN = NaN.
Proof.
  intros Hin. destruct (Nat.lt_ge_cases t (length s)) as [Ht | Ht].
  - rewrite nth_roll by assumption.
    destruct (Nat.leb_spec n (t + 1)); [lia |].
    now rewrite andb_false_r.
  - apply nth_overflow. now rewrite length_roll.
Qed.

End Rolling.

Lemma in_window (s : Series) (n t : nat) (x : float) :
  In x (Pd.window s n t) -> In x s.
Proof.
  unfold Pd.window. intros H.
  rewrite <- (firstn_skipn (t + 1 - n) s). apply in_or_app. right.
  rewrite <- (firstn_skipn n (skipn (t + 1 - n) s)). apply in_or_app. now left.
Qed.

Lemma observed_window (s : Series) (n t : nat) :
  (forall x, In x s -> F64.is_nan x = false) ->
  Pd.observed (Pd.window s n t) = true.
Proof.
  intros H. unfold Pd.observed. apply forallb_forall.
  intros x Hx. apply in_window in Hx. now rewrite H.
Qed.

(** ** RSI *)

Section RSI.

Lemma in_combine_map {A B : Type} (f : A -> B) (l : list A) (x : A) (y : B) :
  In (x, y) (combine l (map f l)) -> y = f x.
Proof.
  induction l as [| a l IH]; simpl; [tauto |].
  intros [H | H]; [congruence | auto].
Qed.

Lemma gains_not_nan (close : Series) (x : float) :
  In x (gains close) -> F64.is_nan x = false.
Proof.
  unfold gains, Pd.where_, Pd.gt_scalar. intros H.
  apply in_map_iff in H as [[d c] [<- Hin]]. apply in_combine_map in Hin.
  subst c. simpl. destruct d as [| | |]; try reflexivity.
  - destruct s; reflexivity.
  - cbv. destruct s; reflexivity.
Qed.

Lemma losses_not_nan (close : Series) (x : float) :
  In x (losses close) -> F64.is_nan x = false.
Proof.
  unfold losses, Pd.neg, Pd.where_, Pd.lt_scalar. intros H.
  apply in_map_iff in H as [y [<- H]].
  apply in_map_iff in H as [[d c] [<- Hin]]. apply in_combine_map in Hin.
  subst c. simpl. destruct d as [| | |]; try reflexivity.
  - destruct s; reflexivity.
  - cbv. destruct s; reflexivity.
Qed.

Lemma length_diff (s : Series) : length (Pd.diff s) = length s.
Proof.
  unfold Pd.diff, Pd.ssub. rewrite length_align, length_shift. lia.
Qed.

Lemma length_gains (close : Series) : length (gains close) = length close.
Proof.
  unfold gains, Pd.where_.
  rewrite length_map, length_combine, length_gt_scalar, length_diff. lia.
Qed.

Lemma length_losses (close : Series) : length (losses close) = length close.
Proof.
  unfold losses, Pd.neg, Pd.where_.
  rewrite !length_map, length_combine, length_lt_scalar, length_diff. lia.
Qed.

(** The series [calculate_rsi] returns. *)
Lemma calculate_rsi_eq (close : Series) (period : Z) :
  0 <= period ->
  calculate_rsi close period =
  Ok (Pd.rsub_scalar (F64.of_Z 100)
        (Pd.rdiv_scalar (F64.of_Z 100)
           (Pd.radd_scalar (F64.of_Z 1)
              (Pd.sdiv (Pd.roll Pd.mean (gains close) (Z.to_nat period))
                       (Pd.roll Pd.mean (losses close) (Z.to_nat period)))))).
Proof.
  intros Hp. unfold calculate_rsi, Pd.rolling_mean.
  rewrite !rolling_ok by assumption. reflexivity.
Qed.

Lemma nth_calculate_rsi (close : Series) (period : Z) (t : nat) :
  0 <= period -> (t < length close)%nat ->
  exists rsi,
    calculate_rsi close period = Ok rsi /\
    length rsi = length close /\
    nth t rsi NaN =
      rsi_of (nth t (Pd.roll Pd.mean (gains close) (Z.to_nat period)) NaN)
             (nth t (Pd.roll Pd.mean (losses close) (Z.to_nat period)) NaN).
Proof.
  intros Hp Ht. eexists. split; [now apply calculate_rsi_eq |].
  unfold Pd.rsub_scalar, Pd.rdiv_scalar, Pd.radd_scalar, Pd.sdiv.
  rewrite !length_map, length_align, !length_roll, length_gains, length_losses.
  split; [lia |].
  rewrite (nth_map_in _ _ NaN)
    by (rewrite !length_map, length_align, !length_roll, length_gains,
          length_losses; lia).
  rewrite (nth_map_in _ _ NaN)
    by (rewrite !length_map, length_align, !length_roll, length_gains,
          length_losses; lia).
  rewrite (nth_map_in _ _ NaN)
    by (rewrite length_align, !length_roll, length_gains, length_losses; lia).
  rewrite nth_align
    by (rewrite !length_roll, length_gains, length_losses; lia).
  reflexivity.
Qed.

Lemma rsi_of_nan_l (l : float) : rsi_of NaN l = NaN.
Proof. unfold rsi_of. now rewrite F64Facts.div_nan_l, F64Facts.add_nan_r,
  F64Facts.div_nan_r, F64Facts.sub_nan_r. Qed.

(** Both averages zero: 0/0 is undefined and stays so. *)
Lemma rsi_of_zero_zero (g l : float) :
  F64.is_zero g = true -> F64.is_zero l = true -> rsi_of g l = NaN.
Proof.
  intros Hg Hl. unfold rsi_of. rewrite (F64Facts.div_zero_zero g l) by assumption.
  now rewrite F64Facts.add_nan_r, F64Facts.div_nan_r, F64Facts.sub_nan_r.
Qed.

(** Zero average loss under a non-zero finite average gain: the ratio is an
    infinity and the index is exactly 100. *)
Lemma rsi_of_zero_loss (g l : float) :
  F64.is_zero l = true -> F64.is_finite g = true -> F64.is_zero g = false ->
  rsi_of g l = F64.of_Z 100.
Proof.
  destruct g as [sg | sg | | sg mg eg], l as [sl | sl | | sl ml el];
    simpl; intros Hl Hg Hz; try discriminate.
  destruct sg, sl; vm_compute; reflexivity.
Qed.

(** Finite averages that are not both zero always give a defined index. *)
Lemma rsi_of_defined (g l : float) :
  F64.is_finite g = true -> F64.is_finite l = true ->
  F64.is_zero g && F64.is_zero l = false ->
  F64.is_nan (rsi_of g l) = false.
Proof.
  intros Hg Hl Hz. unfold rsi_of.
  apply F64Facts.sub_finite_l_not_nan; [reflexivity |].
  apply F64Facts.div_finite_l_not_nan; [reflexivity | reflexivity |].
  apply F64Facts.add_finite_l_not_nan; [reflexivity |].
  now apply F64Facts.div_not_nan.
Qed.

End RSI.

(** ** RSI over a window of constant prices *)

Section ConstantWindow.

Lemma in_window_upper (s : Series) (n t : nat) (x : float) :
  In x (Pd.window s n t) -> (n <= t + 1)%nat ->
  exists j : nat, (t + 1 - n <= j <= t)%nat /\ (j < length s)%nat /\ x = nth j s NaN.
Proof.
  unfold Pd.window. intros H Hn.
  apply (In_nth _ _ NaN) in H as [k [Hk <-]].
  rewrite length_firstn, length_skipn in Hk.
  rewrite nth_firstn.
  destruct (Nat.ltb_spec k n); [| lia].
  rewrite nth_skipn. exists (t + 1 - n + k)%nat. repeat split; lia.
Qed.

Lemma length_window (s : Series) (n t : nat) :
  (n <= t + 1)%nat -> (t < length s)%nat -> length (Pd.window s n t) = n.
Proof.
  intros Hn Ht. unfold Pd.window. rewrite length_firstn, length_skipn. lia.
Qed.

Lemma nth_diff (s : Series) (j : nat) :
  (j < length s)%nat ->
  nth j (Pd.diff s) NaN = F64.sub (nth j s NaN) (Pd.at_ s (Z.of_nat j - 1)).
Proof.
  intros Hj. unfold Pd.diff, Pd.ssub.
  rewrite nth_align by (rewrite length_shift; lia).
  now rewrite nth_shift.
Qed.

Lemma nth_where (s : Series) (cond : list bool) (other : float) (j : nat) :
  length cond = length s -> (j < length s)%nat ->
  nth j (Pd.where_ s cond other) NaN =
  if nth j cond false then nth j s NaN else other.
Proof.
  intros Hl Hj. unfold Pd.where_.
  rewrite (nth_map_in _ _ (NaN, false)) by (rewrite length_combine; lia).
  now rewrite combine_nth.
Qed.

Lemma nth_gains (close : Series) (j : nat) :
  (j < length close)%nat ->
  nth j (gains close) NaN =
  if F64.gtb (nth j (Pd.diff close) NaN) (F64.of_Z 0)
  then nth j (Pd.diff close) NaN else F64.of_Z 0.
Proof.
  intros Hj. unfold gains.
  rewrite nth_where by (rewrite ?length_gt_scalar, length_diff; auto).
  now rewrite nth_gt_scalar.
Qed.

Lemma nth_losses (close : Series) (j : nat) :
  (j < length close)%nat ->
  nth j (losses close) NaN =
  F64.opp (if F64.ltb (nth j (Pd.diff close) NaN) (F64.of_Z 0)
           then nth j (Pd.diff close) NaN else F64.of_Z 0).
Proof.
  intros Hj. unfold losses, Pd.neg.
  rewrite (nth_map_in _ _ NaN)
    by (unfold Pd.where_;
        rewrite length_map, length_combine, length_lt_scalar, length_diff; lia).
  rewrite nth_where by (rewrite ?length_lt_scalar, length_diff; auto).
  now rewrite nth_lt_scalar.
Qed.

(** A price change that is a zero or undefined counts as neither gain nor
    loss. *)
Lemma flat_change_no_gain (d : float) :
  F64.is_zero d = true \/ d = NaN ->
  F64.is_zero (if F64.gtb d (F64.of_Z 0) then d else F64.of_Z 0) = true /\
  F64.is_zero (F64.opp (if F64.ltb d (F64.of_Z 0) then d else F64.of_Z 0)) = true.
Proof.
  intros [H | ->]; [| split; reflexivity].
  destruct d as [[] | | |]; try discriminate; split; reflexivity.
Qed.

Lemma fsum_zeros (l : list float) :
  (forall x, In x l -> F64.is_zero x = true) -> F64.is_zero (Pd.fsum l) = true.
Proof.
  unfold Pd.fsum. generalize (F64.of_Z 0) (eq_refl : F64.is_zero (F64.of_Z 0) = true).
  induction l as [| x l IH]; intros acc Hacc H; simpl; [assumption |].
  apply IH.
  - apply F64Facts.add_zero_zero; [assumption | apply H; now left].
  - intros y Hy. apply H. now right.
Qed.

Lemma mean_zeros (l : list float) :
  l <> [] -> (forall x, In x l -> F64.is_zero x = true) ->
  F64.is_zero (Pd.mean l) = true.
Proof.
  intros Hne H. unfold Pd.mean.
  apply F64Facts.div_zero_by_count; [now apply fsum_zeros |].
  destruct l; [congruence | simpl; lia].
Qed.

(** With the closes of rows t - period .. t all equal to one finite price,
    both averages over the window ending at t are zero. *)
Lemma constant_window_averages (close : Series) (n t : nat) :
  (0 < n)%nat -> (n <= t + 1)%nat -> (t < length close)%nat ->
  F64.is_finite (nth t close NaN) = true ->
  (forall i : nat, (t + 1 - n <= i + 1)%nat -> (i <= t)%nat ->
     nth i close NaN = nth t close NaN) ->
  F64.is_zero (avg_gain close n t) = true /\
  F64.is_zero (avg_loss close n t) = true.
Proof.
  intros Hn0 Hn Ht Hfin Hc.
  assert (Hd : forall j : nat, (t + 1 - n <= j <= t)%nat ->
             F64.is_zero (nth j (Pd.diff close) NaN) = true \/
             nth j (Pd.diff close) NaN = NaN).
  { intros j Hj. rewrite nth_diff by lia.
    destruct j as [| j].
    - right. rewrite at_out by lia. apply F64Facts.sub_nan_r.
    - left. replace (Z.of_nat (S j) - 1) with (Z.of_nat j) by lia.
      rewrite at_nat, (Hc (S j)), (Hc j) by lia.
      now apply F64Facts.sub_diag_zero. }
  assert (Hne : forall s : Series, length s = length close ->
                Pd.window s n t <> []).
  { intros s Hs E. apply (f_equal (@length float)) in E.
    rewrite length_window in E by lia. simpl in E. lia. }
  unfold avg_gain, avg_loss. split; apply mean_zeros.
  - apply Hne, length_gains.
  - intros x Hx. apply in_window_upper in Hx as (j & Hj & Hjl & ->); [| lia].
    rewrite length_gains in Hjl. rewrite nth_gains by assumption.
    now apply flat_change_no_gain, Hd.
  - apply Hne, length_losses.
  - intros x Hx. apply in_window_upper in Hx as (j & Hj & Hjl & ->); [| lia].
    rewrite length_losses in Hjl. rewrite nth_losses by assumption.
    now apply flat_change_no_gain, Hd.
Qed.

End ConstantWindow.

(** ** Claims on RSI *)

(** C5, counterexample: on the rising closes 1, 2, 3 with period 2 the
    window ending at row 1 is complete and its average loss is exactly
    zero, yet RSI is the defined value 100. *)
Lemma C5_zero_loss_rsi_is_100 :
  F64.is_zero (avg_loss rising3 2 1) = true /\
  exists rsi, calculate_rsi rising3 2 = Ok rsi /\ nth 1 rsi NaN = F64.of_Z 100.
Proof.
  split; [vm_compute; reflexivity |].
  eexists. split; vm_compute; reflexivity.
Qed.

(** C5 (amended).  For every close series and period >= 1 [calculate_rsi]
    returns one value per row.  RSI at row t is undefined while the window
    is incomplete; on a complete window it is
    100 - 100 / (1 + avgGain / avgLoss) over the simple averages of the
    positive and the negated negative price changes, which is undefined
    when both averages are zero (so on every window of one constant finite
    price), exactly 100 when the average loss is zero and the average gain
    is not, and defined for all finite averages that are not both zero. *)
Theorem C5_rsi_definedness (close : Series) (period : Z) (t : nat) :
  1 <= period -> (t < length close)%nat ->
  exists rsi,
    calculate_rsi close period = Ok rsi /\
    length rsi = length close /\
    (Z.of_nat t + 1 < period -> nth t rsi NaN = NaN) /\
    (period <= Z.of_nat t + 1 ->
       let g := avg_gain close (Z.to_nat period) t in
       let l := avg_loss close (Z.to_nat period) t in
       nth t rsi NaN = rsi_of g l /\
       (F64.is_zero g = true -> F64.is_zero l = true -> nth t rsi NaN = NaN) /\
       (F64.is_zero l = true -> F64.is_finite g = true ->
          F64.is_zero g = false -> nth t rsi NaN = F64.of_Z 100) /\
       (F64.is_finite g = true -> F64.is_finite l = true ->
          F64.is_zero g && F64.is_zero l = false ->
          F64.is_nan (nth t rsi NaN) = false) /\
       (F64.is_finite (nth t close NaN) = true ->
          (forall i : nat, Z.of_nat t - period <= Z.of_nat i -> (i <= t)%nat ->
             nth i close NaN = nth t close NaN) ->
          nth t rsi NaN = NaN)).
Proof.
  intros Hp Ht.
  destruct (nth_calculate_rsi close period t ltac:(lia) Ht) as (rsi & Heq & Hlen & Hnth).
  exists rsi. split; [exact Heq |]. split; [exact Hlen |]. split.
  - intros Hin. rewrite Hnth.
    rewrite nth_roll_incomplete by lia. apply rsi_of_nan_l.
  - intros Hfull g l.
    assert (Hv : nth t rsi NaN = rsi_of g l).
    { rewrite Hnth.
      rewrite !nth_roll by (rewrite ?length_gains, ?length_losses; assumption).
      rewrite (observed_window _ _ _ (gains_not_nan close)).
      rewrite (observed_window _ _ _ (losses_not_nan close)).
      destruct (Nat.ltb_spec 0 (Z.to_nat period)); [| lia].
      destruct (Nat.leb_spec (Z.to_nat period) (t + 1)); [| lia].
      reflexivity. }
    split; [exact Hv |]. rewrite Hv. split; [| split; [| split]].
    + intros Hg Hl. now apply rsi_of_zero_zero.
    + intros Hl Hg Hz. now apply rsi_of_zero_loss.
    + intros Hg Hl Hz. now apply rsi_of_defined.
    + intros Hfin Hc.
      destruct (constant_window_averages close (Z.to_nat period) t) as [Hg Hl];
        try lia; try assumption.
      * intros i Hi1 Hi2. apply Hc; lia.
      * now apply rsi_of_zero_zero.
Qed.

Lemma C5_rsi_definedness_witness :
  1 <= 2 /\ (1 < length rising3)%nat /\
  exists rsi,
    calculate_rsi rising3 2 = Ok rsi /\
    length rsi = length rising3 /\
    (Z.of_nat 1 + 1 < 2 -> nth 1 rsi NaN = NaN) /\
    (2 <= Z.of_nat 1 + 1 ->
       let g := avg_gain rising3 (Z.to_nat 2) 1 in
       let l := avg_loss rising3 (Z.to_nat 2) 1 in
       nth 1 rsi NaN = rsi_of g l /\
       (F64.is_zero g = true -> F64.is_zero l = true -> nth 1 rsi NaN = NaN) /\
       (F64.is_zero l = true -> F64.is_finite g = true ->
          F64.is_zero g = false -> nth 1 rsi NaN = F64.of_Z 100) /\
       (F64.is_finite g = true -> F64.is_finite l = true ->
          F64.is_zero g && F64.is_zero l = false ->
          F64.is_nan (nth 1 rsi NaN) = false) /\
       (F64.is_finite (nth 1 rising3 NaN) = true ->
          (forall i : nat, Z.of_nat 1 - 2 <= Z.of_nat i -> (i <= 1)%nat ->
             nth i rising3 NaN = nth 1 rising3 NaN) ->
          nth 1 rsi NaN = NaN)).
Proof.
  split; [lia |]. split; [simpl; lia |].
  apply (C5_rsi_definedness rising3 2 1); [lia | simpl; lia].
Defined.

(** ** Symbolic evaluation of the stages

    The stages are straight-line programs in the exception monad over a
    frame whose column names are known.  [ev] runs such a program on a frame
    given by its list of columns, column contents left abstract: it resolves
    every column read, every guard on the number of rows and every window
    check, and returns the frame the program ends with. *)

Lemma length_ewm_run (alpha : float) (st : float * float) (vals : list float) :
  length (Pd.ewm_run alpha st vals) = length vals.
Proof. revert st. induction vals as [| x vals IH]; simpl; intros; auto. Qed.

Lemma ewm_mean_ok (s : Series) (span : Z) :
  1 <= span ->
  Pd.ewm_mean s span =
  Ok (Pd.ewm_run
        (F64.div (F64.of_Z 1)
           (F64.add (F64.of_Z 1) (F64.div (F64.of_Z (span - 1)) (F64.of_Z 2))))
        (NaN, F64.of_Z 1) s).
Proof.
  intros H. unfold Pd.ewm_mean. destruct (Z.ltb_spec span 1); [lia | reflexivity].
Qed.

Lemma bind_intro {A B : Type} (m : result A) (k : A -> result B) (a : A) (b : B) :
  m = Ok a -> k a = Ok b -> bind m k = Ok b.
Proof. intros -> H. exact H. Qed.

Lemma if_true_intro {A : Type} (g : bool) (x y r : A) :
  g = true -> x = r -> (if g then x else y) = r.
Proof. intros -> H. exact H. Qed.

Lemma if_false_intro {A : Type} (g : bool) (x y r : A) :
  g = false -> y = r -> (if g then x else y) = r.
Proof. intros -> H. exact H. Qed.

Lemma for_each_cons_intro {A : Type} (x : A) (l : list A)
    (body : A -> DataFrame -> result DataFrame) (df : DataFrame)
    (r : result DataFrame) :
  bind (body x df) (fun df' => for_each l body df') = r ->
  for_each (x :: l) body df = r.
Proof. intros H. exact H. Qed.

Create Rewrite HintDb len.

#[local] Hint Rewrite @length_map length_shift length_align length_roll
  length_ewm_run length_pct_change @length_combine length_diff length_seq : len.

Ltac solve_len :=
  unfold Pd.ssub, Pd.sadd, Pd.sdiv, Pd.smul, Pd.np_where, Pd.mul_scalar,
    Pd.sub_scalar;
  autorewrite with len; lia.

Ltac side := first [lia | vm_compute; discriminate].

Ltac frame_nf t :=
  eval lazy beta iota delta
    [setf seti setitem update columns nrows bars_frame
     String.eqb Ascii.eqb Bool.eqb] in t.

Ltac norm_frame t :=
  lazymatch t with
  | setf ?d ?k ?v => let k' := eval vm_compute in k in frame_nf (setf d k' v)
  | seti ?d ?k ?v => let k' := eval vm_compute in k in frame_nf (seti d k' v)
  | setitem ?d ?k ?v => let k' := eval vm_compute in k in frame_nf (setitem d k' v)
  | _ => frame_nf t
  end.

Ltac head_red :=
  lazymatch goal with
  | |- ?l = ?r => let l' := eval lazy head beta iota zeta in l in change (l' = r)
  end.

Ltac unfold_head :=
  lazymatch goal with
  | |- ?l = ?r =>
      let l' := eval lazy head beta iota delta
        [add_price_features add_technical_indicators add_lagged_features
         add_time_features add_target_variables feature_frame
         calculate_rsi calculate_macd calculate_bollinger_bands calculate_atr
         calculate_stochastic calculate_cci calculate_williams_r
         calculate_momentum calculate_roc pd_to_datetime
         Pd.rolling_mean Pd.rolling_std Pd.rolling_min Pd.rolling_max
         Pd.rolling_apply_mad] in l in
      change (l' = r)
  end.

Ltac ev N :=
  lazymatch goal with
  | |- bind _ _ = Ok _ => eapply bind_intro; [ ev N | cbv beta; ev N ]
  | |- Ok ?a = Ok _ =>
      lazymatch type of a with
      | DataFrame => let F := norm_frame a in exact (@eq_refl _ (Ok F))
      | _ => reflexivity
      end
  | |- (let x := ?t in _) = _ =>
      lazymatch type of t with
      | DataFrame =>
          let F := norm_frame t in
          lazymatch goal with
          | |- (let x := _ in @?B x) = ?r =>
              let b := eval cbv beta in (B F) in change (b = r)
          end
      | _ => head_red
      end; ev N
  | |- (if ?p <? len ?D then _ else _) = _ =>
      first [ eapply if_true_intro;
                [ apply Z.ltb_lt; change (len D) with N; lia | ev N ]
            | eapply if_false_intro;
                [ apply Z.ltb_ge; change (len D) with N; lia | ev N ] ]
  | |- (if ?g then _ else _) = _ =>
      let g' := eval lazy in g in
      lazymatch g' with
      | true => eapply if_true_intro; [ reflexivity | ev N ]
      | false => eapply if_false_intro; [ reflexivity | ev N ]
      end
  | |- for_each (_ :: _) _ _ = _ => apply for_each_cons_intro; cbv beta; ev N
  | |- for_each [] _ ?d = ?r => change (Ok d = r); ev N
  | |- for_each ?l ?b ?d = ?r =>
      let l' := eval vm_compute in l in change (for_each l' b d = r); ev N
  | |- Pd.sgt _ _ = _ => apply sgt_same_length; solve_len
  | |- Pd.rolling _ _ _ = _ => apply rolling_ok; side
  | |- Pd.ewm_mean _ _ = _ => apply ewm_mean_ok; side
  | |- target_direction_multi _ = _ => apply target_direction_multi_eq
  | |- parse_dates _ = _ => eassumption
  | |- getf _ _ = _ => reflexivity
  | |- getitem _ _ = _ => reflexivity
  | |- geti _ _ = _ => reflexivity
  | |- getdt _ _ = _ => reflexivity
  | |- match _ with _ => _ end = _ => progress head_red; ev N
  | |- _ => progress unfold_head; ev N
  end.

(** ** Claim on the RSI flags *)

Lemma nth_astype_int (b : list bool) (t : nat) :
  nth t (Pd.astype_int b) 0 = if nth t b false then 1 else 0.
Proof.
  unfold Pd.astype_int. destruct (Nat.lt_ge_cases t (length b)) as [Ht | Ht].
  - exact (nth_map_in (fun x : bool => if x then 1 else 0) b false 0 t Ht).
  - rewrite !nth_overflow; [reflexivity | assumption | now rewrite length_map].
Qed.

(** C10.  On every table of bars [add_technical_indicators] returns a frame
    whose RSI_overbought and RSI_oversold columns are integer columns with
    one value per row, each 0 or 1: 1 exactly where RSI > 70, respectively
    RSI < 30; both are 0 wherever RSI is undefined, the two comparisons
    being false there before the cast. *)
Theorem C10_rsi_flags (date : list string) (open high low close volume : Series) :
  exists df' rsi ob os,
    add_technical_indicators (bars_frame date open high low close volume) = Ok df' /\
    getitem df' "RSI" = Ok (FloatCol rsi) /\
    getitem df' "RSI_overbought" = Ok (IntCol ob) /\
    getitem df' "RSI_oversold" = Ok (IntCol os) /\
    length ob = length rsi /\ length os = length rsi /\
    forall t : nat,
      nth t ob 0 = (if F64.gtb (nth t rsi NaN) (F64.of_Z 70) then 1 else 0) /\
      nth t os 0 = (if F64.ltb (nth t rsi NaN) (F64.of_Z 30) then 1 else 0) /\
      (nth t ob 0 = 0 \/ nth t ob 0 = 1) /\
      (nth t os 0 = 0 \/ nth t os 0 = 1) /\
      (F64.is_nan (nth t rsi NaN) = true -> nth t ob 0 = 0 /\ nth t os 0 = 0).
Proof.
  set (N := Z.of_nat (length close)).
  set (rsi :=
    Pd.rsub_scalar (F64.of_Z 100)
      (Pd.rdiv_scalar (F64.of_Z 100)
         (Pd.radd_scalar (F64.of_Z 1)
            (Pd.sdiv (Pd.roll Pd.mean (gains close) (Z.to_nat RSI_PERIOD))
                     (Pd.roll Pd.mean (losses close) (Z.to_nat RSI_PERIOD)))))).
  assert (Hpost : forall t : nat,
    nth t (Pd.astype_int (Pd.gt_scalar rsi (F64.of_Z 70))) 0 =
      (if F64.gtb (nth t rsi NaN) (F64.of_Z 70) then 1 else 0) /\
    nth t (Pd.astype_int (Pd.lt_scalar rsi (F64.of_Z 30))) 0 =
      (if F64.ltb (nth t rsi NaN) (F64.of_Z 30) then 1 else 0) /\
    (nth t (Pd.astype_int (Pd.gt_scalar rsi (F64.of_Z 70))) 0 = 0 \/
     nth t (Pd.astype_int (Pd.gt_scalar rsi (F64.of_Z 70))) 0 = 1) /\
    (nth t (Pd.astype_int (Pd.lt_scalar rsi (F64.of_Z 30))) 0 = 0 \/
     nth t (Pd.astype_int (Pd.lt_scalar rsi (F64.of_Z 30))) 0 = 1) /\
    (F64.is_nan (nth t rsi NaN) = true ->
     nth t (Pd.astype_int (Pd.gt_scalar rsi (F64.of_Z 70))) 0 = 0 /\
     nth t (Pd.astype_int (Pd.lt_scalar rsi (F64.of_Z 30))) 0 = 0)).
  { intros t. rewrite !nth_astype_int, nth_gt_scalar, nth_lt_scalar.
    repeat split.
    - destruct (F64.gtb _ _); auto.
    - destruct (F64.ltb _ _); auto.
    - apply F64Facts.is_nan_true in H. rewrite H. reflexivity.
    - apply F64Facts.is_nan_true in H. rewrite H. reflexivity. }
  assert (Hcases : N <= 7 \/ 7 < N <= 14 \/ 14 < N <= 21 \/ 21 < N <= 50 \/
                   50 < N <= 100 \/ 100 < N <= 200 \/ 200 < N) by lia.
  destruct Hcases as [Hc | [Hc | [Hc | [Hc | [Hc | [Hc | Hc]]]]]];
    (eexists; exists rsi,
       (Pd.astype_int (Pd.gt_scalar rsi (F64.of_Z 70))),
       (Pd.astype_int (Pd.lt_scalar rsi (F64.of_Z 30)));
     split; [ ev N | ];
     split; [ reflexivity | ];
     split; [ reflexivity | ];
     split; [ reflexivity | ];
     split; [ unfold Pd.astype_int, Pd.gt_scalar; now rewrite !length_map | ];
     split; [ unfold Pd.astype_int, Pd.lt_scalar; now rewrite !length_map | ];
     exact Hpost).
Qed.

(** ** Trimming *)

Section Trimming.

Lemma lookup_In (name : string) (cols : list (string * Column)) (c : Column) :
  lookup name cols = Some c -> In (name, c) cols.
Proof.
  induction cols as [| [k c0] rest IH]; simpl; [discriminate |].
  destruct (String.eqb_spec k name) as [-> | Hk].
  - intros [= ->]. now left.
  - intros H. right. now apply IH.
Qed.

(** A row with an undefined value in some float column is not kept. *)
Lemma row_has_na_intro (df : DataFrame) (name : string) (v : Series) (i : nat) :
  getitem df name = Ok (FloatCol v) ->
  F64.is_nan (nth i v NaN) = true ->
  row_has_na df i = true.
Proof.
  unfold getitem, row_has_na. intros Hg Hn.
  destruct (lookup name (columns df)) as [c |] eqn:E; [| discriminate].
  injection Hg as ->. apply lookup_In in E.
  apply existsb_exists. exists (name, FloatCol v). split; [assumption | exact Hn].
Qed.

Lemma kept_rows_spec (df : DataFrame) (i : nat) :
  In i (kept_rows df) <-> (i < nrows df)%nat /\ row_has_na df i = false.
Proof.
  unfold kept_rows. rewrite filter_In, in_seq, negb_true_iff. intuition lia.
Qed.

Lemma nrows_dropna (df : DataFrame) :
  nrows (dropna df) = length (kept_rows df).
Proof. reflexivity. Qed.

Lemma filter_all_length {A : Type} (p : A -> bool) (l : list A) :
  length (filter p l) = length l <-> (forall x, In x l -> p x = true).
Proof.
  induction l as [| a l IH]; simpl; [tauto |].
  pose proof (filter_length_le p l) as Hle.
  destruct (p a) eqn:Ea; simpl.
  - split.
    + intros H x [<- | Hx]; [assumption |]. apply IH; [lia | assumption].
    + intros H. f_equal. apply IH. auto.
  - split; [lia |]. intros H. specialize (H a (or_introl eq_refl)). congruence.
Qed.

Lemma filter_none {A : Type} (p : A -> bool) (l : list A) :
  (forall x, In x l -> p x = false) -> filter p l = [].
Proof.
  induction l as [| a l IH]; simpl; intros H; [reflexivity |].
  rewrite (H a) by now left. apply IH. auto.
Qed.

(** Rows kept out of 0 .. n-1 when every row below [a] and from [b] on is
    dropped: at most b - a, and exactly b - a when no row in between is
    dropped. *)
Lemma kept_between (p : nat -> bool) (a b n : nat) :
  (a <= b <= n)%nat ->
  (forall i, (i < a)%nat -> p i = false) ->
  (forall i, (b <= i < n)%nat -> p i = false) ->
  (length (filter p (seq 0 n)) <= b - a)%nat /\
  (length (filter p (seq 0 n)) = (b - a)%nat <->
   forall i, (a <= i < b)%nat -> p i = true).
Proof.
  intros Hab Hlow Hhigh.
  assert (Hsplit : seq 0 n = seq 0 a ++ seq a (b - a) ++ seq b (n - b)).
  { replace n with (a + ((b - a) + (n - b)))%nat at 1 by lia.
    rewrite !seq_app. cbn [Nat.add].
    now replace (a + (b - a))%nat with b by lia. }
  assert (Hf : filter p (seq 0 n) = filter p (seq a (b - a))).
  { rewrite Hsplit, !filter_app.
    rewrite (filter_none p (seq 0 a)), (filter_none p (seq b (n - b))).
    - now rewrite app_nil_r.
    - intros i Hi. apply in_seq in Hi. apply Hhigh. lia.
    - intros i Hi. apply in_seq in Hi. apply Hlow. lia. }
  rewrite Hf. split.
  - pose proof (filter_length_le p (seq a (b - a))) as H.
    now rewrite length_seq in H.
  - pose proof (filter_all_length p (seq a (b - a))) as Hall.
    rewrite length_seq in Hall. rewrite Hall.
    split; intros H i Hi; apply H; [apply in_seq; lia | apply in_seq in Hi; lia].
Qed.

End Trimming.

Lemma process_single_file_eq `{Externals} (df : DataFrame) :
  process_single_file df = bind (feature_frame df) (fun f => Ok (dropna f)).
Proof.
  unfold process_single_file, feature_frame.
  destruct (add_price_features df) as [d1 |]; [| reflexivity]. cbn [bind].
  destruct (add_technical_indicators d1) as [d2 |]; [| reflexivity]. cbn [bind].
  destruct (add_lagged_features d2 None) as [d3 |]; [| reflexivity]. cbn [bind].
  destruct (add_time_features d3) as [d4 |]; reflexivity.
Qed.

(** The frame of all features on a table of more than 200 rows: it holds
    the 200-period average, the next close and the body fraction. *)
Lemma feature_frame_long `{Externals} (date : list string)
    (open high low close volume : Series) (ts : list Z) :
  parse_dates date = Ok ts ->
  length open = length close ->
  200 < Z.of_nat (length close) ->
  exists df,
    feature_frame (bars_frame date open high low close volume) = Ok df /\
    nrows df = length close /\
    getitem df "SMA_200" = Ok (FloatCol (Pd.roll Pd.mean close 200)) /\
    getitem df "Target_Close" = Ok (FloatCol (next_close_column close 1)) /\
    getitem df "Body_Percent" =
      Ok (FloatCol (Pd.sdiv (Pd.sabs (Pd.ssub close open)) (Pd.ssub high low))).
Proof.
  intros Hd Ho Hn.
  eexists. split; [ev (Z.of_nat (length close)) |].
  split; [reflexivity |]. split; [reflexivity |]. split; reflexivity.
Qed.

(** The body fraction of a bar whose open equals its close and whose high
    equals its low is 0/0. *)
Lemma body_percent_zero_range (open high low close : Series) (i : nat) :
  (i < length close)%nat ->
  nth i open NaN = nth i close NaN ->
  nth i high NaN = nth i low NaN ->
  F64.is_finite (nth i close NaN) = true ->
  F64.is_finite (nth i low NaN) = true ->
  F64.is_nan
    (nth i (Pd.sdiv (Pd.sabs (Pd.ssub close open)) (Pd.ssub high low)) NaN) = true.
Proof.
  intros Hi Ho Hh Hc Hl. unfold Pd.sdiv, Pd.sabs, Pd.ssub.
  rewrite nth_align by (rewrite length_map, !length_align; lia).
  rewrite (nth_map_in _ _ NaN) by (rewrite length_align; lia).
  rewrite nth_align by lia.
  destruct (Nat.lt_ge_cases i (Nat.max (length high) (length low))) as [Hm | Hm].
  - rewrite nth_align by assumption. rewrite Ho, Hh.
    pose proof (F64Facts.sub_diag_zero _ Hc) as Hz1.
    pose proof (F64Facts.sub_diag_zero _ Hl) as Hz2.
    destruct (F64.sub (nth i close NaN) (nth i close NaN)); try discriminate.
    destruct (F64.sub (nth i low NaN) (nth i low NaN)); try discriminate.
    reflexivity.
  - rewrite (nth_overflow (Pd.align F64.sub high low))
      by (rewrite length_align; lia).
    now rewrite F64Facts.div_nan_r.
Qed.

(** ** Claim on the number of retained rows *)

(** C4, counterexample: 300 daily bars whose close rises by 0.0001 a day and
    whose open, high and low equal the close, under the configured 200-period
    average and horizon 1: every row holds an undefined value (the body
    fraction 0/0 among them) and no row is retained, not 100. *)
Lemma C4_zero_range_bars_retain_nothing :
  exists df_clean,
    process_single_file (zero_range_bars 300) = Ok df_clean /\
    nrows (zero_range_bars 300) = 300%nat /\
    nrows df_clean = 0%nat /\
    Z.of_nat (nrows df_clean) <> 300 - 199 - 1.
Proof.
  assert (E : match process_single_file (zero_range_bars 300) with
              | Ok d => nrows d = 0%nat
              | Raise _ => False
              end) by (vm_compute; reflexivity).
  destruct (process_single_file (zero_range_bars 300)) as [d |]; [| contradiction].
  exists d. repeat split; [assumption | rewrite E; discriminate].
Qed.

(** C4 (amended).  After the single trimming step the retained rows are
    exactly the rows that hold no undefined value.  On a table of more than
    200 rows the 200-period average is computed and is undefined on the
    first 199 rows, and the next close is undefined on the last row (H = 1):
    these rows are always dropped, so at most total - 199 - 1 rows are
    retained, and exactly that many if and only if no row in between holds
    an undefined value. *)
Theorem C4_retained_rows `{Externals} (date : list string)
    (open high low close volume : Series) (ts : list Z) :
  parse_dates date = Ok ts ->
  length open = length close ->
  200 < Z.of_nat (length close) ->
  exists df df_clean,
    feature_frame (bars_frame date open high low close volume) = Ok df /\
    process_single_file (bars_frame date open high low close volume) = Ok df_clean /\
    nrows df_clean = length (kept_rows df) /\
    (forall i : nat, In i (kept_rows df) <->
                     (i < length close)%nat /\ row_has_na df i = false) /\
    (forall i : nat, (i < 199)%nat -> row_has_na df i = true) /\
    row_has_na df (length close - 1) = true /\
    Z.of_nat (nrows df_clean) <= Z.of_nat (length close) - 199 - 1 /\
    (Z.of_nat (nrows df_clean) = Z.of_nat (length close) - 199 - 1 <->
     forall i : nat, (199 <= i < length close - 1)%nat -> row_has_na df i = false).
Proof.
  intros Hd Ho Hn.
  destruct (feature_frame_long date open high low close volume ts Hd Ho Hn)
    as (df & Hdf & Hrows & Hsma & Htc & _).
  exists df, (dropna df).
  assert (Hlow : forall i : nat, (i < 199)%nat -> row_has_na df i = true).
  { intros i Hi. apply (row_has_na_intro df _ _ i Hsma).
    rewrite nth_roll_incomplete by lia. reflexivity. }
  assert (Hlast : row_has_na df (length close - 1) = true).
  { apply (row_has_na_intro df _ _ _ Htc).
    rewrite nth_next_close_column by lia. rewrite at_out by lia. reflexivity. }
  destruct (kept_between (fun i => negb (row_has_na df i)) 199 (length close - 1)
              (length close)) as [Hle Heq].
  { lia. }
  { intros i Hi. now rewrite Hlow. }
  { intros i Hi. replace i with (length close - 1)%nat by lia. now rewrite Hlast. }
  split; [exact Hdf |].
  split; [rewrite process_single_file_eq, Hdf; reflexivity |].
  split; [apply nrows_dropna |].
  split; [intros i; rewrite kept_rows_spec, Hrows; reflexivity |].
  split; [exact Hlow |]. split; [exact Hlast |].
  rewrite nrows_dropna. unfold kept_rows. rewrite Hrows. split; [lia |].
  split.
  - intros Hcount i Hi. apply negb_true_iff. apply Heq; [lia | exact Hi].
  - intros Hall.
    assert (Hk : length (filter (fun i => negb (row_has_na df i)) (seq 0 (length close)))
                 = (length close - 1 - 199)%nat).
    { apply Heq. intros i Hi. apply negb_true_iff. now apply Hall. }
    lia.
Qed.

Lemma C4_retained_rows_witness :
  parse_dates (day_numbers 201) = Ok (example_timestamps 201) /\
  length (map (fun x => F64.sub x (F64.dec 1 4)) (rising_closes 201))
    = length (rising_closes 201) /\
  200 < Z.of_nat (length (rising_closes 201)) /\
  exists df df_clean,
    feature_frame (ranging_bars 201) = Ok df /\
    process_single_file (ranging_bars 201) = Ok df_clean /\
    nrows df_clean = length (kept_rows df) /\
    (forall i : nat, In i (kept_rows df) <->
                     (i < length (rising_closes 201))%nat /\ row_has_na df i = false) /\
    (forall i : nat, (i < 199)%nat -> row_has_na df i = true) /\
    row_has_na df (length (rising_closes 201) - 1) = true /\
    Z.of_nat (nrows df_clean) <= Z.of_nat (length (rising_closes 201)) - 199 - 1 /\
    (Z.of_nat (nrows df_clean) = Z.of_nat (length (rising_closes 201)) - 199 - 1 <->
     forall i : nat, (199 <= i < length (rising_closes 201) - 1)%nat ->
                     row_has_na df i = false).
Proof.
  split; [vm_compute; reflexivity |].
  split; [vm_compute; reflexivity |].
  split; [vm_compute; reflexivity |].
  apply (C4_retained_rows (day_numbers 201)
           (map (fun x => F64.sub x (F64.dec 1 4)) (rising_closes 201))
           (map (fun x => F64.add x (F64.dec 2 4)) (rising_closes 201))
           (map (fun x => F64.sub x (F64.dec 2 4)) (rising_closes 201))
           (rising_closes 201)
           (map (fun _ => F64.of_Z 1000) (rising_closes 201))
           (example_timestamps 201));
    vm_compute; reflexivity.
Defined.

(** The scenario of the specification on bars with a non-zero range: 300
    rows in, exactly 300 - 199 - 1 = 100 rows out. *)
Example ranging_bars_retain_100 :
  exists df_clean,
    process_single_file (ranging_bars 300) = Ok df_clean /\
    nrows df_clean = 100%nat.
Proof.
  assert (E : match process_single_file (ranging_bars 300) with
              | Ok d => nrows d = 100%nat
              | Raise _ => False
              end) by (vm_compute; reflexivity).
  destruct (process_single_file (ranging_bars 300)) as [d |]; [| contradiction].
  now exists d.
Qed.

(** The counterexample to the row-count law does not depend on the
    environment the examples run in: wherever the dates parse, the 300
    zero-range bars retain no row, because the body fraction is 0/0 on
    every row. *)
Lemma zero_range_bars_retain_nothing_in_any_environment `{Externals} (ts : list Z) :
  parse_dates (day_numbers 300) = Ok ts ->
  exists df_clean,
    process_single_file (zero_range_bars 300) = Ok df_clean /\
    nrows df_clean = 0%nat.
Proof.
  intros Hd. set (c := rising_closes 300).
  assert (Hlen : length c = 300%nat) by reflexivity.
  destruct (feature_frame_long (day_numbers 300) c c c c
              (map (fun _ => F64.of_Z 1000) c) ts Hd eq_refl)
    as (df & Hdf & Hrows & _ & _ & Hbody); [rewrite Hlen; lia |].
  exists (dropna df). split.
  - rewrite process_single_file_eq. unfold zero_range_bars. fold c.
    cbv zeta. rewrite Hdf. reflexivity.
  - rewrite nrows_dropna. unfold kept_rows. rewrite filter_none; [reflexivity |].
    intros i Hi. apply in_seq in Hi. rewrite Hrows in Hi.
    rewrite (row_has_na_intro df _ _ i Hbody); [reflexivity |].
    assert (Hfin : F64.is_finite (nth i c NaN) = true).
    { assert (Hall : forallb F64.is_finite c = true) by (vm_compute; reflexivity).
      rewrite forallb_forall in Hall. apply Hall. apply nth_In. lia. }
    apply body_percent_zero_range; auto; lia.
Qed.

(** With 150 rows the 200-period average is not computed at all
    ([len(df) > period] fails) and 150 - 99 - 1 = 50 rows are retained. *)
Example ranging_bars_150_retain_50 :
  exists df_clean,
    process_single_file (ranging_bars 150) = Ok df_clean /\
    nrows df_clean = 50%nat.
Proof.
  assert (E : match process_single_file (ranging_bars 150) with
              | Ok d => nrows d = 50%nat
              | Raise _ => False
              end) by (vm_compute; reflexivity).
  destruct (process_single_file (ranging_bars 150)) as [d |]; [| contradiction].
  now exists d.
Qed.

(** ** Claims on the indicator library *)

(** C7, counterexample: on an empty close series [calculate_rsi] returns the
    empty series, and on high, low and close series of lengths 3, 2 and 4
    [calculate_atr] returns a series; neither fails. *)
Lemma C7_empty_and_mismatched_inputs_return :
  calculate_rsi [] 14 = Ok [] /\
  calculate_atr high3 low2 close4 2 =
    Ok [NaN; F64.of_Z 2; F64.of_Z 2; NaN] /\
  ~ raises (calculate_rsi [] 14) /\
  ~ raises (calculate_atr high3 low2 close4 2).
Proof.
  assert (H1 : calculate_rsi [] 14 = Ok []) by (vm_compute; reflexivity).
  assert (H2 : calculate_atr high3 low2 close4 2 =
               Ok [NaN; F64.of_Z 2; F64.of_Z 2; NaN]) by (vm_compute; reflexivity).
  repeat split; try assumption; apply returns_not_raises; eexists; eassumption.
Qed.

(** C7 (amended).  No function of the indicator library validates its
    input: for every window period >= 0 (every span >= 1 for MACD) each of
    the nine functions returns, whatever the lengths of its input series,
    equal or not, empty or not; on empty input RSI and ATR are the empty
    series.  Input shorter than the window is no error either: every
    position t with t + 1 < period, so every position of a too short input,
    holds the undefined value in RSI and in ATR. *)
Theorem C7_indicators_do_not_validate (high low close : Series)
    (period fast slow signal std_dev : Z) :
  0 <= period -> 1 <= fast -> 1 <= slow -> 1 <= signal ->
  returns (calculate_rsi close period) /\
  returns (calculate_macd close fast slow signal) /\
  returns (calculate_bollinger_bands close period std_dev) /\
  returns (calculate_atr high low close period) /\
  returns (calculate_stochastic high low close period) /\
  returns (calculate_cci high low close period) /\
  returns (calculate_williams_r high low close period) /\
  returns (calculate_momentum close period) /\
  returns (calculate_roc close period) /\
  calculate_rsi [] period = Ok [] /\
  calculate_atr [] [] [] period = Ok [] /\
  exists rsi atr,
    calculate_rsi close period = Ok rsi /\
    calculate_atr high low close period = Ok atr /\
    length rsi = length close /\
    length atr = Nat.max (Nat.max (length high) (length low)) (length close) /\
    forall t : nat, Z.of_nat t + 1 < period ->
      nth t rsi NaN = NaN /\ nth t atr NaN = NaN.
Proof.
  intros Hp Hf Hs Hg.
  assert (Hrsi := calculate_rsi_eq close period Hp).
  assert (Hatr : calculate_atr high low close period =
                 Ok (Pd.roll Pd.mean (true_range high low close) (Z.to_nat period))).
  { unfold calculate_atr, Pd.rolling_mean. now rewrite rolling_ok. }
  split; [eexists; exact Hrsi |].
  split; [eexists; ev 0 |].
  split; [eexists; ev 0 |].
  split; [eexists; exact Hatr |].
  split; [eexists; ev 0 |].
  split; [eexists; ev 0 |].
  split; [eexists; ev 0 |].
  split; [eexists; ev 0 |].
  split; [eexists; ev 0 |].
  split; [rewrite calculate_rsi_eq by assumption; reflexivity |].
  split; [unfold calculate_atr, Pd.rolling_mean; rewrite rolling_ok by assumption;
          reflexivity |].
  eexists. eexists. split; [exact Hrsi |]. split; [exact Hatr |].
  split.
  { unfold Pd.rsub_scalar, Pd.rdiv_scalar, Pd.radd_scalar, Pd.sdiv.
    rewrite !length_map, length_align, !length_roll, length_gains, length_losses.
    lia. }
  split.
  { rewrite length_roll. unfold true_range, Pd.row_max3, Pd.sabs, Pd.ssub.
    rewrite !length_align, !length_map, !length_align, length_shift. lia. }
  intros t Ht. split.
  - destruct (Nat.lt_ge_cases t (length close)) as [Hl | Hl].
    + destruct (nth_calculate_rsi close period t Hp Hl) as (r & Hr & _ & Hn).
      match goal with
      | |- nth t ?X NaN = NaN => assert (Er : r = X) by congruence; rewrite <- Er
      end.
      rewrite Hn, nth_roll_incomplete by lia. apply rsi_of_nan_l.
    + apply nth_overflow.
      unfold Pd.rsub_scalar, Pd.rdiv_scalar, Pd.radd_scalar, Pd.sdiv.
      rewrite !length_map, length_align, !length_roll, length_gains, length_losses.
      lia.
  - apply nth_roll_incomplete. lia.
Qed.

Lemma C7_indicators_do_not_validate_witness :
  0 <= 14 /\ 1 <= 12 /\ 1 <= 26 /\ 1 <= 9 /\
  returns (calculate_rsi close4 14) /\
  returns (calculate_macd close4 12 26 9) /\
  returns (calculate_bollinger_bands close4 14 2) /\
  returns (calculate_atr high3 low2 close4 14) /\
  returns (calculate_stochastic high3 low2 close4 14) /\
  returns (calculate_cci high3 low2 close4 14) /\
  returns (calculate_williams_r high3 low2 close4 14) /\
  returns (calculate_momentum close4 14) /\
  returns (calculate_roc close4 14) /\
  calculate_rsi [] 14 = Ok [] /\
  calculate_atr [] [] [] 14 = Ok [] /\
  exists rsi atr,
    calculate_rsi close4 14 = Ok rsi /\
    calculate_atr high3 low2 close4 14 = Ok atr /\
    length rsi = length close4 /\
    length atr = Nat.max (Nat.max (length high3) (length low2)) (length close4) /\
    forall t : nat, Z.of_nat t + 1 < 14 ->
      nth t rsi NaN = NaN /\ nth t atr NaN = NaN.
Proof.
  split; [lia |]. split; [lia |]. split; [lia |]. split; [lia |].
  apply (C7_indicators_do_not_validate high3 low2 close4 14 12 26 9 2); lia.
Defined.

(** ** Claim on the Bollinger bands *)

Section Bollinger.

Lemma calculate_bollinger_bands_eq (close : Series) (period std_dev : Z) :
  0 <= period ->
  let sma := Pd.roll Pd.mean close (Z.to_nat period) in
  let std := Pd.roll (Pd.std 1) close (Z.to_nat period) in
  let upper := Pd.sadd sma (Pd.mul_scalar std (F64.of_Z std_dev)) in
  let lower := Pd.ssub sma (Pd.mul_scalar std (F64.of_Z std_dev)) in
  calculate_bollinger_bands close period std_dev =
  Ok (upper, sma, lower, Pd.sdiv (Pd.ssub upper lower) sma,
      Pd.sdiv (Pd.ssub close lower) (Pd.ssub upper lower)).
Proof.
  intros Hp. unfold calculate_bollinger_bands, Pd.rolling_mean, Pd.rolling_std.
  rewrite !rolling_ok by assumption. reflexivity.
Qed.

(** The deviation pandas' [std()] computes on a window of at least two
    observations: the root of the squared deviations over (count - 1). *)
Lemma std_sample (w : list float) :
  (2 <= length w)%nat ->
  Pd.std 1 w =
  F64.sqrt
    (F64.div
       (Pd.fsum (map (fun x => F64.mul (F64.sub x (Pd.mean w)) (F64.sub x (Pd.mean w))) w))
       (F64.of_Z (Z.of_nat (length w) - 1))).
Proof.
  intros Hw. unfold Pd.std, Pd.var.
  destruct (Z.leb_spec (Z.of_nat (length w)) 1); [lia | reflexivity].
Qed.

End Bollinger.

(** C8, counterexample: on the closes 1, 1, 2, 3, 3 with period 5 and k = 2
    the rolling mean is 2 and the upper and lower bands at the last row are
    4 and 0, that is mean ± 2 · 1 with the sample deviation 1 (divisor 4),
    not mean ± 2 · sqrt(4/5) with the population deviation (divisor 5). *)
Lemma C8_bands_are_not_population_bands :
  exists upper middle lower width position,
    calculate_bollinger_bands stair5 5 2 = Ok (upper, middle, lower, width, position) /\
    nth 4 middle NaN = F64.of_Z 2 /\
    nth 4 upper NaN = F64.of_Z 4 /\
    nth 4 lower NaN = F64.of_Z 0 /\
    Pd.std 1 stair5 = F64.of_Z 1 /\
    nth 4 upper NaN <>
      F64.add (Pd.mean stair5) (F64.mul (Pd.std 0 stair5) (F64.of_Z 2)) /\
    nth 4 lower NaN <>
      F64.sub (Pd.mean stair5) (F64.mul (Pd.std 0 stair5) (F64.of_Z 2)).
Proof.
  do 5 eexists. split; [vm_compute; reflexivity |].
  repeat split; try (vm_compute; reflexivity); vm_compute; discriminate.
Qed.

(** C8 (amended).  At every row whose window of [period] >= 2 closes is
    complete and free of undefined values, the middle band is the rolling
    mean and the upper and lower bands are mean + k·std and mean - k·std,
    where std is the rolling sample standard deviation, pandas' default:
    the root of the squared deviations from the mean over period - 1. *)
Theorem C8_bollinger_sample_deviation (close : Series) (period k : Z) (t : nat) :
  2 <= period -> (t < length close)%nat -> period <= Z.of_nat t + 1 ->
  Pd.observed (Pd.window close (Z.to_nat period) t) = true ->
  exists upper middle lower width position,
    calculate_bollinger_bands close period k =
      Ok (upper, middle, lower, width, position) /\
    let w := Pd.window close (Z.to_nat period) t in
    let m := Pd.mean w in
    let s := F64.sqrt
               (F64.div
                  (Pd.fsum (map (fun x => F64.mul (F64.sub x m) (F64.sub x m)) w))
                  (F64.of_Z (period - 1))) in
    length w = Z.to_nat period /\
    nth t middle NaN = m /\
    nth t upper NaN = F64.add m (F64.mul s (F64.of_Z k)) /\
    nth t lower NaN = F64.sub m (F64.mul s (F64.of_Z k)).
Proof.
  intros Hp Ht Hfull Hobs.
  do 5 eexists. split; [apply calculate_bollinger_bands_eq; lia |].
  assert (Hlen : length (Pd.window close (Z.to_nat period) t) = Z.to_nat period)
    by (apply length_window; lia).
  assert (Hroll : forall agg,
            nth t (Pd.roll agg close (Z.to_nat period)) NaN =
            agg (Pd.window close (Z.to_nat period) t)).
  { intros agg. rewrite nth_roll by assumption. rewrite Hobs.
    destruct (Nat.ltb_spec 0 (Z.to_nat period)); [| lia].
    destruct (Nat.leb_spec (Z.to_nat period) (t + 1)); [reflexivity | lia]. }
  assert (Hstd : nth t (Pd.mul_scalar (Pd.roll (Pd.std 1) close (Z.to_nat period))
                                      (F64.of_Z k)) NaN =
                 F64.mul (Pd.std 1 (Pd.window close (Z.to_nat period) t)) (F64.of_Z k)).
  { unfold Pd.mul_scalar. rewrite (nth_map_in _ _ NaN) by now rewrite length_roll.
    now rewrite Hroll. }
  cbv zeta. split; [exact Hlen |].
  rewrite std_sample in Hstd by lia. rewrite Hlen in Hstd.
  replace (Z.of_nat (Z.to_nat period) - 1) with (period - 1) in Hstd by lia.
  split; [apply Hroll |].
  unfold Pd.sadd, Pd.ssub.
  rewrite !nth_align
    by (unfold Pd.mul_scalar; rewrite length_map, !length_roll; lia).
  now rewrite Hstd, Hroll.
Qed.

Lemma C8_bollinger_sample_deviation_witness :
  2 <= 5 /\ (4 < length stair5)%nat /\ 5 <= Z.of_nat 4 + 1 /\
  Pd.observed (Pd.window stair5 (Z.to_nat 5) 4) = true /\
  exists upper middle lower width position,
    calculate_bollinger_bands stair5 5 2 =
      Ok (upper, middle, lower, width, position) /\
    let w := Pd.window stair5 (Z.to_nat 5) 4 in
    let m := Pd.mean w in
    let s := F64.sqrt
               (F64.div
                  (Pd.fsum (map (fun x => F64.mul (F64.sub x m) (F64.sub x m)) w))
                  (F64.of_Z (5 - 1))) in
    length w = Z.to_nat 5 /\
    nth 4 middle NaN = m /\
    nth 4 upper NaN = F64.add m (F64.mul s (F64.of_Z 2)) /\
    nth 4 lower NaN = F64.sub m (F64.mul s (F64.of_Z 2)).
Proof.
  split; [lia |]. split; [simpl; lia |]. split; [lia |].
  split; [reflexivity |].
  apply (C8_bollinger_sample_deviation stair5 5 2 4);
    [lia | simpl; lia | lia | reflexivity].
Defined.

(** * Further properties of the pipeline code *)

(** ** Target variables: alignment, composition, frame *)

(** X1.  Target_Close at row t is the close H rows later, undefined where that
    row does not exist; Target_Direction is 1 exactly where that next close
    is greater than the close of the row. *)
Theorem target_close_alignment (df : DataFrame) (close : Series) (H : Z) (t : nat) :
  getf df "Close" = Ok close -> (t < length close)%nat ->
  exists df' tc dir,
    add_target_variables df H = Ok df' /\
    getitem df' "Target_Close" = Ok (FloatCol tc) /\
    getitem df' "Target_Direction" = Ok (IntCol dir) /\
    length tc = length close /\
    (0 <= Z.of_nat t + H < Z.of_nat (length close) ->
       nth t tc NaN = nth (Z.to_nat (Z.of_nat t + H)) close NaN) /\
    (Z.of_nat t + H < 0 \/ Z.of_nat (length close) <= Z.of_nat t + H ->
       nth t tc NaN = NaN) /\
    nth t dir 0 = (if F64.gtb (nth t tc NaN) (nth t close NaN) then 1 else 0).
Proof.
  intros Hc Ht.
  exists (target_frame df close H), (next_close_column close H),
         (direction_column close H).
  split; [now apply add_target_variables_eq |].
  split; [apply target_frame_close |].
  split; [apply target_frame_direction |].
  split; [apply length_shift |].
  rewrite nth_direction_column, nth_next_close_column by assumption.
  repeat split.
  - intros Hin. rewrite <- (Z2Nat.id (Z.of_nat t + H)) at 1 by lia. apply at_nat.
  - intros Hout. now apply at_out.
Qed.

Lemma target_close_alignment_witness :
  getf (close_frame rising3) "Close" = Ok rising3 /\ (0 < length rising3)%nat /\
  exists df' tc dir,
    add_target_variables (close_frame rising3) 1 = Ok df' /\
    getitem df' "Target_Close" = Ok (FloatCol tc) /\
    getitem df' "Target_Direction" = Ok (IntCol dir) /\
    length tc = length rising3 /\
    (0 <= Z.of_nat 0 + 1 < Z.of_nat (length rising3) ->
       nth 0 tc NaN = nth (Z.to_nat (Z.of_nat 0 + 1)) rising3 NaN) /\
    (Z.of_nat 0 + 1 < 0 \/ Z.of_nat (length rising3) <= Z.of_nat 0 + 1 ->
       nth 0 tc NaN = NaN) /\
    nth 0 dir 0 = (if F64.gtb (nth 0 tc NaN) (nth 0 rising3 NaN) then 1 else 0).
Proof.
  split; [reflexivity |]. split; [simpl; lia |].
  apply (target_close_alignment (close_frame rising3) rising3 1 0);
    [reflexivity | simpl; lia].
Defined.

Lemma return_column_is_pct_change (close : Series) (H : Z) :
  return_column close H = Pd.pct_change close (- H).
Proof.
  apply (nth_ext _ _ NaN NaN).
  - now rewrite length_return_column, length_pct_change.
  - intros t Ht. rewrite length_return_column in Ht.
    rewrite nth_return_column, nth_pct_change by assumption.
    replace (Z.of_nat t - - H) with (Z.of_nat t + H) by lia.
    destruct (Z.leb_spec 0 (Z.of_nat t + H)) as [H0 | H0]; cbn [andb].
    + destruct (Z.ltb_spec (Z.of_nat t + H) (Z.of_nat (length close)));
        [reflexivity |].
      rewrite at_out by lia.
      now rewrite F64Facts.div_nan_r, F64Facts.sub_nan_l.
    + rewrite at_out by lia.
      now rewrite F64Facts.div_nan_r, F64Facts.sub_nan_l.
Qed.

(** X2.  The two chained shifts around [pct_change] cancel: for every
    horizon, of either sign, the Target_Return column is
    [close.pct_change(-H)] itself; no row is lost or moved at either end of
    the table. *)
Theorem target_return_shift_round_trip (df : DataFrame) (close : Series) (H : Z) :
  getf df "Close" = Ok close ->
  exists df',
    add_target_variables df H = Ok df' /\
    getitem df' "Target_Return" = Ok (FloatCol (Pd.pct_change close (- H))).
Proof.
  intros Hc. exists (target_frame df close H).
  split; [now apply add_target_variables_eq |].
  rewrite target_frame_return. now rewrite return_column_is_pct_change.
Qed.

Lemma target_return_shift_round_trip_witness :
  getf (close_frame rising3) "Close" = Ok rising3 /\
  exists df',
    add_target_variables (close_frame rising3) 2 = Ok df' /\
    getitem df' "Target_Return" = Ok (FloatCol (Pd.pct_change rising3 (- 2))).
Proof.
  split; [reflexivity |].
  apply (target_return_shift_round_trip (close_frame rising3) rising3 2).
  reflexivity.
Defined.

(** X3.  [add_target_variables] keeps the number of rows and every column other
    than the four it writes, and the frame it returns holds all four. *)
Theorem target_stage_frame (df : DataFrame) (close : Series) (H : Z) :
  getf df "Close" = Ok close ->
  exists df',
    add_target_variables df H = Ok df' /\
    nrows df' = nrows df /\
    (forall name, ~ In name target_names -> getitem df' name = getitem df name) /\
    (forall name, In name target_names -> has_column df' name = true).
Proof.
  intros Hc. exists (target_frame df close H).
  split; [now apply add_target_variables_eq |].
  split; [reflexivity |]. split.
  - intros name Hn. unfold target_frame.
    rewrite !getitem_setitem_ne; [reflexivity | ..];
      intros E; apply Hn; subst name; simpl; auto 6.
  - intros name Hn. unfold has_column.
    assert (Hg : exists c, getitem (target_frame df close H) name = Ok c).
    { simpl in Hn. destruct Hn as [<- | [<- | [<- | [<- | []]]]].
      - eexists. apply target_frame_direction.
      - eexists. apply target_frame_return.
      - eexists. apply target_frame_close.
      - eexists. apply target_frame_multi. }
    destruct Hg as [c Hg]. unfold getitem in Hg.
    now destruct (lookup name (columns (target_frame df close H))).
Qed.

Lemma target_stage_frame_witness :
  getf (close_frame rising3) "Close" = Ok rising3 /\
  exists df',
    add_target_variables (close_frame rising3) 1 = Ok df' /\
    nrows df' = nrows (close_frame rising3) /\
    (forall name, ~ In name target_names ->
       getitem df' name = getitem (close_frame rising3) name) /\
    (forall name, In name target_names -> has_column df' name = true).
Proof.
  split; [reflexivity |].
  apply (target_stage_frame (close_frame rising3) rising3 1). reflexivity.
Defined.

(** ** Missing columns *)

Lemma getf_missing (df : DataFrame) (name : string) :
  has_column df name = false -> getf df name = Raise (KeyError name).
Proof.
  unfold has_column, getf, getitem. now destruct (lookup name (columns df)).
Qed.

(** X4.  Without a Close column every stage that reads prices, and so the whole
    of [process_single_file], fails with KeyError 'Close' before writing
    anything. *)
Theorem missing_close_raises_key_error `{E : Externals} (df : DataFrame) (H : Z) :
  has_column df "Close" = false ->
  add_price_features df = Raise (KeyError "Close") /\
  add_technical_indicators df = Raise (KeyError "Close") /\
  add_target_variables df H = Raise (KeyError "Close") /\
  process_single_file df = Raise (KeyError "Close").
Proof.
  intros Hm. apply getf_missing in Hm.
  assert (Hp : add_price_features df = Raise (KeyError "Close"))
    by (unfold add_price_features; now rewrite Hm).
  repeat split; try assumption.
  - unfold add_technical_indicators. now rewrite Hm.
  - unfold add_target_variables. now rewrite Hm.
  - unfold process_single_file. now rewrite Hp.
Qed.

Lemma missing_close_raises_key_error_witness :
  has_column (mkDataFrame 0 []) "Close" = false /\
  add_price_features (mkDataFrame 0 []) = Raise (KeyError "Close") /\
  add_technical_indicators (mkDataFrame 0 []) = Raise (KeyError "Close") /\
  add_target_variables (mkDataFrame 0 []) 1 = Raise (KeyError "Close") /\
  process_single_file (mkDataFrame 0 []) = Raise (KeyError "Close").
Proof.
  split; [reflexivity |].
  apply (missing_close_raises_key_error (mkDataFrame 0 []) 1). reflexivity.
Defined.

(** ** Indicators on flat prices and at the start of the table *)

Module F64More.
Import F64.

Lemma eqb_refl (x : float) : is_nan x = false -> eqb x x = true.
Proof.
  destruct x as [[] | [] | | [] m e]; simpl; intros H; try discriminate;
    try reflexivity; unfold eqb, SFeqb, SFcompare;
    now rewrite Z.compare_refl, Pos.compare_cont_refl.
Qed.

Lemma abs_zero (x : float) : is_zero x = true -> is_zero (abs x) = true.
Proof. destruct x; simpl; congruence. Qed.

Lemma abs_nan : abs nan = nan.
Proof. reflexivity. Qed.

Lemma mul_finite_zero (x y : float) :
  is_finite x = true -> is_zero y = true -> is_zero (mul x y) = true.
Proof. destruct x, y; simpl; intros; try discriminate; reflexivity. Qed.

Lemma is_zero_not_nan (x : float) : is_zero x = true -> is_nan x = false.
Proof. destruct x; simpl; congruence. Qed.

End F64More.

Section FlatPrices.

(** The row-wise maximum of a zero and of values that are zero or missing
    is a zero. *)
Lemma nanmax2_zero (a b : float) :
  F64.is_zero a = true -> F64.is_zero b = true \/ b = NaN ->
  F64.is_zero (Pd.nanmax2 a b) = true.
Proof.
  intros Ha [Hb | ->]; unfold Pd.nanmax2, Pd.fmax2.
  - rewrite (F64More.is_zero_not_nan a Ha), (F64More.is_zero_not_nan b Hb).
    now destruct (F64.ltb a b).
  - rewrite (F64More.is_zero_not_nan a Ha). exact Ha.
Qed.

Lemma fold_fmin2_const (c : float) (l : list float) :
  (forall x, In x l -> x = c) -> fold_left Pd.fmin2 l c = c.
Proof.
  induction l as [| x l IH]; intros H; simpl; [reflexivity |].
  rewrite (H x) by now left. unfold Pd.fmin2 at 2.
  destruct (F64.ltb c c); apply IH; intros y Hy; apply H; now right.
Qed.

Lemma fold_fmax2_const (c : float) (l : list float) :
  (forall x, In x l -> x = c) -> fold_left Pd.fmax2 l c = c.
Proof.
  induction l as [| x l IH]; intros H; simpl; [reflexivity |].
  rewrite (H x) by now left. unfold Pd.fmax2 at 2.
  destruct (F64.ltb c c); apply IH; intros y Hy; apply H; now right.
Qed.

Lemma fmin_const (c : float) (l : list float) :
  l <> [] -> (forall x, In x l -> x = c) -> Pd.fmin l = c.
Proof.
  destruct l as [| x l]; [congruence |]. intros _ H. simpl.
  rewrite (H x) by now left. apply fold_fmin2_const.
  intros y Hy. apply H. now right.
Qed.

Lemma fmax_const (c : float) (l : list float) :
  l <> [] -> (forall x, In x l -> x = c) -> Pd.fmax l = c.
Proof.
  destruct l as [| x l]; [congruence |]. intros _ H. simpl.
  rewrite (H x) by now left. apply fold_fmax2_const.
  intros y Hy. apply H. now right.
Qed.

Lemma observed_intro (l : list float) :
  (forall x, In x l -> F64.is_nan x = false) -> Pd.observed l = true.
Proof.
  intros H. unfold Pd.observed. apply forallb_forall.
  intros x Hx. now rewrite H.
Qed.

Lemma window_nonempty (s : Series) (n t : nat) :
  (0 < n)%nat -> (n <= t + 1)%nat -> (t < length s)%nat -> Pd.window s n t <> [].
Proof.
  intros Hn0 Hn Ht E. apply (f_equal (@length float)) in E.
  rewrite length_window in E by lia. simpl in E. lia.
Qed.

Lemma window_const (s : Series) (n t : nat) (c x : float) :
  (n <= t + 1)%nat ->
  (forall i : nat, (t + 1 - n <= i <= t)%nat -> nth i s NaN = c) ->
  In x (Pd.window s n t) -> x = c.
Proof.
  intros Hn Hc Hx. apply in_window_upper in Hx as (j & Hj & _ & ->); [| lia].
  now apply Hc.
Qed.

Lemma nth_true_range (high low close : Series) (j : nat) :
  length high = length close -> length low = length close ->
  (j < length close)%nat ->
  nth j (true_range high low close) NaN =
  Pd.nanmax2
    (Pd.nanmax2 (F64.sub (nth j high NaN) (nth j low NaN))
       (F64.abs (F64.sub (nth j high NaN) (Pd.at_ close (Z.of_nat j - 1)))))
    (F64.abs (F64.sub (nth j low NaN) (Pd.at_ close (Z.of_nat j - 1)))).
Proof.
  intros Hh Hl Hj. unfold true_range, Pd.row_max3, Pd.sabs, Pd.ssub.
  rewrite nth_align
    by (rewrite !length_align, !length_map, !length_align, !length_shift; lia).
  rewrite nth_align
    by (rewrite !length_align, !length_map, !length_align, !length_shift; lia).
  rewrite nth_align by lia.
  rewrite !(nth_map_in _ _ NaN) by (rewrite length_align, length_shift; lia).
  rewrite !nth_align by (rewrite length_shift; lia).
  now rewrite nth_shift by lia.
Qed.

Lemma length_true_range (high low close : Series) :
  length high = length close -> length low = length close ->
  length (true_range high low close) = length close.
Proof.
  intros Hh Hl. unfold true_range, Pd.row_max3, Pd.sabs, Pd.ssub.
  rewrite !length_align, !length_map, !length_align, !length_shift. lia.
Qed.

End FlatPrices.

(** X5.  On a window of bars that all sit at one finite price (high, low and
    close equal, and so was the close of the bar before the window), the
    ATR of the row is defined and is a zero. *)
Theorem atr_zero_on_flat_window (high low close : Series) (period : Z)
    (t : nat) (c : float) :
  length high = length close -> length low = length close ->
  0 < period -> period <= Z.of_nat t + 1 -> (t < length close)%nat ->
  F64.is_finite c = true ->
  (forall i : nat, Z.of_nat t + 1 - period <= Z.of_nat i + 1 -> (i <= t)%nat ->
     nth i close NaN = c) ->
  (forall i : nat, Z.of_nat t + 1 - period <= Z.of_nat i -> (i <= t)%nat ->
     nth i high NaN = c /\ nth i low NaN = c) ->
  exists atr,
    calculate_atr high low close period = Ok atr /\
    F64.is_zero (nth t atr NaN) = true.
Proof.
  intros Hh Hl Hp0 Hp Ht Hfin Hc Hb.
  exists (Pd.roll Pd.mean (true_range high low close) (Z.to_nat period)).
  split.
  { unfold calculate_atr, Pd.rolling_mean. fold (true_range high low close).
    rewrite rolling_ok by lia. reflexivity. }
  assert (Hz : forall x, In x (Pd.window (true_range high low close)
                                 (Z.to_nat period) t) ->
               F64.is_zero x = true).
  { intros x Hx. apply in_window_upper in Hx as (j & Hj & Hjl & ->); [| lia].
    rewrite length_true_range in Hjl by assumption.
    rewrite nth_true_range by assumption.
    destruct (Hb j) as [-> ->]; [lia | lia |].
    pose proof (F64Facts.sub_diag_zero c Hfin) as Hcc.
    assert (Hprev : F64.is_zero (F64.abs (F64.sub c (Pd.at_ close (Z.of_nat j - 1))))
                    = true \/
                    F64.abs (F64.sub c (Pd.at_ close (Z.of_nat j - 1))) = NaN).
    { destruct j as [| j].
      - right. rewrite at_out by lia. now rewrite F64Facts.sub_nan_r.
      - left. replace (Z.of_nat (S j) - 1) with (Z.of_nat j) by lia.
        rewrite at_nat, (Hc j) by lia. now apply F64More.abs_zero. }
    apply nanmax2_zero; [apply nanmax2_zero |]; assumption. }
  rewrite nth_roll by (rewrite length_true_range; assumption).
  destruct (Nat.ltb_spec 0 (Z.to_nat period)); [| lia].
  destruct (Nat.leb_spec (Z.to_nat period) (t + 1)); [| lia].
  rewrite observed_intro
    by (intros x Hx; apply F64More.is_zero_not_nan; now apply Hz).
  cbn [andb]. apply mean_zeros; [| assumption].
  apply window_nonempty; [lia | lia |].
  now rewrite length_true_range.
Qed.

Lemma atr_zero_on_flat_window_witness :
  length flat4 = length flat4 /\ 0 < 2 /\ 2 <= Z.of_nat 2 + 1 /\
  (2 < length flat4)%nat /\ F64.is_finite (F64.of_Z 7) = true /\
  exists atr,
    calculate_atr flat4 flat4 flat4 2 = Ok atr /\
    F64.is_zero (nth 2 atr NaN) = true.
Proof.
  split; [reflexivity |]. split; [lia |]. split; [lia |].
  split; [simpl; lia |]. split; [reflexivity |].
  apply (atr_zero_on_flat_window flat4 flat4 flat4 2 2 (F64.of_Z 7));
    try reflexivity; try lia; try (simpl; lia).
  - intros i _ Hi.
    destruct i as [| [| [| i]]]; [reflexivity | reflexivity | reflexivity | lia].
  - intros i _ Hi.
    destruct i as [| [| [| i]]]; [split; reflexivity .. | lia].
Defined.

(** X6.  On a window of bars whose highs and lows all equal one finite price,
    with the close of the row at that price too, the stochastic %K and %D
    and Williams %R of the row are undefined: the range of the window is
    zero and the code divides zero by zero without raising. *)
Theorem oscillators_undefined_on_flat_window (high low close : Series)
    (period : Z) (t : nat) (c : float) :
  length high = length close -> length low = length close ->
  0 < period -> period <= Z.of_nat t + 1 -> (t < length close)%nat ->
  F64.is_finite c = true ->
  nth t close NaN = c ->
  (forall i : nat, Z.of_nat t + 1 - period <= Z.of_nat i -> (i <= t)%nat ->
     nth i high NaN = c /\ nth i low NaN = c) ->
  exists k d wr,
    calculate_stochastic high low close period = Ok (k, d) /\
    calculate_williams_r high low close period = Ok wr /\
    nth t k NaN = NaN /\ nth t d NaN = NaN /\ nth t wr NaN = NaN.
Proof.
  intros Hh Hl Hp0 Hp Ht Hfin Hct Hb.
  set (n := Z.to_nat period).
  set (ll := Pd.roll Pd.fmin low n). set (hh := Pd.roll Pd.fmax high n).
  set (k := Pd.sdiv (Pd.rmul_scalar (F64.of_Z 100) (Pd.ssub close ll))
                    (Pd.ssub hh ll)).
  exists k, (Pd.roll Pd.mean k 3),
    (Pd.sdiv (Pd.rmul_scalar (F64.of_Z (-100)) (Pd.ssub hh close))
             (Pd.ssub hh ll)).
  assert (Hlen : length ll = length close /\ length hh = length close).
  { unfold ll, hh. rewrite !length_roll. now split. }
  destruct Hlen as [Hll Hhh].
  assert (Ell : nth t ll NaN = c).
  { unfold ll. rewrite nth_roll by lia. subst n.
    destruct (Nat.ltb_spec 0 (Z.to_nat period)); [| lia].
    destruct (Nat.leb_spec (Z.to_nat period) (t + 1)); [| lia].
    assert (Hw : forall x, In x (Pd.window low (Z.to_nat period) t) -> x = c).
    { intros x Hx. apply (window_const low (Z.to_nat period) t c x);
        [lia | | assumption].
      intros i Hi. apply Hb; lia. }
    rewrite observed_intro
      by (intros x Hx; rewrite (Hw x Hx); now apply F64Facts.is_finite_not_nan).
    cbn [andb]. apply fmin_const; [| assumption].
    apply window_nonempty; lia. }
  assert (Ehh : nth t hh NaN = c).
  { unfold hh. rewrite nth_roll by lia. subst n.
    destruct (Nat.ltb_spec 0 (Z.to_nat period)); [| lia].
    destruct (Nat.leb_spec (Z.to_nat period) (t + 1)); [| lia].
    assert (Hw : forall x, In x (Pd.window high (Z.to_nat period) t) -> x = c).
    { intros x Hx. apply (window_const high (Z.to_nat period) t c x);
        [lia | | assumption].
      intros i Hi. apply Hb; lia. }
    rewrite observed_intro
      by (intros x Hx; rewrite (Hw x Hx); now apply F64Facts.is_finite_not_nan).
    cbn [andb]. apply fmax_const; [| assumption].
    apply window_nonempty; lia. }
  pose proof (F64Facts.sub_diag_zero c Hfin) as Hcc.
  assert (Ek : nth t k NaN = NaN).
  { unfold k, Pd.sdiv, Pd.rmul_scalar, Pd.ssub.
    rewrite nth_align by (rewrite length_map, !length_align; lia).
    rewrite (nth_map_in _ _ NaN) by (rewrite length_align; lia).
    rewrite !nth_align by lia.
    rewrite Ell, Ehh, Hct.
    apply F64Facts.div_zero_zero; [| assumption].
    now apply F64More.mul_finite_zero. }
  assert (Hk : length k = length close).
  { unfold k, Pd.sdiv, Pd.rmul_scalar, Pd.ssub.
    rewrite !length_align, length_map, length_align. lia. }
  split.
  { unfold calculate_stochastic, Pd.rolling_min, Pd.rolling_max, Pd.rolling_mean.
    rewrite !rolling_ok by lia. reflexivity. }
  split.
  { unfold calculate_williams_r, Pd.rolling_min, Pd.rolling_max.
    rewrite !rolling_ok by lia. reflexivity. }
  split; [exact Ek |]. split.
  - rewrite nth_roll by lia.
    destruct (Nat.leb_spec 3 (t + 1)); [| now rewrite andb_false_r].
    assert (Ho : Pd.observed (Pd.window k 3 t) = false).
    { unfold Pd.observed. apply not_true_is_false. intros Hall.
      rewrite forallb_forall in Hall.
      assert (Hin : In (nth t k NaN) (Pd.window k 3 t)).
      { assert (E : nth 2 (Pd.window k 3 t) NaN = nth t k NaN).
        { unfold Pd.window. rewrite nth_firstn.
          change (2 <? 3)%nat with true. cbv iota.
          rewrite nth_skipn. f_equal. lia. }
        rewrite <- E. apply nth_In. rewrite length_window by lia. lia. }
      apply Hall in Hin. rewrite Ek in Hin. discriminate. }
    now rewrite Ho, andb_false_r.
  - unfold Pd.sdiv, Pd.rmul_scalar, Pd.ssub.
    rewrite nth_align by (rewrite length_map, !length_align; lia).
    rewrite (nth_map_in _ _ NaN) by (rewrite length_align; lia).
    rewrite !nth_align by lia.
    rewrite Ell, Ehh, Hct.
    apply F64Facts.div_zero_zero; [| assumption].
    now apply F64More.mul_finite_zero.
Qed.

Lemma oscillators_undefined_on_flat_window_witness :
  (2 < length flat4)%nat /\ F64.is_finite (F64.of_Z 7) = true /\
  exists k d wr,
    calculate_stochastic flat4 flat4 flat4 2 = Ok (k, d) /\
    calculate_williams_r flat4 flat4 flat4 2 = Ok wr /\
    nth 2 k NaN = NaN /\ nth 2 d NaN = NaN /\ nth 2 wr NaN = NaN.
Proof.
  split; [simpl; lia |]. split; [reflexivity |].
  apply (oscillators_undefined_on_flat_window flat4 flat4 flat4 2 2 (F64.of_Z 7));
    try reflexivity; try lia; try (simpl; lia).
  intros i _ Hi.
  destruct i as [| [| [| i]]]; [split; reflexivity .. | lia].
Defined.

(** ** MACD on constant prices, momentum and rate of change *)

Section ConstantSeries.

Variable alpha : float.
Variable c : float.
Hypothesis c_observed : F64.is_nan c = false.

Lemma ewm_step_const (st : float * float) :
  F64.is_nan (fst st) = true \/ fst st = c ->
  fst (Pd.ewm_step alpha st c) = c.
Proof.
  destruct st as [w o]. cbn [fst].
  intros [Hn | ->]; unfold Pd.ewm_step; cbv beta iota zeta.
  - now rewrite Hn.
  - rewrite c_observed. now rewrite F64More.eqb_refl.
Qed.

Lemma ewm_run_const (vals : list float) (st : float * float) :
  (forall x, In x vals -> x = c) ->
  F64.is_nan (fst st) = true \/ fst st = c ->
  forall y, In y (Pd.ewm_run alpha st vals) -> y = c.
Proof.
  revert st. induction vals as [| v vals IH]; intros st Hv Hst y Hy;
    [contradiction |].
  cbn [Pd.ewm_run] in Hy. cbv zeta in Hy.
  rewrite (Hv v) in Hy by now left.
  destruct Hy as [<- | Hy].
  - now apply ewm_step_const.
  - apply (IH (Pd.ewm_step alpha st c)); [| | assumption].
    + intros x Hx. apply Hv. now right.
    + right. now apply ewm_step_const.
Qed.

End ConstantSeries.

Lemma nth_const (s : Series) (c : float) (t : nat) :
  (forall x, In x s -> x = c) -> (t < length s)%nat -> nth t s NaN = c.
Proof. intros H Ht. apply H. now apply nth_In. Qed.

(** X7.  On a close series that holds one finite price at every row, the MACD
    line, its signal line and the histogram are zero at every row, the
    first included: the exponential averages have no warm-up. *)
Theorem macd_zero_on_constant_prices (close : Series) (fast slow signal : Z)
    (c : float) :
  1 <= fast -> 1 <= slow -> 1 <= signal ->
  F64.is_finite c = true ->
  (forall x, In x close -> x = c) ->
  exists macd sig hist,
    calculate_macd close fast slow signal = Ok (macd, sig, hist) /\
    length macd = length close /\ length sig = length close /\
    length hist = length close /\
    forall t : nat, (t < length close)%nat ->
      F64.is_zero (nth t macd NaN) = true /\
      F64.is_zero (nth t sig NaN) = true /\
      F64.is_zero (nth t hist NaN) = true.
Proof.
  intros Hf Hs Hg Hfin Hc.
  unfold calculate_macd.
  rewrite (ewm_mean_ok close fast), (ewm_mean_ok close slow) by lia.
  cbn [bind]. rewrite ewm_mean_ok by lia. cbn [bind].
  match goal with
  | |- context [Pd.ssub (Pd.ewm_run ?a ?st close) (Pd.ewm_run ?b ?st close)] =>
      set (ef := Pd.ewm_run a st close); set (es := Pd.ewm_run b st close)
  end.
  set (macd := Pd.ssub ef es).
  match goal with
  | |- context [Pd.ewm_run ?a ?st macd] => set (sg := Pd.ewm_run a st macd)
  end.
  assert (Hnan : F64.is_nan c = false) by now apply F64Facts.is_finite_not_nan.
  assert (Lef : length ef = length close) by apply length_ewm_run.
  assert (Les : length es = length close) by apply length_ewm_run.
  assert (Lm : length macd = length close)
    by (unfold macd, Pd.ssub; rewrite length_align; lia).
  assert (Lsg : length sg = length close)
    by (unfold sg; now rewrite length_ewm_run).
  assert (Hef : forall y, In y ef -> y = c)
    by (apply ewm_run_const; [assumption | assumption | now left]).
  assert (Hes : forall y, In y es -> y = c)
    by (apply ewm_run_const; [assumption | assumption | now left]).
  pose proof (F64Facts.sub_diag_zero c Hfin) as Hz.
  assert (Hm : forall y, In y macd -> y = F64.sub c c).
  { intros y Hy. apply (In_nth _ _ NaN) in Hy as [t [Ht <-]].
    unfold macd, Pd.ssub. rewrite nth_align by lia.
    now rewrite (nth_const ef c), (nth_const es c) by (assumption || lia). }
  assert (Hsg : forall y, In y sg -> y = F64.sub c c).
  { apply ewm_run_const; [now apply F64More.is_zero_not_nan | assumption |
                          now left]. }
  exists macd, sg, (Pd.ssub macd sg).
  split; [reflexivity |]. split; [assumption |]. split; [assumption |].
  split; [unfold Pd.ssub; rewrite length_align; lia |].
  intros t Ht.
  assert (Em : nth t macd NaN = F64.sub c c) by (apply nth_const; [assumption | lia]).
  assert (Es : nth t sg NaN = F64.sub c c) by (apply nth_const; [assumption | lia]).
  split; [now rewrite Em |]. split; [now rewrite Es |].
  unfold Pd.ssub. rewrite nth_align by lia. rewrite Em, Es.
  apply F64Facts.sub_diag_zero. now apply F64Facts.is_zero_finite.
Qed.

Lemma macd_zero_on_constant_prices_witness :
  F64.is_finite (F64.of_Z 7) = true /\
  exists macd sig hist,
    calculate_macd flat4 12 26 9 = Ok (macd, sig, hist) /\
    length macd = length flat4 /\ length sig = length flat4 /\
    length hist = length flat4 /\
    forall t : nat, (t < length flat4)%nat ->
      F64.is_zero (nth t macd NaN) = true /\
      F64.is_zero (nth t sig NaN) = true /\
      F64.is_zero (nth t hist NaN) = true.
Proof.
  split; [reflexivity |].
  apply (macd_zero_on_constant_prices flat4 12 26 9 (F64.of_Z 7));
    try lia; try reflexivity.
  intros x Hx. simpl in Hx.
  destruct Hx as [<- | [<- | [<- | [<- | []]]]]; reflexivity.
Defined.

(** X8.  Momentum and rate of change compare the close of a row with the close
    [period] rows earlier: both are undefined on the first [period] rows,
    and from then on momentum is the difference of the two closes and the
    rate of change that difference over the earlier close, times 100. *)
Theorem momentum_and_roc_look_back (close : Series) (period : Z) (t : nat) :
  0 <= period -> (t < length close)%nat ->
  exists mom roc,
    calculate_momentum close period = Ok mom /\
    calculate_roc close period = Ok roc /\
    length mom = length close /\ length roc = length close /\
    (Z.of_nat t < period -> nth t mom NaN = NaN /\ nth t roc NaN = NaN) /\
    (period <= Z.of_nat t ->
       let earlier := nth (t - Z.to_nat period) close NaN in
       nth t mom NaN = F64.sub (nth t close NaN) earlier /\
       nth t roc NaN =
         F64.mul (F64.div (F64.sub (nth t close NaN) earlier) earlier)
                 (F64.of_Z 100)).
Proof.
  intros Hp Ht.
  exists (Pd.ssub close (Pd.shift close period)),
    (Pd.mul_scalar
       (Pd.sdiv (Pd.ssub close (Pd.shift close period)) (Pd.shift close period))
       (F64.of_Z 100)).
  split; [reflexivity |]. split; [reflexivity |].
  assert (Lm : length (Pd.ssub close (Pd.shift close period)) = length close)
    by (unfold Pd.ssub; rewrite length_align, length_shift; lia).
  split; [assumption |].
  split.
  { unfold Pd.mul_scalar, Pd.sdiv.
    rewrite length_map, length_align, Lm, length_shift. lia. }
  assert (Em : nth t (Pd.ssub close (Pd.shift close period)) NaN =
               F64.sub (nth t close NaN) (Pd.at_ close (Z.of_nat t - period))).
  { unfold Pd.ssub. rewrite nth_align by (rewrite length_shift; lia).
    now rewrite nth_shift. }
  assert (Er : nth t (Pd.mul_scalar
                 (Pd.sdiv (Pd.ssub close (Pd.shift close period))
                          (Pd.shift close period)) (F64.of_Z 100)) NaN =
               F64.mul (F64.div (F64.sub (nth t close NaN)
                                   (Pd.at_ close (Z.of_nat t - period)))
                          (Pd.at_ close (Z.of_nat t - period))) (F64.of_Z 100)).
  { unfold Pd.mul_scalar, Pd.sdiv.
    rewrite (nth_map_in _ _ NaN) by (rewrite length_align, Lm, length_shift; lia).
    rewrite nth_align by (rewrite Lm, length_shift; lia).
    now rewrite Em, nth_shift. }
  split.
  - intros Hlt. rewrite Em, Er, at_out by lia.
    now rewrite F64Facts.sub_nan_r, F64Facts.div_nan_r, F64Facts.mul_nan_l.
  - intros Hge. cbv zeta. rewrite Em, Er.
    replace (Z.of_nat t - period) with (Z.of_nat (t - Z.to_nat period)) by lia.
    now rewrite at_nat.
Qed.

Lemma momentum_and_roc_look_back_witness :
  0 <= 1 /\ (2 < length rising3)%nat /\
  exists mom roc,
    calculate_momentum rising3 1 = Ok mom /\
    calculate_roc rising3 1 = Ok roc /\
    length mom = length rising3 /\ length roc = length rising3 /\
    (Z.of_nat 2 < 1 -> nth 2 mom NaN = NaN /\ nth 2 roc NaN = NaN) /\
    (1 <= Z.of_nat 2 ->
       let earlier := nth (2 - Z.to_nat 1) rising3 NaN in
       nth 2 mom NaN = F64.sub (nth 2 rising3 NaN) earlier /\
       nth 2 roc NaN =
         F64.mul (F64.div (F64.sub (nth 2 rising3 NaN) earlier) earlier)
                 (F64.of_Z 100)).
Proof.
  split; [lia |]. split; [simpl; lia |].
  apply (momentum_and_roc_look_back rising3 1 2); [lia | simpl; lia].
Defined.

(** ** The cleaned frame *)

Section CleanFrame.

Lemma lookup_map_columns (g : Column -> Column) (name : string)
    (cols : list (string * Column)) :
  lookup name (map (fun kc => (fst kc, g (snd kc))) cols) =
  option_map g (lookup name cols).
Proof.
  induction cols as [| [k c] rest IH]; simpl; [reflexivity |].
  now destruct (String.eqb k name).
Qed.

Lemma filter_seq_increasing (p : nat -> bool) (n a j k : nat) :
  (j < k < length (filter p (seq a n)))%nat ->
  (nth j (filter p (seq a n)) 0 < nth k (filter p (seq a n)) 0)%nat.
Proof.
  revert a j k. induction n as [| n IH]; intros a j k Hjk; simpl in *; [lia |].
  destruct (p a); [| now apply IH].
  simpl in Hjk. destruct k as [| k]; [lia |]. cbn [nth].
  destruct j as [| j].
  - assert (Hin : In (nth k (filter p (seq (S a) n)) 0%nat) (filter p (seq (S a) n)))
      by (apply nth_In; lia).
    apply filter_In in Hin as [Hin _]. apply in_seq in Hin. lia.
  - apply IH. lia.
Qed.

Lemma row_complete (df : DataFrame) (name : string) (v : Series) (i : nat) :
  getitem df name = Ok (FloatCol v) -> row_has_na df i = false ->
  F64.is_nan (nth i v NaN) = false.
Proof.
  intros Hg Hr. destruct (F64.is_nan (nth i v NaN)) eqn:E; [| reflexivity].
  rewrite (row_has_na_intro df name v i Hg E) in Hr. discriminate.
Qed.

Lemma getitem_dropna (df : DataFrame) (name : string) :
  getitem (dropna df) name =
  match getitem df name with
  | Ok c => Ok (take_rows (kept_rows df) c)
  | Raise e => Raise e
  end.
Proof.
  unfold getitem, dropna. cbn [columns].
  rewrite lookup_map_columns. now destruct (lookup name (columns df)).
Qed.

End CleanFrame.

(** X9.  What [process_single_file] hands to [to_csv]: it fails exactly when a
    feature stage fails; otherwise the output has the columns of the
    feature frame in the same order, its rows are the rows of that frame
    with no missing value in any column, each copied unchanged and in the
    original order, and so no float column of the output holds a missing
    value. *)
Theorem cleaned_frame_is_complete_rows `{E : Externals} (df : DataFrame) :
  match feature_frame df with
  | Raise e => process_single_file df = Raise e
  | Ok f =>
      exists out rows,
        process_single_file df = Ok out /\
        nrows out = length rows /\ (length rows <= nrows f)%nat /\
        map fst (columns out) = map fst (columns f) /\
        (forall i : nat, In i rows <-> (i < nrows f)%nat /\ row_has_na f i = false) /\
        (forall j k : nat, (j < k < length rows)%nat ->
           (nth j rows 0 < nth k rows 0)%nat) /\
        (forall name c, getitem f name = Ok c ->
           getitem out name = Ok (take_rows rows c)) /\
        (forall name v, getitem out name = Ok (FloatCol v) ->
           length v = nrows out /\ forall x, In x v -> F64.is_nan x = false)
  end.
Proof.
  rewrite process_single_file_eq.
  destruct (feature_frame df) as [f | e]; [| reflexivity]. cbn [bind].
  exists (dropna f), (kept_rows f).
  split; [reflexivity |]. split; [reflexivity |].
  split.
  { unfold kept_rows.
    pose proof (filter_length_le (fun i => negb (row_has_na f i)) (seq 0 (nrows f))) as Hl.
    now rewrite length_seq in Hl. }
  split.
  { unfold dropna. cbn [columns]. rewrite map_map. reflexivity. }
  split; [apply kept_rows_spec |].
  split; [intros j k Hjk; now apply filter_seq_increasing |].
  split.
  { intros name c Hg. now rewrite getitem_dropna, Hg. }
  intros name v Hg. rewrite getitem_dropna in Hg.
  destruct (getitem f name) as [c |] eqn:Hc; [| discriminate].
  destruct c as [v0 | | |]; try discriminate.
  injection Hg as <-. split; [now rewrite length_map |].
  intros x Hx. apply in_map_iff in Hx as [i [<- Hi]].
  apply kept_rows_spec in Hi as [_ Hi].
  now apply (row_complete f name v0 i).
Qed.

(** ** The feature frame in closed form *)

Section ClosedForm.

Context `{E : Externals}.

(** The column list reads its guard only at the twelve window lengths. *)
Lemma feature_columns_ext (g g' : Z -> bool) (ts : list Z)
    (open high low close volume : Series) :
  (forall p, In p guarded_periods -> g p = g' p) ->
  feature_columns g ts open high low close volume =
  feature_columns g' ts open high low close volume.
Proof.
  intros Hg.
  assert (E1 : g 1 = g' 1) by (apply Hg; simpl; tauto).
  assert (E2 : g 2 = g' 2) by (apply Hg; simpl; tauto).
  assert (E3 : g 3 = g' 3) by (apply Hg; simpl; tauto).
  assert (E5 : g 5 = g' 5) by (apply Hg; simpl; tauto).
  assert (E7 : g 7 = g' 7) by (apply Hg; simpl; tauto).
  assert (E10 : g 10 = g' 10) by (apply Hg; simpl; tauto).
  assert (E14 : g 14 = g' 14) by (apply Hg; simpl; tauto).
  assert (E20 : g 20 = g' 20) by (apply Hg; simpl; tauto).
  assert (E21 : g 21 = g' 21) by (apply Hg; simpl; tauto).
  assert (E50 : g 50 = g' 50) by (apply Hg; simpl; tauto).
  assert (E100 : g 100 = g' 100) by (apply Hg; simpl; tauto).
  assert (E200 : g 200 = g' 200) by (apply Hg; simpl; tauto).
  unfold feature_columns, indicator_columns, lag_columns.
  cbv [flat_map MA_PERIODS LAG_PERIODS].
  now rewrite E1, E2, E3, E5, E7, E10, E14, E20, E21, E50, E100, E200.
Qed.

End ClosedForm.

Ltac same_guard :=
  let p := fresh "p" in
  let Hp := fresh "Hp" in
  intros p Hp; cbv [guarded_periods In] in Hp;
  repeat (destruct Hp as [<- | Hp]); [.. | contradiction];
  match goal with
  | |- (?c <? ?n) = _ =>
      destruct (Z.ltb_spec c n); [symmetry; apply Z.ltb_lt | symmetry; apply Z.ltb_ge];
      lia
  end.

Ltac closed_form_case K :=
  match goal with
  | |- feature_frame (bars_frame ?date ?open ?high ?low ?close ?volume) =
       Ok (mkDataFrame _ (feature_columns ?g ?ts _ _ _ _ _)) =>
      rewrite (feature_columns_ext g (fun p => p <? K) ts open high low close volume)
        by same_guard;
      ev (Z.of_nat (length close))
  end.

(** On a table of bars whose dates parse and whose open and close columns
    have one length, the five stages return the frame of [feature_columns],
    whatever the number of rows. *)
Lemma feature_frame_eq `{E : Externals} (date : list string)
    (open high low close volume : Series) (ts : list Z) :
  parse_dates date = Ok ts ->
  length open = length close ->
  feature_frame (bars_frame date open high low close volume) =
  Ok (mkDataFrame (length close)
        (feature_columns (fun p => p <? Z.of_nat (length close))
           ts open high low close volume)).
Proof.
  intros Hd Ho.
  assert (Hc : Z.of_nat (length close) <= 1 \/
               Z.of_nat (length close) = 2 \/
               Z.of_nat (length close) = 3 \/
               3 < Z.of_nat (length close) <= 5 \/
               5 < Z.of_nat (length close) <= 7 \/
               7 < Z.of_nat (length close) <= 10 \/
               10 < Z.of_nat (length close) <= 14 \/
               14 < Z.of_nat (length close) <= 20 \/
               Z.of_nat (length close) = 21 \/
               21 < Z.of_nat (length close) <= 50 \/
               50 < Z.of_nat (length close) <= 100 \/
               100 < Z.of_nat (length close) <= 200 \/
               200 < Z.of_nat (length close)) by lia.
  destruct Hc as [Hc | [Hc | [Hc | [Hc | [Hc | [Hc | [Hc | [Hc | [Hc | [Hc |
                 [Hc | [Hc | Hc]]]]]]]]]]]].
  - closed_form_case 1.
  - closed_form_case 2.
  - closed_form_case 3.
  - closed_form_case 5.
  - closed_form_case 7.
  - closed_form_case 10.
  - closed_form_case 14.
  - closed_form_case 20.
  - closed_form_case 21.
  - closed_form_case 50.
  - closed_form_case 100.
  - closed_form_case 200.
  - closed_form_case 201.
Qed.
(** ** No feature reads a later row *)

Section Agreement.

Lemma nth_of_nth_error {A : Type} (l : list A) (i : nat) (d : A) :
  nth i l d = match nth_error l i with Some x => x | None => d end.
Proof.
  destruct (nth_error l i) eqn:E.
  - now apply nth_error_nth.
  - now apply nth_error_nth_None.
Qed.

Lemma agree_nth_error {A : Type} (t : nat) (a b : list A) :
  agree t a b <-> forall i : nat, (i <= t)%nat -> nth_error a i = nth_error b i.
Proof.
  unfold agree. split.
  - intros H i Hi.
    pose proof (nth_error_firstn (S t) a i) as Ha.
    pose proof (nth_error_firstn (S t) b i) as Hb.
    destruct (Nat.ltb_spec i (S t)); [| lia]. now rewrite <- Ha, <- Hb, H.
  - intros H. apply nth_error_ext. intros i.
    rewrite !nth_error_firstn.
    destruct (Nat.ltb_spec i (S t)); [apply H; lia | reflexivity].
Qed.

Lemma agree_refl {A : Type} (t : nat) (a : list A) : agree t a a.
Proof. reflexivity. Qed.

Lemma agree_nth {A : Type} (t i : nat) (a b : list A) (d : A) :
  agree t a b -> (i <= t)%nat -> nth i a d = nth i b d.
Proof.
  intros H Hi. rewrite !nth_of_nth_error.
  now rewrite (proj1 (agree_nth_error t a b) H i Hi).
Qed.

Lemma agree_length {A : Type} (t i : nat) (a b : list A) :
  agree t a b -> (i <= t)%nat -> (i <? length a)%nat = (i <? length b)%nat.
Proof.
  intros H Hi. pose proof (proj1 (agree_nth_error t a b) H i Hi) as E.
  destruct (Nat.ltb_spec i (length a)) as [Ha | Ha];
    destruct (Nat.ltb_spec i (length b)) as [Hb | Hb]; try reflexivity.
  - apply nth_error_None in Hb. rewrite <- E in Hb.
    apply nth_error_None in Hb. lia.
  - apply nth_error_None in Ha. rewrite E in Ha.
    apply nth_error_None in Ha. lia.
Qed.

Lemma agree_at (t : nat) (z : Z) (a b : Series) :
  agree t a b -> z <= Z.of_nat t -> Pd.at_ a z = Pd.at_ b z.
Proof.
  intros H Hz. unfold Pd.at_. destruct (Z.ltb_spec z 0); [reflexivity |].
  apply (agree_nth t); [assumption | lia].
Qed.

Lemma agree_map {A B : Type} (f : A -> B) (t : nat) (a b : list A) :
  agree t a b -> agree t (map f a) (map f b).
Proof. unfold agree. intros H. now rewrite !firstn_map, H. Qed.

Lemma agree_combine {A B : Type} (t : nat) (a a' : list A) (b b' : list B) :
  agree t a a' -> agree t b b' -> agree t (combine a b) (combine a' b').
Proof. unfold agree. intros Ha Hb. now rewrite !combine_firstn, Ha, Hb. Qed.

Lemma nth_error_index_map {A : Type} (f : Z -> A) (n i : nat) :
  nth_error (map f (Pd.index n)) i =
  if (i <? n)%nat then Some (f (Z.of_nat i)) else None.
Proof.
  unfold Pd.index. rewrite map_map, nth_error_map, nth_error_seq.
  now destruct (i <? n)%nat.
Qed.

Lemma agree_shift (t : nat) (k : Z) (s s' : Series) :
  0 <= k -> agree t s s' -> agree t (Pd.shift s k) (Pd.shift s' k).
Proof.
  intros Hk H. apply agree_nth_error. intros i Hi.
  unfold Pd.shift. rewrite !nth_error_index_map.
  rewrite (agree_length t i s s' H Hi).
  destruct (i <? length s')%nat; [| reflexivity].
  f_equal. apply (agree_at t); [assumption | lia].
Qed.

Lemma ltb_max (i x y : nat) :
  (i <? Nat.max x y)%nat = (i <? x)%nat || (i <? y)%nat.
Proof.
  destruct (Nat.ltb_spec i x), (Nat.ltb_spec i y),
    (Nat.ltb_spec i (Nat.max x y)); try reflexivity; lia.
Qed.

Lemma agree_align (f : float -> float -> float) (t : nat) (a a' b b' : Series) :
  agree t a a' -> agree t b b' -> agree t (Pd.align f a b) (Pd.align f a' b').
Proof.
  intros Ha Hb. apply agree_nth_error. intros i Hi.
  unfold Pd.align. rewrite !nth_error_index_map.
  pose proof (agree_length t i a a' Ha Hi) as La.
  pose proof (agree_length t i b b' Hb Hi) as Lb.
  rewrite !ltb_max, La, Lb.
  destruct ((i <? length a')%nat || (i <? length b')%nat); [| reflexivity].
  f_equal. f_equal; apply (agree_at t); (assumption || lia).
Qed.

Lemma agree_le {A : Type} (t i : nat) (a b : list A) :
  agree t a b -> (i <= t)%nat -> agree i a b.
Proof.
  intros H Hi. apply agree_nth_error. intros j Hj.
  apply (proj1 (agree_nth_error t a b) H). lia.
Qed.

Lemma agree_window (i n : nat) (s s' : Series) :
  agree i s s' -> (n <= i + 1)%nat -> Pd.window s n i = Pd.window s' n i.
Proof.
  intros H Hn. unfold Pd.window. apply nth_error_ext. intros j.
  rewrite !nth_error_firstn, !nth_error_skipn.
  destruct (Nat.ltb_spec j n); [| reflexivity].
  apply (proj1 (agree_nth_error i s s') H). lia.
Qed.

Lemma agree_roll (agg : list float -> float) (t n : nat) (s s' : Series) :
  agree t s s' -> agree t (Pd.roll agg s n) (Pd.roll agg s' n).
Proof.
  intros H. apply agree_nth_error. intros i Hi.
  unfold Pd.roll. rewrite !nth_error_map, !nth_error_seq.
  rewrite (agree_length t i s s' H Hi).
  destruct (i <? length s')%nat; [| reflexivity].
  cbn [option_map Nat.add]. f_equal.
  destruct (Nat.leb_spec n (i + 1)) as [Hn | Hn].
  - now rewrite (agree_window i n s s' (agree_le t i s s' H Hi) Hn).
  - now rewrite !andb_false_r.
Qed.

Lemma firstn_ewm_run (alpha : float) (k : nat) (vals : list float)
    (st : float * float) :
  firstn k (Pd.ewm_run alpha st vals) = Pd.ewm_run alpha st (firstn k vals).
Proof.
  revert st vals. induction k as [| k IH]; intros st vals; [reflexivity |].
  destruct vals as [| v vals]; [reflexivity |].
  cbn [Pd.ewm_run firstn]. cbv zeta. now rewrite IH.
Qed.

Lemma agree_ewm_run (alpha : float) (st : float * float) (t : nat)
    (s s' : Series) :
  agree t s s' -> agree t (Pd.ewm_run alpha st s) (Pd.ewm_run alpha st s').
Proof. unfold agree. intros H. now rewrite !firstn_ewm_run, H. Qed.

Lemma parse_dates_firstn `{E : Externals} (k : nat) (l : list string) (ts : list Z) :
  parse_dates l = Ok ts -> parse_dates (firstn k l) = Ok (firstn k ts).
Proof.
  revert l ts. induction k as [| k IH]; intros l ts H; [reflexivity |].
  destruct l as [| x l]; cbn [parse_dates firstn] in *.
  - now injection H as <-.
  - destruct (to_datetime x) as [d |]; [| discriminate].
    destruct (parse_dates l) as [r |] eqn:Er; [| discriminate].
    cbn [bind] in H. injection H as <-.
    rewrite (IH l r Er). reflexivity.
Qed.

Lemma agree_parse_dates `{E : Externals} (t : nat) (l l' : list string)
    (ts ts' : list Z) :
  parse_dates l = Ok ts -> parse_dates l' = Ok ts' ->
  agree t l l' -> agree t ts ts'.
Proof.
  unfold agree. intros H H' Ha.
  apply (parse_dates_firstn (S t)) in H, H'.
  rewrite Ha in H. congruence.
Qed.

Lemma Forall2_map_in {A B : Type} (R : B -> B -> Prop) (f f' : A -> B)
    (l : list A) :
  (forall x, In x l -> R (f x) (f' x)) -> Forall2 R (map f l) (map f' l).
Proof.
  induction l as [| a l IH]; intros H; simpl; constructor.
  - apply H. now left.
  - apply IH. intros x Hx. apply H. now right.
Qed.

Lemma Forall2_flat_map_in {A B : Type} (R : B -> B -> Prop)
    (f f' : A -> list B) (l : list A) :
  (forall x, In x l -> Forall2 R (f x) (f' x)) ->
  Forall2 R (flat_map f l) (flat_map f' l).
Proof.
  induction l as [| a l IH]; intros H; simpl; [constructor |].
  apply Forall2_app.
  - apply H. now left.
  - apply IH. intros x Hx. apply H. now right.
Qed.

Lemma col_rel_lookup (t : nat) (name : string) (l l' : list (string * Column))
    (c c' : Column) :
  Forall2 (col_rel t) l l' -> ~ In name target_names ->
  lookup name l = Some c -> lookup name l' = Some c' -> col_agree t c c'.
Proof.
  intros HF Hn. induction HF as [| [k c0] [k' c0'] l l' [Hk Hc] HF IH];
    simpl; [discriminate |].
  cbn [fst snd] in Hk, Hc. subst k'.
  destruct (String.eqb_spec k name) as [-> | Hne].
  - intros [= <-] [= <-]. destruct Hc as [Hc | Hc]; [contradiction | exact Hc].
  - exact IH.
Qed.

Lemma col_rel_names (t : nat) (l l' : list (string * Column)) :
  Forall2 (col_rel t) l l' -> map fst l = map fst l'.
Proof.
  induction 1 as [| kc kc' l l' [Hk _] _ IH]; simpl; [reflexivity |].
  now rewrite Hk, IH.
Qed.

End Agreement.

Ltac causal :=
  lazymatch goal with
  | H : agree ?t ?a ?b |- agree ?t ?a ?b => exact H
  | |- agree _ ?a ?a => reflexivity
  | |- agree _ (map _ _) (map _ _) => apply agree_map; causal
  | |- agree _ (combine _ _) (combine _ _) => apply agree_combine; causal
  | |- agree _ (Pd.align _ _ _) (Pd.align _ _ _) => apply agree_align; causal
  | |- agree _ (Pd.shift _ _) (Pd.shift _ _) => apply agree_shift; [lia | causal]
  | |- agree _ (Pd.roll _ _ _) (Pd.roll _ _ _) => apply agree_roll; causal
  | |- agree _ (Pd.ewm_run _ _ _) (Pd.ewm_run _ _ _) => apply agree_ewm_run; causal
  | |- agree _ _ _ =>
      progress cbv beta delta
        [Pd.sadd Pd.ssub Pd.smul Pd.sdiv Pd.sub_scalar Pd.rsub_scalar
         Pd.radd_scalar Pd.mul_scalar Pd.rmul_scalar Pd.div_scalar
         Pd.rdiv_scalar Pd.neg Pd.sabs Pd.gt_scalar Pd.lt_scalar Pd.diff
         Pd.pct_change Pd.where_ Pd.astype_int Pd.np_where Pd.row_max2
         Pd.row_min2 Pd.row_max3 gains losses rsi_series macd_series ema above
         true_range typical_price cyclical];
      causal
  end.

Ltac col :=
  split; [reflexivity |];
  first [ right; cbv beta iota delta [col_agree snd]; causal
        | left; cbv [fst target_names In]; tauto ].

Ltac cols :=
  lazymatch goal with
  | |- Forall2 _ (_ ++ _) (_ ++ _) => apply Forall2_app; cols
  | |- Forall2 _ (if ?b then _ else _) (if ?b then _ else _) => destruct b; cols
  | |- Forall2 _ [] [] => constructor
  | |- Forall2 _ (_ :: _) (_ :: _) => constructor; [col | cols]
  | |- Forall2 _ (map _ ?l) (map _ ?l) =>
      let p := fresh "p" in
      let Hp := fresh "Hp" in
      apply Forall2_map_in; intros p Hp; cbv [In] in Hp;
      repeat (destruct Hp as [<- | Hp]); [.. | contradiction]; col
  | |- Forall2 _ (flat_map _ ?l) (flat_map _ ?l) =>
      let p := fresh "p" in
      let Hp := fresh "Hp" in
      apply Forall2_flat_map_in; intros p Hp;
      cbv [In MA_PERIODS LAG_PERIODS] in Hp;
      repeat (destruct Hp as [<- | Hp]); [.. | contradiction];
      cbv beta; cols
  end.

Lemma feature_columns_agree `{E : Externals} (g : Z -> bool) (t : nat)
    (ts ts' : list Z) (open open' high high' low low' close close'
     volume volume' : Series) :
  agree t ts ts' -> agree t open open' -> agree t high high' ->
  agree t low low' -> agree t close close' -> agree t volume volume' ->
  Forall2 (col_rel t)
    (feature_columns g ts open high low close volume)
    (feature_columns g ts' open' high' low' close' volume').
Proof.
  intros Hts Ho Hh Hl Hc Hv.
  unfold feature_columns, input_columns, price_columns, indicator_columns,
    lag_columns, time_columns, target_columns.
  cbv zeta. cols.
Qed.

(** X10.  No look-ahead.  Take two tables of bars with the same number of
    rows that hold the same rows 0 .. t and differ, if at all, only later.
    Both pass the five stages, the two feature frames have the same
    columns, and every column other than the four targets holds the same
    values on rows 0 .. t: no feature of a row reads a later row. *)
Theorem features_read_no_later_row `{E : Externals} (t : nat)
    (date date' : list string)
    (open open' high high' low low' close close' volume volume' : Series)
    (ts ts' : list Z) :
  parse_dates date = Ok ts -> parse_dates date' = Ok ts' ->
  length open = length close -> length open' = length close' ->
  length close = length close' ->
  agree t date date' -> agree t open open' -> agree t high high' ->
  agree t low low' -> agree t close close' -> agree t volume volume' ->
  exists f f',
    feature_frame (bars_frame date open high low close volume) = Ok f /\
    feature_frame (bars_frame date' open' high' low' close' volume') = Ok f' /\
    map fst (columns f) = map fst (columns f') /\
    forall name c c',
      ~ In name target_names ->
      getitem f name = Ok c -> getitem f' name = Ok c' -> col_agree t c c'.
Proof.
  intros Hd Hd' Ho Ho' Hn Ad Ao Ah Al Ac Av.
  pose proof (agree_parse_dates t date date' ts ts' Hd Hd' Ad) as Ats.
  pose proof (feature_columns_agree (fun p => p <? Z.of_nat (length close)) t
                ts ts' open open' high high' low low' close close'
                volume volume' Ats Ao Ah Al Ac Av) as HF.
  eexists. eexists.
  split; [exact (feature_frame_eq date open high low close volume ts Hd Ho) |].
  split; [exact (feature_frame_eq date' open' high' low' close' volume' ts' Hd' Ho') |].
  rewrite <- Hn. cbn [columns].
  split; [now apply (col_rel_names t) |].
  intros name c c' Hname Hg Hg'. unfold getitem in Hg, Hg'. cbn [columns] in Hg, Hg'.
  destruct (lookup name (feature_columns _ ts open high low close volume))
    as [c0 |] eqn:L; [| discriminate].
  destruct (lookup name (feature_columns _ ts' open' high' low' close' volume'))
    as [c0' |] eqn:L'; [| discriminate].
  injection Hg as <-. injection Hg' as <-.
  exact (col_rel_lookup t name _ _ c0 c0' HF Hname L L').
Qed.

Lemma features_read_no_later_row_witness :
  exists f f',
    feature_frame bars3 = Ok f /\
    feature_frame bars3' = Ok f' /\
    map fst (columns f) = map fst (columns f') /\
    forall name c c',
      ~ In name target_names ->
      getitem f name = Ok c -> getitem f' name = Ok c' -> col_agree 1 c c'.
Proof.
  apply (features_read_no_later_row 1
           (day_numbers 3) (day_numbers 3)
           (prices [1; 2; 3]) (prices [1; 2; 5])
           (prices [2; 3; 4]) (prices [2; 3; 8])
           (prices [1; 1; 2]) (prices [1; 1; 4])
           (prices [2; 2; 3]) (prices [2; 2; 7])
           (prices [9; 9; 9]) (prices [9; 9; 0])
           (example_timestamps 3) (example_timestamps 3));
    reflexivity.
Defined.

(** ** Which windowed columns a table gets *)

Lemma guard_representative (N : Z) :
  exists K, In K [1; 2; 3; 5; 7; 10; 14; 20; 21; 50; 100; 200; 201] /\
            forall p, In p guarded_periods -> (p <? N) = (p <? K).
Proof.
  assert (Hc : N <= 1 \/ N = 2 \/ N = 3 \/ 3 < N <= 5 \/ 5 < N <= 7 \/
               7 < N <= 10 \/ 10 < N <= 14 \/ 14 < N <= 20 \/ N = 21 \/
               21 < N <= 50 \/ 50 < N <= 100 \/ 100 < N <= 200 \/ 200 < N)
    by lia.
  destruct Hc as [Hc | [Hc | [Hc | [Hc | [Hc | [Hc | [Hc | [Hc | [Hc | [Hc |
                 [Hc | [Hc | Hc]]]]]]]]]]]];
    [exists 1 | exists 2 | exists 3 | exists 5 | exists 7 | exists 10 |
     exists 14 | exists 20 | exists 21 | exists 50 | exists 100 | exists 200 |
     exists 201];
    (split; [cbv [In]; tauto | same_guard]).
Qed.

(** The frame of the five stages on a table whose row count [n] may be
    anything, as the frame of one of thirteen fixed row counts. *)
Lemma feature_frame_representative `{E : Externals} (date : list string)
    (open high low close volume : Series) (ts : list Z) :
  parse_dates date = Ok ts ->
  length open = length close ->
  exists K,
    In K [1; 2; 3; 5; 7; 10; 14; 20; 21; 50; 100; 200; 201] /\
    (forall p, In p guarded_periods ->
       (p <? Z.of_nat (length close)) = (p <? K)) /\
    feature_frame (bars_frame date open high low close volume) =
    Ok (mkDataFrame (length close)
          (feature_columns (fun p => p <? K) ts open high low close volume)).
Proof.
  intros Hd Ho.
  destruct (guard_representative (Z.of_nat (length close))) as (K & HK & Hg).
  exists K. split; [assumption |]. split; [assumption |].
  rewrite (feature_frame_eq date open high low close volume ts Hd Ho).
  now rewrite (feature_columns_ext _ (fun p => p <? K) ts open high low close volume Hg).
Qed.

Ltac each_period Hp :=
  cbv [In MA_PERIODS LAG_PERIODS] in Hp;
  repeat (destruct Hp as [<- | Hp]); [.. | contradiction].

Ltac each_row_count HK :=
  cbv [In] in HK;
  repeat (destruct HK as [<- | HK]); [.. | contradiction].

Ltac by_guard Hg :=
  repeat (rewrite Hg by (cbv [guarded_periods In]; tauto)).

Ltac count_columns :=
  cbv [length feature_columns input_columns price_columns indicator_columns
       lag_columns time_columns target_columns app map flat_map
       MA_PERIODS LAG_PERIODS Z.ltb Z.compare Pos.compare Pos.compare_cont andb].

(** X11.  The pipeline is total on bars, and its schema depends on the row
    count alone.  On every table of bars whose dates parse (an empty table
    included) the five stages and [process_single_file] return; a windowed
    column (moving averages, lags, cumulative returns, rolling statistics)
    is in the frame exactly when the table has more rows than its window,
    a crossover column exactly when both of its averages are; the frame
    has between 66 and 116 columns, and 116 exactly when the table has more
    than 200 rows. *)
Theorem pipeline_schema_by_row_count `{E : Externals} (date : list string)
    (open high low close volume : Series) (ts : list Z) :
  parse_dates date = Ok ts ->
  length open = length close ->
  let n := Z.of_nat (length close) in
  exists f,
    feature_frame (bars_frame date open high low close volume) = Ok f /\
    process_single_file (bars_frame date open high low close volume) =
      Ok (dropna f) /\
    nrows f = length close /\
    (forall p, In p MA_PERIODS ->
       has_column f (fname "SMA_" p) = (p <? n) /\
       has_column f (fname "EMA_" p) = (p <? n) /\
       has_column f (fname "Close_vs_SMA_" p) = (p <? n)) /\
    (forall p, In p LAG_PERIODS ->
       has_column f (fname "Close_lag_" p) = (p <? n) /\
       has_column f (fname "Return_lag_" p) = (p <? n)) /\
    (forall p, In p [3; 5; 10; 20] ->
       has_column f (fname "Cumulative_Return_" p) = (p <? n)) /\
    (forall p, In p [5; 10; 20] ->
       has_column f (fname "Rolling_Mean_" p) = (p <? n) /\
       has_column f (fname "Rolling_Std_" p) = (p <? n) /\
       has_column f (fname "Rolling_Min_" p) = (p <? n) /\
       has_column f (fname "Rolling_Max_" p) = (p <? n)) /\
    has_column f "MA_7_21_crossover" = (21 <? n) /\
    has_column f "MA_50_200_crossover" = (200 <? n) /\
    (66 <= length (columns f) <= 116)%nat /\
    (length (columns f) = 116%nat <-> 200 < n).
Proof.
  intros Hd Ho n.
  destruct (feature_frame_representative date open high low close volume ts Hd Ho)
    as (K & HK & Hg & Hf).
  eexists. split; [exact Hf |].
  split; [rewrite process_single_file_eq, Hf; reflexivity |].
  split; [reflexivity |].
  subst n.
  split; [intros p Hp; each_period Hp; by_guard Hg; each_row_count HK;
          repeat split; reflexivity |].
  split; [intros p Hp; each_period Hp; by_guard Hg; each_row_count HK;
          repeat split; reflexivity |].
  split; [intros p Hp; each_period Hp; by_guard Hg; each_row_count HK;
          repeat split; reflexivity |].
  split; [intros p Hp; each_period Hp; by_guard Hg; each_row_count HK;
          repeat split; reflexivity |].
  split; [by_guard Hg; each_row_count HK; reflexivity |].
  split; [by_guard Hg; each_row_count HK; reflexivity |].
  assert (H200 : (200 <? Z.of_nat (length close)) = (200 <? K))
    by (apply Hg; cbv [guarded_periods In]; tauto).
  cbn [columns].
  split.
  - each_row_count HK; count_columns; lia.
  - destruct (Z.ltb_spec 200 (Z.of_nat (length close))) as [Hn | Hn];
      symmetry in H200.
    + split; [intros _; assumption |]. intros _.
      each_row_count HK; try discriminate H200. reflexivity.
    + split; [| lia]. intros Hlen. exfalso.
      revert Hlen.
      each_row_count HK; try discriminate H200; count_columns; discriminate.
Qed.

Lemma pipeline_schema_by_row_count_witness :
  exists f,
    feature_frame bars3 = Ok f /\
    process_single_file bars3 = Ok (dropna f) /\
    nrows f = 3%nat /\
    has_column f "Close_lag_2" = true /\
    has_column f "Close_lag_3" = false.
Proof.
  assert (Hd : parse_dates (day_numbers 3) = Ok (example_timestamps 3))
    by reflexivity.
  destruct (pipeline_schema_by_row_count
              (day_numbers 3) (prices [1; 2; 3]) (prices [2; 3; 4])
              (prices [1; 1; 2]) (prices [2; 2; 3]) (prices [9; 9; 9])
              (example_timestamps 3) Hd eq_refl)
    as (f & Hf & Hp & Hn & _ & Hlag & _).
  exists f. split; [exact Hf |]. split; [exact Hp |]. split; [exact Hn |].
  split.
  - exact (proj1 (Hlag 2 (or_intror (or_introl eq_refl)))).
  - exact (proj1 (Hlag 3 (or_intror (or_intror (or_introl eq_refl))))).
Defined.

(** ** What the lag and crossover columns hold *)

(** X12.  Lagged columns.  For a configured lag L below the row count, the
    column Close_lag_L holds at row t the close of row t - L and
    Return_lag_L the one-row return of row t - L; the first L rows of the
    former and the first L + 1 rows of the latter are undefined. *)
Theorem lag_columns_hold_earlier_rows `{E : Externals} (date : list string)
    (open high low close volume : Series) (ts : list Z) (L : Z) (t : nat) :
  parse_dates date = Ok ts ->
  length open = length close ->
  In L LAG_PERIODS -> L < Z.of_nat (length close) ->
  (t < length close)%nat ->
  exists f cl rl,
    feature_frame (bars_frame date open high low close volume) = Ok f /\
    getitem f (fname "Close_lag_" L) = Ok (FloatCol cl) /\
    getitem f (fname "Return_lag_" L) = Ok (FloatCol rl) /\
    length cl = length close /\ length rl = length close /\
    (Z.of_nat t < L -> nth t cl NaN = NaN) /\
    (Z.of_nat t <= L -> nth t rl NaN = NaN) /\
    (L <= Z.of_nat t -> nth t cl NaN = nth (t - Z.to_nat L) close NaN) /\
    (L < Z.of_nat t ->
       nth t rl NaN =
       F64.sub (F64.div (nth (t - Z.to_nat L) close NaN)
                        (nth (t - Z.to_nat L - 1) close NaN))
               (F64.of_Z 1)).
Proof.
  intros Hd Ho HL Hlt Ht.
  destruct (feature_frame_representative date open high low close volume ts Hd Ho)
    as (K & HK & Hg & Hf).
  assert (H0 : 0 < L) by (each_period HL; lia).
  assert (HgL : (L <? K) = true).
  { rewrite <- Hg by (each_period HL; cbv [guarded_periods In]; tauto).
    apply Z.ltb_lt. lia. }
  eexists. exists (Pd.shift close L), (Pd.shift (Pd.pct_change close 1) L).
  split; [exact Hf |].
  split; [each_period HL; each_row_count HK; try discriminate HgL; reflexivity |].
  split; [each_period HL; each_row_count HK; try discriminate HgL; reflexivity |].
  split; [apply length_shift |].
  split; [now rewrite length_shift, length_pct_change |].
  rewrite nth_shift by assumption.
  rewrite nth_shift by (rewrite length_pct_change; assumption).
  split; [intros Hs; apply at_out; lia |].
  split.
  { intros Hs. destruct (Z.eq_dec (Z.of_nat t) L) as [He | He].
    - replace (Z.of_nat t - L) with (Z.of_nat 0) by lia.
      rewrite at_nat, nth_pct_change by lia.
      rewrite (at_out close) by lia.
      now rewrite F64Facts.div_nan_r, F64Facts.sub_nan_l.
    - apply at_out. lia. }
  split.
  { intros Hs. replace (Z.of_nat t - L) with (Z.of_nat (t - Z.to_nat L)) by lia.
    apply at_nat. }
  intros Hs. replace (Z.of_nat t - L) with (Z.of_nat (t - Z.to_nat L)) by lia.
  rewrite at_nat, nth_pct_change by lia.
  replace (Z.of_nat (t - Z.to_nat L) - 1)
    with (Z.of_nat (t - Z.to_nat L - 1)) by lia.
  now rewrite at_nat.
Qed.

Lemma lag_columns_hold_earlier_rows_witness :
  exists f cl rl,
    feature_frame bars3 = Ok f /\
    getitem f (fname "Close_lag_" 1) = Ok (FloatCol cl) /\
    getitem f (fname "Return_lag_" 1) = Ok (FloatCol rl) /\
    length cl = 3%nat /\ length rl = 3%nat /\
    (Z.of_nat 2 < 1 -> nth 2 cl NaN = NaN) /\
    (Z.of_nat 2 <= 1 -> nth 2 rl NaN = NaN) /\
    (1 <= Z.of_nat 2 -> nth 2 cl NaN = nth (2 - Z.to_nat 1) (prices [2; 2; 3]) NaN) /\
    (1 < Z.of_nat 2 ->
       nth 2 rl NaN =
       F64.sub (F64.div (nth (2 - Z.to_nat 1) (prices [2; 2; 3]) NaN)
                        (nth (2 - Z.to_nat 1 - 1) (prices [2; 2; 3]) NaN))
               (F64.of_Z 1)).
Proof.
  apply (lag_columns_hold_earlier_rows
           (day_numbers 3) (prices [1; 2; 3]) (prices [2; 3; 4])
           (prices [1; 1; 2]) (prices [2; 2; 3]) (prices [9; 9; 9])
           (example_timestamps 3) 1 2);
    [reflexivity | reflexivity | now left | simpl; lia | simpl; lia].
Defined.

Lemma nth_crossover (a b : Series) (t : nat) :
  length a = length b -> (t < length b)%nat ->
  nth t (Pd.np_where (above a b) 1 (-1)) 0 =
  if F64.gtb (nth t a NaN) (nth t b NaN) then 1 else -1.
Proof.
  intros Hl Ht. unfold Pd.np_where, above.
  rewrite (nth_map_in _ _ false)
    by (rewrite length_map, length_combine; lia).
  now rewrite nth_combine_gtb.
Qed.

(** X13.  Crossover flags.  MACD_crossover is 1 where the MACD line is above
    its signal line and -1 everywhere else; on a table of more than 21 rows
    MA_7_21_crossover is 1 where the 7-row average is above the 21-row
    average and -1 elsewhere.  Neither is ever 0 or undefined: on the first
    20 rows, where the 21-row average does not exist yet, the flag is -1. *)
Theorem crossover_flags `{E : Externals} (date : list string)
    (open high low close volume : Series) (ts : list Z) (t : nat) :
  parse_dates date = Ok ts ->
  length open = length close ->
  21 < Z.of_nat (length close) ->
  (t < length close)%nat ->
  exists f macd signal mc s7 s21 xc,
    feature_frame (bars_frame date open high low close volume) = Ok f /\
    getitem f "MACD" = Ok (FloatCol macd) /\
    getitem f "MACD_signal" = Ok (FloatCol signal) /\
    getitem f "MACD_crossover" = Ok (IntCol mc) /\
    getitem f "SMA_7" = Ok (FloatCol s7) /\
    getitem f "SMA_21" = Ok (FloatCol s21) /\
    getitem f "MA_7_21_crossover" = Ok (IntCol xc) /\
    nth t mc 0 = (if F64.gtb (nth t macd NaN) (nth t signal NaN) then 1 else -1) /\
    nth t xc 0 = (if F64.gtb (nth t s7 NaN) (nth t s21 NaN) then 1 else -1) /\
    (Z.of_nat t < 20 -> nth t xc 0 = -1).
Proof.
  intros Hd Ho Hn Ht.
  destruct (feature_frame_representative date open high low close volume ts Hd Ho)
    as (K & HK & Hg & Hf).
  assert (H21 : (21 <? K) = true).
  { rewrite <- Hg by (cbv [guarded_periods In]; tauto). apply Z.ltb_lt. lia. }
  assert (H7 : (7 <? K) = true).
  { rewrite <- Hg by (cbv [guarded_periods In]; tauto). apply Z.ltb_lt. lia. }
  set (macd := macd_series close).
  set (signal := ema macd MACD_SIGNAL).
  set (s7 := Pd.roll Pd.mean close (Z.to_nat 7)).
  set (s21 := Pd.roll Pd.mean close (Z.to_nat 21)).
  assert (Lm : length macd = length close).
  { unfold macd, macd_series, ema, Pd.ssub.
    rewrite length_align, !length_ewm_run. lia. }
  assert (Ls : length signal = length close)
    by (unfold signal, ema; now rewrite length_ewm_run).
  assert (L7 : length s7 = length close) by apply length_roll.
  assert (L21 : length s21 = length close) by apply length_roll.
  assert (Ex : nth t (Pd.np_where (above s7 s21) 1 (-1)) 0 =
               if F64.gtb (nth t s7 NaN) (nth t s21 NaN) then 1 else -1)
    by (apply nth_crossover; lia).
  eexists. exists macd, signal, (Pd.np_where (above macd signal) 1 (-1)),
    s7, s21, (Pd.np_where (above s7 s21) 1 (-1)).
  split; [exact Hf |].
  split; [each_row_count HK; reflexivity |].
  split; [each_row_count HK; reflexivity |].
  split; [each_row_count HK; reflexivity |].
  split; [each_row_count HK; try discriminate H7; reflexivity |].
  split; [each_row_count HK; try discriminate H21; reflexivity |].
  split; [each_row_count HK; try discriminate H21; reflexivity |].
  split; [apply nth_crossover; lia |].
  split; [exact Ex |].
  intros Hw. rewrite Ex. unfold s21.
  rewrite (nth_roll_incomplete Pd.mean close (Z.to_nat 21) t) by lia.
  now rewrite F64Facts.gtb_nan_r.
Qed.

Lemma crossover_flags_witness :
  exists f macd signal mc s7 s21 xc,
    feature_frame (ranging_bars 22) = Ok f /\
    getitem f "MACD" = Ok (FloatCol macd) /\
    getitem f "MACD_signal" = Ok (FloatCol signal) /\
    getitem f "MACD_crossover" = Ok (IntCol mc) /\
    getitem f "SMA_7" = Ok (FloatCol s7) /\
    getitem f "SMA_21" = Ok (FloatCol s21) /\
    getitem f "MA_7_21_crossover" = Ok (IntCol xc) /\
    nth 3 mc 0 = (if F64.gtb (nth 3 macd NaN) (nth 3 signal NaN) then 1 else -1) /\
    nth 3 xc 0 = (if F64.gtb (nth 3 s7 NaN) (nth 3 s21 NaN) then 1 else -1) /\
    (Z.of_nat 3 < 20 -> nth 3 xc 0 = -1).
Proof.
  assert (Hd : parse_dates (day_numbers 22) = Ok (example_timestamps 22))
    by reflexivity.
  apply (crossover_flags (day_numbers 22) _ _ _ (rising_closes 22) _
           (example_timestamps 22) 3 Hd);
    [reflexivity | simpl; lia | simpl; lia].
Defined.

(** ** The stages leave the input columns alone *)

Section Keeps.

Lemma keeps_refl (name : string) (df : DataFrame) : keeps name df df.
Proof. split; reflexivity. Qed.

Lemma keeps_trans (name : string) (a b c : DataFrame) :
  keeps name a b -> keeps name b c -> keeps name a c.
Proof. intros [H1 H2] [H3 H4]. split; congruence. Qed.

Lemma keeps_setitem (name other : string) (df : DataFrame) (c : Column) :
  other <> name -> keeps name df (setitem df other c).
Proof. intros H. split; [reflexivity | now apply getitem_setitem_ne]. Qed.

Lemma keeps_setf (name other : string) (df : DataFrame) (v : Series) :
  other <> name -> keeps name df (setf df other v).
Proof. apply keeps_setitem. Qed.

Lemma keeps_seti (name other : string) (df : DataFrame) (v : list Z) :
  other <> name -> keeps name df (seti df other v).
Proof. apply keeps_setitem. Qed.

Lemma for_each_keeps {A : Type} (name : string) (l : list A)
    (body : A -> DataFrame -> result DataFrame) (df df' : DataFrame) :
  (forall x a b, In x l -> body x a = Ok b -> keeps name a b) ->
  for_each l body df = Ok df' -> keeps name df df'.
Proof.
  revert df. induction l as [| x l IH]; intros df Hb H; cbn [for_each] in H.
  - injection H as <-. apply keeps_refl.
  - destruct (body x df) as [d |] eqn:Ex; [| discriminate]. cbn [bind] in H.
    apply (keeps_trans name df d).
    + apply (Hb x); [now left | assumption].
    + apply IH; [| assumption]. intros y a b Hy. apply Hb. now right.
Qed.

Lemma bind_Ok_inv {A B : Type} (m : result A) (k : A -> result B) (b : B) :
  bind m k = Ok b -> exists a, m = Ok a /\ k a = Ok b.
Proof. destruct m as [a |]; [| discriminate]. intros H. now exists a. Qed.

End Keeps.

Ltac neq :=
  let Hq := fresh "Hq" in intro Hq; vm_compute in Hq; discriminate Hq.

(** One step of a run that returned: name the value of the next call. *)
Ltac run_step H :=
  lazymatch type of H with
  | bind _ _ = Ok _ =>
      let x := fresh "x" in
      let Hx := fresh "Hx" in
      apply bind_Ok_inv in H as (x & Hx & H); cbv beta zeta in H;
      lazymatch type of Hx with
      | for_each _ _ _ = _ => idtac
      | (if _ then _ else _) = _ => idtac
      | _ => clear Hx
      end
  | (if true then _ else _) = Ok _ => cbv iota in H
  | (if false then _ else _) = Ok _ => cbv iota in H
  | (if ?c then _ else _) = Ok _ => destruct c
  | (let _ := _ in _) = Ok _ => cbv zeta in H
  | match ?p with pair _ _ => _ end = Ok _ => destruct p
  end.

Ltac keeps_chain :=
  lazymatch goal with
  | |- keeps _ ?d ?d => apply keeps_refl
  | |- keeps ?n ?d (setf ?d' _ _) =>
      apply (keeps_trans n d d'); [keeps_chain | apply keeps_setf; neq]
  | |- keeps ?n ?d (seti ?d' _ _) =>
      apply (keeps_trans n d d'); [keeps_chain | apply keeps_seti; neq]
  | |- keeps ?n ?d (setitem ?d' _ _) =>
      apply (keeps_trans n d d'); [keeps_chain | apply keeps_setitem; neq]
  | Hfe : for_each ?l ?b ?d0 = Ok ?dx |- keeps ?n ?d ?dx =>
      apply (keeps_trans n d d0);
      [ keeps_chain
      | apply (for_each_keeps n l b d0 dx); [| exact Hfe];
        let x := fresh "p" in
        let a := fresh "a" in
        let b' := fresh "b" in
        let Hx := fresh "Hx" in
        let Hb := fresh "Hb" in
        intros x a b' Hx Hb;
        cbv [In MA_PERIODS LAG_PERIODS] in Hx;
        repeat (destruct Hx as [<- | Hx]); [.. | contradiction];
        cbv beta in Hb; repeat run_step Hb;
        injection Hb as <-; keeps_chain ]
  | Hif : (if ?c then _ else Ok ?d0) = Ok ?dx |- keeps ?n ?d ?dx =>
      apply (keeps_trans n d d0);
      [ keeps_chain
      | destruct c; repeat run_step Hif;
        first [ injection Hif as <-; keeps_chain | keeps_chain ] ]
  end.

Ltac stage_keeps H :=
  repeat run_step H; injection H as <-; keeps_chain.

Lemma price_stage_keeps `{E : Externals} (df d : DataFrame) (name : string) :
  In name input_names -> add_price_features df = Ok d -> keeps name df d.
Proof.
  intros Hn H. cbv [In input_names] in Hn.
  repeat (destruct Hn as [<- | Hn]); [.. | contradiction];
    unfold add_price_features in H; stage_keeps H.
Qed.

Lemma indicator_stage_keeps (df d : DataFrame) (name : string) :
  In name input_names -> add_technical_indicators df = Ok d -> keeps name df d.
Proof.
  intros Hn H. cbv [In input_names] in Hn.
  repeat (destruct Hn as [<- | Hn]); [.. | contradiction];
    unfold add_technical_indicators in H; stage_keeps H.
Qed.

Lemma lag_stage_keeps (df d : DataFrame) (name : string) :
  In name input_names -> add_lagged_features df None = Ok d -> keeps name df d.
Proof.
  intros Hn H. cbv [In input_names] in Hn.
  repeat (destruct Hn as [<- | Hn]); [.. | contradiction];
    unfold add_lagged_features in H; cbv zeta iota in H; stage_keeps H.
Qed.

Lemma target_stage_keeps (df d : DataFrame) (H : Z) (name : string) :
  In name input_names -> add_target_variables df H = Ok d -> keeps name df d.
Proof.
  intros Hn Hr. cbv [In input_names] in Hn.
  repeat (destruct Hn as [<- | Hn]); [.. | contradiction];
    unfold add_target_variables in Hr; stage_keeps Hr.
Qed.

Lemma time_stage_keeps `{E : Externals} (df d : DataFrame) (name : string) :
  In name input_names -> name <> "Date"%string ->
  add_time_features df = Ok d -> keeps name df d.
Proof.
  intros Hn Hd H. cbv [In input_names] in Hn.
  repeat (destruct Hn as [<- | Hn]); [.. | contradiction];
    try (now contradiction Hd);
    unfold add_time_features in H; stage_keeps H.
Qed.

(** X14.  The stages leave the input columns alone.  On any frame, not only
    a well-formed table of bars, a stage that returns has kept the number
    of rows and each of the columns Date, Open, High, Low, Close and
    Volume as it found it (the same column, or still missing); the one
    exception is [add_time_features], which replaces Date by its parsed
    timestamps. *)
Theorem stages_leave_input_columns `{E : Externals} (df : DataFrame)
    (name : string) :
  In name input_names ->
  (forall d, add_price_features df = Ok d -> keeps name df d) /\
  (forall d, add_technical_indicators df = Ok d -> keeps name df d) /\
  (forall d, add_lagged_features df None = Ok d -> keeps name df d) /\
  (forall d, add_time_features df = Ok d ->
     nrows d = nrows df /\
     (name <> "Date"%string -> getitem d name = getitem df name)) /\
  (forall d H, add_target_variables df H = Ok d -> keeps name df d).
Proof.
  intros Hn.
  split; [intros d; now apply price_stage_keeps |].
  split; [intros d; now apply indicator_stage_keeps |].
  split; [intros d; now apply lag_stage_keeps |].
  split; [| intros d H; now apply target_stage_keeps].
  intros d H. split.
  - apply (time_stage_keeps df d "Open"); [cbv; tauto | discriminate | exact H].
  - intros Hd. now apply (time_stage_keeps df d name).
Qed.

Lemma stages_leave_input_columns_witness :
  (forall d, add_price_features bars3 = Ok d -> keeps "Close" bars3 d) /\
  (forall d, add_technical_indicators bars3 = Ok d -> keeps "Close" bars3 d) /\
  (forall d, add_lagged_features bars3 None = Ok d -> keeps "Close" bars3 d) /\
  (forall d, add_time_features bars3 = Ok d ->
     nrows d = nrows bars3 /\
     ("Close"%string <> "Date"%string -> getitem d "Close" = getitem bars3 "Close")) /\
  (forall d H, add_target_variables bars3 H = Ok d -> keeps "Close" bars3 d).
Proof.
  apply (stages_leave_input_columns bars3 "Close"). cbv. tauto.
Defined.

(** ** A date that does not parse *)

Lemma parse_dates_lenient `{E : Externals} (l : list string) :
  @parse_dates (lenient E) l = Ok (map (fun _ => 0) l).
Proof.
  induction l as [| x l IH]; [reflexivity |].
  cbn [parse_dates map]. change (@to_datetime (lenient E) x) with (Some 0).
  cbv iota. now rewrite IH.
Qed.

Lemma add_price_features_lenient `{E : Externals} (df : DataFrame) :
  @add_price_features (lenient E) df = @add_price_features E df.
Proof. reflexivity. Qed.

Lemma parse_dates_rejects `{E : Externals} (l : list string) (x : string) :
  In x l -> to_datetime x = None ->
  exists msg, parse_dates l = Raise (ValueError msg).
Proof.
  induction l as [| y l IH]; [contradiction |].
  intros Hin Hx. cbn [parse_dates].
  destruct (to_datetime y) as [t |] eqn:Ey.
  - destruct Hin as [-> | Hin]; [congruence |].
    destruct (IH Hin Hx) as [msg ->]. now exists msg.
  - eexists. reflexivity.
Qed.

(** The three stages before [add_time_features] return on a table of bars
    whether its dates parse or not, and leave its Date column as text. *)
Lemma stages_before_time `{E : Externals} (date : list string)
    (open high low close volume : Series) :
  length open = length close ->
  exists d1 d2 d3,
    add_price_features (bars_frame date open high low close volume) = Ok d1 /\
    add_technical_indicators d1 = Ok d2 /\
    add_lagged_features d2 None = Ok d3 /\
    getitem d3 "Date" = Ok (ObjCol date).
Proof.
  intros Ho.
  pose proof (@feature_frame_eq (lenient E) date open high low close volume
                (map (fun _ => 0) date) (parse_dates_lenient date) Ho) as Hf.
  unfold feature_frame in Hf.
  apply bind_Ok_inv in Hf as (d1 & H1 & Hf).
  apply bind_Ok_inv in Hf as (d2 & H2 & Hf).
  apply bind_Ok_inv in Hf as (d3 & H3 & _).
  rewrite add_price_features_lenient in H1.
  exists d1, d2, d3. repeat split; try assumption.
  assert (Hin : In "Date"%string input_names) by (cbv; tauto).
  destruct (price_stage_keeps _ _ _ Hin H1) as [_ K1].
  destruct (indicator_stage_keeps _ _ _ Hin H2) as [_ K2].
  destruct (lag_stage_keeps _ _ _ Hin H3) as [_ K3].
  now rewrite K3, K2, K1.
Qed.

(** X15.  An unparsable date.  If one entry of the Date column is rejected by
    the timestamp parser, [process_single_file] raises the parser's
    ValueError: the price, indicator and lag stages have run by then, and
    nothing is returned to be written. *)
Theorem unparsable_date_raises `{E : Externals} (date : list string)
    (open high low close volume : Series) (x : string) :
  length open = length close ->
  In x date -> to_datetime x = None ->
  exists msg,
    process_single_file (bars_frame date open high low close volume) =
      Raise (ValueError msg) /\
    feature_frame (bars_frame date open high low close volume) =
      Raise (ValueError msg).
Proof.
  intros Ho Hin Hx.
  destruct (parse_dates_rejects date x Hin Hx) as [msg Hp].
  destruct (stages_before_time date open high low close volume Ho)
    as (d1 & d2 & d3 & H1 & H2 & H3 & Hd).
  assert (Ht : add_time_features d3 = Raise (ValueError msg)).
  { unfold add_time_features. rewrite Hd. cbn [bind pd_to_datetime].
    now rewrite Hp. }
  exists msg. split.
  - unfold process_single_file. rewrite H1. cbn [bind]. rewrite H2. cbn [bind].
    rewrite H3. cbn [bind]. now rewrite Ht.
  - unfold feature_frame. rewrite H1. cbn [bind]. rewrite H2. cbn [bind].
    rewrite H3. cbn [bind]. now rewrite Ht.
Qed.

Lemma unparsable_date_raises_witness :
  exists msg,
    process_single_file bars_bad_date = Raise (ValueError msg) /\
    feature_frame bars_bad_date = Raise (ValueError msg).
Proof.
  apply (unparsable_date_raises ["0"; "soon"; "2"]%string
           (prices [1; 2; 3]) (prices [2; 3; 4]) (prices [1; 1; 2])
           (prices [2; 2; 3]) (prices [9; 9; 9]) "soon"%string);
    [reflexivity | cbv; tauto | reflexivity].
Defined.

(** ** The lag stage needs the price stage *)

(** X16.  Stage order.  On a frame of at least two rows that has a Close
    column but no Return column (a raw table of bars, the price stage not
    run), [add_lagged_features] fails with KeyError 'Return' at its first
    lag; on a frame of at most one row whose RSI column is missing too it
    tests every window, adds nothing and returns the frame unchanged. *)
Theorem lag_stage_needs_return (df : DataFrame) (close : Series) :
  getf df "Close" = Ok close ->
  has_column df "Return" = false ->
  (1 < len df -> add_lagged_features df None = Raise (KeyError "Return")) /\
  (len df <= 1 -> has_column df "RSI" = false ->
     add_lagged_features df None = Ok df).
Proof.
  intros Hc Hr. split.
  - intros Hn. unfold add_lagged_features, LAG_PERIODS. cbn [for_each].
    destruct (Z.ltb_spec 1 (len df)) as [_ | Hf]; [| lia].
    rewrite Hc. cbn [bind]. unfold setf.
    rewrite getf_setitem_ne by neq.
    now rewrite (getf_missing df "Return" Hr).
  - intros Hn Hrsi. unfold add_lagged_features, LAG_PERIODS. cbn [for_each].
    repeat first
      [ progress cbn [bind]
      | rewrite Hrsi
      | match goal with
        | |- context [?p <? len df] =>
            destruct (Z.ltb_spec p (len df)) as [Hlt | _]; [lia |]
        end ].
    reflexivity.
Qed.

Lemma lag_stage_needs_return_witness :
  (1 < len bars3 -> add_lagged_features bars3 None = Raise (KeyError "Return")) /\
  (len bars3 <= 1 -> has_column bars3 "RSI" = false ->
     add_lagged_features bars3 None = Ok bars3).
Proof.
  apply (lag_stage_needs_return bars3 (prices [2; 2; 3])); reflexivity.
Defined.

(** ** The driver over all files *)

Section Driver.

Context `{E : Externals}.
Variable fs : FileSystem.
Variable base_dir : string.

Lemma pair_loop (timeframe input_dir : string) (pairs : list string) (run : Run) :
  fold_left
    (fun (run : Run) (pair : string) =>
       if path_exists fs (input_file input_dir pair timeframe) then
         match process_single_file_at fs
                 (input_file input_dir pair timeframe)
                 (output_file base_dir pair timeframe) (written run)
         with
         | (Ok df, files) =>
             {| results := results run ++
                  [ {| Pair := pair; Timeframe := timeframe;
                       Rows := len df;
                       Columns := Z.of_nat (length (columns df));
                       Status := Done |} ];
                written := files |}
         | (Raise e, files) =>
             {| results := results run ++
                  [ {| Pair := pair; Timeframe := timeframe;
                       Rows := 0; Columns := 0; Status := Failed |} ];
                written := files |}
         end
       else run) pairs run =
  {| results := results run ++
       flat_map (fun pair =>
         if path_exists fs (input_file input_dir pair timeframe)
         then [summary_row pair timeframe (outcome fs input_dir pair timeframe)]
         else []) pairs;
     written := written run ++
       flat_map (fun pair =>
         if path_exists fs (input_file input_dir pair timeframe) then
           match outcome fs input_dir pair timeframe with
           | Ok df => [(output_file base_dir pair timeframe, df)]
           | Raise _ => []
           end
         else []) pairs |}.
Proof.
  revert run. induction pairs as [| pair pairs IH]; intros run; cbn [fold_left flat_map].
  - rewrite !app_nil_r. now destruct run.
  - rewrite IH. clear IH.
    destruct (path_exists fs (input_file input_dir pair timeframe)).
    + unfold process_single_file_at, outcome.
      destruct (bind (read_csv fs (input_file input_dir pair timeframe))
                     (fun df => process_single_file df)) as [df | e];
        cbn [results written summary_row]; now rewrite <- !app_assoc.
    + reflexivity.
Qed.

Lemma process_all_data_eq :
  process_all_data fs base_dir =
  {| results := flat_map (rows_of fs) (INPUT_DIRS base_dir);
     written := flat_map (files_of fs base_dir) (INPUT_DIRS base_dir) |}.
Proof.
  unfold process_all_data.
  match goal with
  | |- fold_left ?f _ _ = _ =>
      assert (G : forall items run,
                fold_left f items run =
                {| results := results run ++ flat_map (rows_of fs) items;
                   written := written run ++ flat_map (files_of fs base_dir) items |})
  end.
  { induction items as [| [timeframe input_dir] items IH]; intros run;
      cbn [fold_left flat_map].
    - rewrite !app_nil_r. now destruct run.
    - rewrite IH. unfold rows_of at 2, files_of at 2. cbn [fst snd].
      destruct (path_exists fs input_dir); cbn [negb].
      + rewrite pair_loop. cbn [results written].
        now rewrite <- !app_assoc.
      + now rewrite !app_nil_l. }
  now rewrite G.
Qed.

Lemma files_follow_rows (item : string * string) :
  map fst (files_of fs base_dir item) =
  map (fun r => output_file base_dir (Pair r) (Timeframe r))
      (filter is_done (rows_of fs item)).
Proof.
  unfold files_of, rows_of. destruct (path_exists fs (snd item)); [| reflexivity].
  induction CURRENCY_PAIRS as [| pair pairs IH]; [reflexivity |].
  cbn [flat_map]. rewrite filter_app, !map_app, IH. f_equal.
  destruct (path_exists fs (input_file (snd item) pair (fst item)));
    [| reflexivity].
  unfold summary_row. now destruct (outcome fs (snd item) pair (fst item)).
Qed.

End Driver.



(** ** The hourly download in chunks *)

Section Chunks.

Variable start_date : Z.

Lemma chunk_loop_spec (fuel : nat) (current_end : Z) :
  (current_end - start_date) / timedelta_days 60 + 1 <= Z.of_nat fuel ->
  (* the loop stops by its own test, not for lack of fuel *)
  (forall extra, chunk_loop (fuel + extra) start_date current_end =
                 chunk_loop fuel start_date current_end) /\
  (* every request lies between the two dates and spans at most 59 days *)
  (forall s e, In (s, e) (chunk_loop fuel start_date current_end) ->
     start_date <= s /\ s < e /\ e <= current_end /\
     e - s <= timedelta_days 59) /\
  (* a request ends one day before the start of the request made before it *)
  (forall i s e s' e',
     nth_error (chunk_loop fuel start_date current_end) i = Some (s, e) ->
     nth_error (chunk_loop fuel start_date current_end) (S i) = Some (s', e') ->
     e' = s - timedelta_days 1) /\
  (* the number of requests *)
  Z.of_nat (length (chunk_loop fuel start_date current_end)) =
    (if current_end >? start_date
     then (current_end - start_date - 1) / timedelta_days 60 + 1 else 0).
Proof.
  unfold timedelta_days. revert current_end.
  induction fuel as [| fuel IH]; intros current_end Hfuel.
  - assert (Hle : current_end <= start_date).
    { destruct (Z.le_gt_cases current_end start_date) as [H | H]; [exact H |].
      assert (0 <= (current_end - start_date) / (60 * 86400000000))
        by (apply Z.div_pos; lia).
      lia. }
    assert (Hc : (current_end >? start_date) = false)
      by (rewrite Z.gtb_ltb; apply Z.ltb_ge; lia).
    cbn [Nat.add chunk_loop].
    split; [| split; [| split]].
    + intros [| extra]; cbn [chunk_loop]; [reflexivity | now rewrite Hc].
    + intros s e [].
    + intros i s e s' e' H. destruct i; discriminate H.
    + now rewrite Hc.
  - cbn [chunk_loop Nat.add]. cbv zeta. unfold timedelta_days.
    destruct (Z.gtb_spec current_end start_date) as [Hgt | Hle].
    + set (cs := Z.max (current_end - 59 * 86400000000) start_date).
      assert (Hcs : (current_end - 59 * 86400000000 <= start_date /\
                     cs = start_date) \/
                    (start_date < current_end - 59 * 86400000000 /\
                     cs = current_end - 59 * 86400000000)) by (unfold cs; lia).
      clearbody cs.
      assert (Hnext : (cs - 1 * 86400000000 - start_date) / (60 * 86400000000) + 1
                      <= Z.of_nat fuel).
      { destruct Hcs as [[Hs Ecs] | [Hs Ecs]].
        - assert ((cs - 1 * 86400000000 - start_date) / (60 * 86400000000) < 0)
            by (apply Z.div_lt_upper_bound; lia).
          lia.
        - replace (cs - 1 * 86400000000 - start_date)
            with ((current_end - start_date) + (-1) * (60 * 86400000000)) by lia.
          rewrite Z.div_add by lia. lia. }
      destruct (IH (cs - 1 * 86400000000) Hnext) as (Hstable & Hin & Hadj & Hlen).
      split; [| split; [| split]].
      * intros extra. now rewrite Hstable.
      * intros s e [[= <- <-] | H]; [lia |].
        destruct (Hin s e H) as (? & ? & ? & ?). lia.
      * intros i s e s' e' Hi Hi'. destruct i as [| i].
        -- cbn [nth_error] in Hi, Hi'. injection Hi as <- <-.
           destruct fuel as [| fuel']; [discriminate Hi' |].
           cbn [chunk_loop] in Hi'. cbv zeta in Hi'. unfold timedelta_days in Hi'.
           destruct (cs - 1 * 86400000000 >? start_date); [| discriminate Hi'].
           cbn [nth_error] in Hi'. now injection Hi' as _ <-.
        -- cbn [nth_error] in Hi, Hi'. exact (Hadj i s e s' e' Hi Hi').
      * cbn [length]. rewrite Nat2Z.inj_succ, Hlen.
        destruct (Z.gtb_spec (cs - 1 * 86400000000) start_date) as [Hg | Hg].
        -- assert (Ecs : cs = current_end - 59 * 86400000000) by lia.
           replace (cs - 1 * 86400000000 - start_date - 1)
             with ((current_end - start_date - 1) + (-1) * (60 * 86400000000))
             by lia.
           rewrite Z.div_add by lia. lia.
        -- assert (Hsmall : current_end - start_date - 1 < 60 * 86400000000)
             by lia.
           rewrite Z.div_small by lia. lia.
    + split; [| split; [| split]].
      * intros extra. reflexivity.
      * intros s e [].
      * intros i s e s' e' H. destruct i; discriminate H.
      * reflexivity.
Qed.

End Chunks.

Lemma strftime_day_before (t : Z) :
  strftime_day (t - timedelta_days 1) = strftime_day t - 1.
Proof.
  unfold strftime_day, timedelta_days.
  replace (t - 1 * 86400000000) with (t + (-1) * 86400000000) by lia.
  rewrite Z.div_add by lia. lia.
Qed.

(** X18.  The hourly download walks back in chunks.  Whatever the clock
    returns, the loop of [download_hourly_data_chunked] stops by its own
    test (more iterations change nothing); when now is later than
    2020-01-01 it makes one request per 60 days of the span, rounded up,
    and none otherwise; every request starts on or after 2020-01-01, ends
    no later than now and covers at most 59 days; and each request ends
    exactly one day before the start of the request made just before it,
    so the date it passes as [end] is the calendar day before that start
    date. *)
Theorem hourly_requests_walk_back (now : Z) :
  (forall fuel : nat,
     (chunk_fuel hourly_start_date now <= fuel)%nat ->
     chunk_loop fuel hourly_start_date now = hourly_requests now) /\
  (forall s e, In (s, e) (hourly_requests now) ->
     hourly_start_date <= s /\ s < e /\ e <= now /\
     e - s <= timedelta_days 59 /\
     0 <= strftime_day e - strftime_day s <= 59) /\
  (forall i s e s' e',
     nth_error (hourly_requests now) i = Some (s, e) ->
     nth_error (hourly_requests now) (S i) = Some (s', e') ->
     e' = s - timedelta_days 1 /\ strftime_day e' = strftime_day s - 1) /\
  Z.of_nat (length (hourly_requests now)) =
    (if now >? hourly_start_date
     then (now - hourly_start_date - 1) / timedelta_days 60 + 1 else 0).
Proof.
  assert (Hfuel : (now - hourly_start_date) / timedelta_days 60 + 1 <=
                  Z.of_nat (chunk_fuel hourly_start_date now))
    by (unfold chunk_fuel; lia).
  destruct (chunk_loop_spec hourly_start_date _ now Hfuel)
    as (Hstable & Hin & Hadj & Hlen).
  fold (hourly_requests now) in Hstable, Hin, Hadj, Hlen.
  split.
  { intros fuel Hf.
    replace fuel with (chunk_fuel hourly_start_date now +
                       (fuel - chunk_fuel hourly_start_date now))%nat by lia.
    apply Hstable. }
  split.
  { intros s e H. destruct (Hin s e H) as (H1 & H2 & H3 & H4).
    repeat split; try assumption.
    - unfold strftime_day.
      assert (s / 86400000000 <= e / 86400000000)
        by (apply Z.div_le_mono; lia).
      lia.
    - unfold strftime_day, timedelta_days in *.
      assert (Hd : e / 86400000000 <= (s + 59 * 86400000000) / 86400000000)
        by (apply Z.div_le_mono; lia).
      rewrite Z.div_add in Hd by lia. lia. }
  split; [| exact Hlen].
  intros i s e s' e' Hi Hi'.
  rewrite (Hadj i s e s' e' Hi Hi'). split; [reflexivity |].
  apply strftime_day_before.
Qed.

(** ** Tables too short to keep a row *)

Lemma nth_roll_unobserved (agg : list float -> float) (s : Series) (n t : nat)
    (x : float) :
  In x (Pd.window s n t) -> F64.is_nan x = true ->
  nth t (Pd.roll agg s n) NaN = NaN.
Proof.
  intros Hin Hx. destruct (Nat.lt_ge_cases t (length s)) as [Ht | Ht].
  - rewrite nth_roll by assumption.
    assert (Ho : Pd.observed (Pd.window s n t) = false).
    { unfold Pd.observed. apply not_true_is_false. intros Hall.
      rewrite forallb_forall in Hall. apply Hall in Hin.
      rewrite Hx in Hin. discriminate. }
    now rewrite Ho, andb_false_r.
  - apply nth_overflow. now rewrite length_roll.
Qed.

Lemma window_holds_first_row (s : Series) (t : nat) :
  (t < length s)%nat -> In (nth 0 s NaN) (Pd.window s (t + 1) t).
Proof.
  intros Ht. unfold Pd.window.
  replace (t + 1 - (t + 1))%nat with 0%nat by lia. cbn [skipn].
  assert (E : nth 0 (firstn (t + 1) s) NaN = nth 0 s NaN).
  { rewrite nth_firstn. destruct (Nat.ltb_spec 0 (t + 1)); [reflexivity | lia]. }
  rewrite <- E. apply nth_In. rewrite length_firstn. lia.
Qed.

Lemma first_return_undefined (close : Series) :
  nth 0 (Pd.pct_change close 1) NaN = NaN.
Proof.
  destruct (Nat.lt_ge_cases 0 (length close)) as [Hl | Hl].
  - rewrite nth_pct_change by assumption. rewrite at_out by lia.
    now rewrite F64Facts.div_nan_r, F64Facts.sub_nan_l.
  - apply nth_overflow. rewrite length_pct_change. lia.
Qed.

(** The 20-row volatility of the one-row return is undefined on rows
    0 .. 19: the first return does not exist. *)
Lemma volatility_20_warm_up (close : Series) (t : nat) :
  (t <= 19)%nat ->
  nth t (Pd.roll (Pd.std 1) (Pd.pct_change close 1) (Z.to_nat 20)) NaN = NaN.
Proof.
  intros Ht. destruct (Nat.eq_dec t 19) as [-> | Hne].
  - destruct (Nat.lt_ge_cases 19 (length close)) as [Hl | Hl].
    + apply (nth_roll_unobserved _ _ _ _ (nth 0 (Pd.pct_change close 1) NaN)).
      * change (Z.to_nat 20) with (19 + 1)%nat.
        apply window_holds_first_row. now rewrite length_pct_change.
      * now rewrite first_return_undefined.
    + apply nth_overflow. rewrite length_roll, length_pct_change. lia.
  - apply nth_roll_incomplete. change (Z.to_nat 20) with 20%nat. lia.
Qed.

(** X19.  Short tables.  Volatility_20 is computed whatever the row count and
    is undefined on rows 0 .. 19, Return_lag_21 (added once there are more
    than 21 rows) on rows 0 .. 21, and Target_Close on the last row.  So a
    table of at most 23 bars is cleaned to an empty frame, without any
    error, and a longer one keeps at most n - 23 rows. *)
Theorem short_tables_clean_to_nothing `{E : Externals} (date : list string)
    (open high low close volume : Series) (ts : list Z) :
  parse_dates date = Ok ts ->
  length open = length close ->
  exists out,
    process_single_file (bars_frame date open high low close volume) = Ok out /\
    (length close <= 23 -> nrows out = 0)%nat /\
    (nrows out <= length close - 23)%nat.
Proof.
  intros Hd Ho.
  destruct (feature_frame_representative date open high low close volume ts Hd Ho)
    as (K & HK & Hg & Hf).
  set (f := mkDataFrame (length close)
              (feature_columns (fun p => p <? K) ts open high low close volume))
    in *.
  assert (Gvol : getitem f "Volatility_20" =
                 Ok (FloatCol (Pd.roll (Pd.std 1) (Pd.pct_change close 1)
                                       (Z.to_nat 20))))
    by (unfold f; each_row_count HK; reflexivity).
  assert (Gtc : getitem f "Target_Close" = Ok (FloatCol (next_close_column close 1)))
    by (unfold f; each_row_count HK; reflexivity).
  assert (Glag : 21 < Z.of_nat (length close) ->
                 getitem f "Return_lag_21" =
                 Ok (FloatCol (Pd.shift (Pd.pct_change close 1) 21))).
  { intros Hn.
    assert (H21 : (21 <? K) = true).
    { rewrite <- Hg by (cbv [guarded_periods In]; tauto). apply Z.ltb_lt. lia. }
    unfold f. each_row_count HK; try discriminate H21; reflexivity. }
  assert (Hvol : forall i : nat, (i <= 19)%nat -> row_has_na f i = true).
  { intros i Hi. apply (row_has_na_intro f _ _ i Gvol).
    now rewrite volatility_20_warm_up. }
  assert (Hlast : forall i : nat, (i + 1 = length close)%nat ->
                  row_has_na f i = true).
  { intros i Hi. apply (row_has_na_intro f _ _ i Gtc).
    rewrite nth_next_close_column by lia. now rewrite at_out by lia. }
  assert (Hlag : forall i : nat, (21 < length close)%nat -> (i <= 21)%nat ->
                 row_has_na f i = true).
  { intros i Hn Hi. apply (row_has_na_intro f _ _ i (Glag ltac:(lia))).
    rewrite nth_shift by (rewrite length_pct_change; lia).
    destruct (Nat.eq_dec i 21) as [-> | Hne].
    - replace (Z.of_nat 21 - 21) with (Z.of_nat 0) by lia.
      now rewrite at_nat, first_return_undefined.
    - now rewrite at_out by lia. }
  exists (dropna f).
  split; [rewrite process_single_file_eq, Hf; reflexivity |].
  rewrite nrows_dropna. unfold kept_rows.
  change (nrows f) with (length close).
  destruct (Nat.le_gt_cases (length close) 23) as [Hs | Hs].
  - assert (Hnone : filter (fun i => negb (row_has_na f i)) (seq 0 (length close)) = []).
    { apply filter_none. intros i Hi. apply in_seq in Hi. apply negb_false_iff.
      destruct (Nat.le_gt_cases i 19) as [H19 | H19]; [now apply Hvol |].
      destruct (Nat.eq_dec (i + 1) (length close)) as [Hl | Hl];
        [now apply Hlast |].
      apply Hlag; lia. }
    rewrite Hnone. split; [reflexivity | simpl; lia].
  - split; [lia |].
    destruct (kept_between (fun i => negb (row_has_na f i)) 22 (length close - 1)
                (length close)) as [Hle _].
    + lia.
    + intros i Hi. apply negb_false_iff. apply Hlag; lia.
    + intros i Hi. apply negb_false_iff. apply Hlast. lia.
    + lia.
Qed.

Lemma short_tables_clean_to_nothing_witness :
  exists out,
    process_single_file bars3 = Ok out /\
    (3 <= 23 -> nrows out = 0)%nat /\
    (nrows out <= 3 - 23)%nat.
Proof.
  assert (Hd : parse_dates (day_numbers 3) = Ok (example_timestamps 3))
    by reflexivity.
  exact (short_tables_clean_to_nothing
           (day_numbers 3) (prices [1; 2; 3]) (prices [2; 3; 4])
           (prices [1; 1; 2]) (prices [2; 2; 3]) (prices [9; 9; 9])
           (example_timestamps 3) Hd eq_refl).
Defined.

